(** * Network core of the hexapod client: a shallow embedding

  The Python sources embedded here are
    - [src/core/thread_safe.py]    (ThreadSafeValue),
    - [src/core/connections.py]    (SocketConnection, DummyConnection),
    - [src/core/video.py]          (VideoStream),
    - [src/core/network_manager.py] (NetworkManager),
    - [Main.py]                    (NetworkManager.connect with its [retry]
                                  decorator, MyWindow.receive_instruction),
    - [src/utils/utils.py]         (retry).

  Conventions.  A Python method that mutates [self] becomes a function from
  the old object to the new one; a method that may raise returns an
  [outcome]; objects that are shared by reference (the connections) live in
  a store and are named by their index.  Python floats that are only ever
  multiplied by powers of two and added (the back-off delays) are rationals.
  Threads are not run concurrently: starting a thread records that its body
  is pending, and the body is a function of its own that is run as one
  step.  Logging is kept where it tells how a component went on (the reader
  loop, the managers) and left out of the connection classes.

  A module-level name that a file uses without binding it ([threading] in
  connections.py, [ConnectionState] in video.py, [logging] in Main.py) is
  the NameError that Python raises where the name is read; an attribute
  that a class of the sources does not have ([_stop_threads], a setter for
  [ThreadSafeCounter.value]) is the AttributeError that Python raises.
  Numbers that a library call refuses (a negative timeout or delay, a port
  outside 0..65535) are the ValueError or OverflowError of that call; hosts
  are taken to be addresses that resolve, and timeouts and delays to be
  small enough for the platform's clock. *)

From stdpp Require Import base list.
From Stdlib Require Import ZArith QArith String Ascii Lia.
From Stdlib.Strings Require Import Byte.
Import ListNotations.

Open Scope string_scope.
Open Scope Z_scope.
Open Scope list_scope.

(** ** Exceptions and outcomes *)

(** The classes of [src/utils/exceptions.py], and the built-in exceptions
  the code meets: [OSError] (with [socket.error] and [socket.timeout]),
  [AttributeError], [NameError], [ValueError] (with UnicodeDecodeError),
  [OverflowError], and [OtherException] for any other [Exception]
  (TypeError, IndexError, ...). *)
Inductive exn : Type :=
| RobotError
| ConnectionError
| CommandError
| NetworkError
| TimeoutError
| InvalidStateError
| OSError
| AttributeError
| NameError
| ValueError
| OverflowError
| OtherException.

#[global] Instance exn_eq_dec : EqDecision exn.
Proof. solve_decision. Defined.

Inductive outcome (A : Type) : Type :=
| Return (a : A)
| Raise (e : exn).
Arguments Return {A} a.
Arguments Raise {A} e.

Definition is_raise {A} (o : outcome A) : bool :=
match o with Raise _ => true | Return _ => false end.

(** Modelled from the spec: the module [interfaces] (ConnectionState,
  IConnection, IVideoStream) is imported by the core files and is not among
  the sources; the enumeration is the one of the data model. *)
Inductive ConnectionState : Type :=
| DISCONNECTED
| CONNECTING
| CONNECTED
| DISCONNECTING
| ERROR.

#[global] Instance ConnectionState_eq_dec : EqDecision ConnectionState.
Proof. solve_decision. Defined.

(** Log records: level and message (interpolated values are left out). *)
Inductive level : Type := DEBUG | INFO | WARNING | LOG_ERROR | CRITICAL.

Definition log_entry : Type := (level * string)%type.

(** ** ThreadSafeValue ([src/core/thread_safe.py]) *)

Module ThreadSafe.
Section ThreadSafeValue.

(** [T] is the type of the stored value, compared with Python's [!=];
    [W] is whatever the observers act on.  A callback either returns or
    raises an [Exception]; it does not call back into the container that
    notifies it. *)
Context {T : Type} `{EqDecision T} {W : Type}.

Inductive cb_outcome : Type := CbReturn | CbRaise.

Record callback : Type := {
  cb_id : nat;
  cb_run : T -> T -> W -> cb_outcome * W
}.

(** What a call does, in order: entering and leaving a [with self._lock]
    block, calling a callback, logging the exception of a callback. *)
Inductive event : Type :=
| Acquire
| Release
| Invoke (id : nat) (old new : T)
| LogCallbackError (id : nat).

Record ThreadSafeValue : Type := {
  _value : T;
  _name : string;
  _callbacks : list callback
}.

Definition with_value (t : ThreadSafeValue) (v : T) : ThreadSafeValue :=
  {| _value := v; _name := _name t; _callbacks := _callbacks t |}.

Definition with_callbacks (t : ThreadSafeValue) (cbs : list callback)
  : ThreadSafeValue :=
  {| _value := _value t; _name := _name t; _callbacks := cbs |}.

Definition init (initial_value : T) (name : string) : ThreadSafeValue :=
  {| _value := initial_value; _name := name; _callbacks := [] |}.

(** [value] getter. *)
Definition value (t : ThreadSafeValue) : T * list event :=
  (_value t, [Acquire; Release]).

(** The [for callback in self._callbacks[:]] loop with its [try/except]. *)
Fixpoint notify_loop (cbs : list callback) (old new : T) (w : W)
  : W * list event :=
  match cbs with
  | [] => (w, [])
  | cb :: rest =>
      let '(r, w1) := cb_run cb old new w in
      let caught :=
        match r with
        | CbReturn => []
        | CbRaise => [LogCallbackError (cb_id cb)]
        end in
      let '(w2, evs) := notify_loop rest old new w1 in
      (w2, Invoke (cb_id cb) old new :: caught ++ evs)
  end.

Definition _notify_observers (old new : T) (t : ThreadSafeValue) (w : W)
  : W * list event :=
  let '(w', evs) := notify_loop (_callbacks t) old new w in
  (w', Acquire :: evs ++ [Release]).

(** [value] setter. *)
Definition set_value (new_value : T) (t : ThreadSafeValue) (w : W)
  : ThreadSafeValue * W * list event :=
  if decide (_value t <> new_value) then
    let old_value := _value t in
    let t' := with_value t new_value in
    let '(w', evs) := _notify_observers old_value new_value t' w in
    (t', w', Acquire :: evs ++ [Release])
  else (t, w, [Acquire; Release]).

Definition set_value_if (condition : bool) (true_value false_value : T)
  (t : ThreadSafeValue) (w : W) : ThreadSafeValue * W * list event :=
  set_value (if condition then true_value else false_value) t w.

Definition has_callback (id : nat) (t : ThreadSafeValue) : bool :=
  existsb (fun cb => Nat.eqb (cb_id cb) id) (_callbacks t).

Definition add_callback (cb : callback) (t : ThreadSafeValue)
  : ThreadSafeValue :=
  if has_callback (cb_id cb) t then t
  else with_callbacks t (_callbacks t ++ [cb]).

(** [list.remove] deletes the first occurrence. *)
Fixpoint remove_first (id : nat) (cbs : list callback) : list callback :=
  match cbs with
  | [] => []
  | cb :: rest =>
      if Nat.eqb (cb_id cb) id then rest else cb :: remove_first id rest
  end.

Definition remove_callback (cb : callback) (t : ThreadSafeValue)
  : ThreadSafeValue :=
  if has_callback (cb_id cb) t
  then with_callbacks t (remove_first (cb_id cb) (_callbacks t))
  else t.

(** *** Reading a trace *)

(** The calls made, in order. *)
Fixpoint invocations (evs : list event) : list (nat * T * T) :=
  match evs with
  | [] => []
  | Invoke id old new :: rest => (id, old, new) :: invocations rest
  | _ :: rest => invocations rest
  end.

(** How many times the re-entrant lock is held at each call, when it is
    held [depth] times at the start of the trace. *)
Fixpoint invoke_depths (depth : nat) (evs : list event) : list nat :=
  match evs with
  | [] => []
  | Acquire :: rest => invoke_depths (S depth) rest
  | Release :: rest => invoke_depths (pred depth) rest
  | Invoke _ _ _ :: rest => depth :: invoke_depths depth rest
  | LogCallbackError _ :: rest => invoke_depths depth rest
  end.

(** The observers' world after all of [cbs] ran, raising or not. *)
Definition run_all (cbs : list callback) (old new : T) (w : W) : W :=
  fold_left (fun w cb => snd (cb_run cb old new w)) cbs w.

End ThreadSafeValue.
Arguments ThreadSafeValue : clear implicits.
Arguments callback : clear implicits.
Arguments event : clear implicits.
End ThreadSafe.

(** ** Bytes on the wire *)

Definition bytes : Type := list byte.

Definition byte_to_Z (b : byte) : Z := Z.of_N (Byte.to_N b).

Definition byte_of_Z (z : Z) : byte :=
match Byte.of_N (Z.to_N (Z.land z 255)) with
| Some b => b
| None => x00
end.

(** [struct.unpack('<L', header)[0]]: defined on exactly four bytes. *)
Definition unpack_le32 (header : bytes) : option Z :=
match header with
| [b0; b1; b2; b3] =>
    Some (Z.lor (byte_to_Z b0)
         (Z.lor (Z.shiftl (byte_to_Z b1) 8)
         (Z.lor (Z.shiftl (byte_to_Z b2) 16)
                (Z.shiftl (byte_to_Z b3) 24))))
| _ => None
end.

(** [struct.pack('<L', n)], used by the tests to build headers. *)
Definition pack_le32 (n : Z) : bytes :=
[byte_of_Z n; byte_of_Z (Z.shiftr n 8);
 byte_of_Z (Z.shiftr n 16); byte_of_Z (Z.shiftr n 24)].

(** ** Connections ([src/core/connections.py]) *)

Module Connections.

(** *** The operating-system socket underneath a SocketConnection

    The behaviour of the peer is a script: whether the transport connect
    succeeds, and what successive [recv] and [sendall] calls meet.  The
    scripts are finite and describe peers that close the connection in the
    end: an exhausted [sock_inbox] is the end of the stream, [recv] then
    returns the empty byte string.  A peer that is silent for a while is a
    run of [SockTimeout] in the script.  [sock_closed] is a socket whose
    descriptor is gone: every call on it fails with OSError. *)
Inductive sock_event : Type :=
| SockData (data : bytes)
| SockTimeout
| SockError.

Record socket : Type := {
  sock_connect_ok : bool;
  sock_inbox : list sock_event;
  sock_send_faults : list sock_event;
  sock_sent : list bytes;
  sock_timeout : option Q;
  sock_closed : bool
}.

Inductive recv_result : Type :=
| RecvBytes (data : bytes)
| RecvTimeout
| RecvOSError.

Definition set_inbox (s : socket) (inbox : list sock_event) : socket :=
{| sock_connect_ok := sock_connect_ok s; sock_inbox := inbox;
   sock_send_faults := sock_send_faults s; sock_sent := sock_sent s;
   sock_timeout := sock_timeout s; sock_closed := sock_closed s |}.

Definition settimeout (t : option Q) (s : socket) : socket :=
{| sock_connect_ok := sock_connect_ok s; sock_inbox := sock_inbox s;
   sock_send_faults := sock_send_faults s; sock_sent := sock_sent s;
   sock_timeout := t; sock_closed := sock_closed s |}.

(** [sock.recv(size)]: at most [size] bytes of the data at the head of the
    stream; what is not taken stays for the next call. *)
Definition sock_recv (size : nat) (s : socket) : recv_result * socket :=
if sock_closed s then (RecvOSError, s)
else match sock_inbox s with
     | [] => (RecvBytes [], s)
     | SockData data :: rest =>
         (RecvBytes (take size data),
          set_inbox s (match drop size data with
                       | [] => rest
                       | more => SockData more :: rest
                       end))
     | SockTimeout :: rest => (RecvTimeout, set_inbox s rest)
     | SockError :: rest => (RecvOSError, set_inbox s rest)
     end.

(** [sock.sendall(data)]: [None] on success. *)
Definition sock_sendall (data : bytes) (s : socket) : recv_result * socket :=
if sock_closed s then (RecvOSError, s)
else match sock_send_faults s with
     | SockTimeout :: rest =>
         (RecvTimeout,
          {| sock_connect_ok := sock_connect_ok s; sock_inbox := sock_inbox s;
             sock_send_faults := rest; sock_sent := sock_sent s;
             sock_timeout := sock_timeout s; sock_closed := sock_closed s |})
     | SockError :: rest =>
         (RecvOSError,
          {| sock_connect_ok := sock_connect_ok s; sock_inbox := sock_inbox s;
             sock_send_faults := rest; sock_sent := sock_sent s;
             sock_timeout := sock_timeout s; sock_closed := sock_closed s |})
     | faults =>
         (RecvBytes [],
          {| sock_connect_ok := sock_connect_ok s; sock_inbox := sock_inbox s;
             sock_send_faults := tl faults;
             sock_sent := sock_sent s ++ [data];
             sock_timeout := sock_timeout s; sock_closed := sock_closed s |})
     end.

(** The network as the constructors of connections see it: the sockets that
    [socket.socket(AF_INET, SOCK_STREAM)] hands out, in order.  When the list
    is used up a socket to an unreachable peer is handed out. *)
Definition Net : Type := list socket.

Definition unreachable : socket :=
{| sock_connect_ok := false; sock_inbox := []; sock_send_faults := [];
   sock_sent := []; sock_timeout := None; sock_closed := false |}.

Definition new_socket (net : Net) : socket * Net :=
match net with
| [] => (unreachable, [])
| s :: rest => (s, rest)
end.

(** *** The capability set of a connection (IConnection)

    [conn_new] is the call of the class, which may raise.  Sizes are
    natural numbers: every caller passes a positive size.  The logging
    calls of the connection classes are left out. *)
Class IConnection (C : Type) : Type := {
  conn_new : Net -> outcome C * Net;
  conn_state : C -> ConnectionState;
  conn_connect : option string -> Z -> C -> outcome unit * C;
  conn_disconnect : C -> outcome unit * C;
  conn_send : bytes -> option Q -> C -> outcome (option Z) * C;
  conn_receive : nat -> option Q -> C -> outcome bytes * C;
  conn_close : C -> outcome unit * C
}.

(** *** SocketConnection *)

Record SocketConnection : Type := {
  _sock : option socket;
  _state : ConnectionState;
  _host : option string;
  _port : option Z;
  _timeout : Q
}.

Definition sc_set_state (v : ConnectionState) (c : SocketConnection)
  : SocketConnection :=
{| _sock := _sock c; _state := v; _host := _host c; _port := _port c;
   _timeout := _timeout c |}.

Definition sc_set_sock (s : option socket) (c : SocketConnection)
  : SocketConnection :=
{| _sock := s; _state := _state c; _host := _host c; _port := _port c;
   _timeout := _timeout c |}.

(** [SocketConnection()]: no socket is passed, a new one is made; the next
    statement but one reads [threading], which connections.py does not
    import, and no object comes of the call. *)
Definition sc_new (net : Net) : outcome SocketConnection * Net :=
let '(s, net') := new_socket net in
(Raise NameError, net').

(** [sock.settimeout(timeout)] refuses a negative value with ValueError;
    [sock.connect((host, port))] refuses a port outside 0..65535 with
    OverflowError. *)
Definition timeout_ok (timeout : Q) : bool := Qle_bool 0 timeout.

Definition port_ok (port : Z) : bool := (0 <=? port) && (port <=? 65535).

(** [host] is [None] when the caller passes an unset [Optional[str]].  The
    statements of the [try] block in their order: [setsockopt],
    [settimeout], [connect]; only OSError is caught. *)
Definition sc_connect (host : option string) (port : Z) (timeout : Q)
  (c : SocketConnection) : outcome unit * SocketConnection :=
if decide (_state c = CONNECTED) then (Return tt, c)
else
  let c1 := {| _sock := _sock c; _state := CONNECTING; _host := host;
               _port := Some port; _timeout := timeout |} in
  match _sock c1 with
  | None =>
      (* [self._sock.setsockopt] on [None]: AttributeError, not caught *)
      (Raise AttributeError, c1)
  | Some s =>
      if sock_closed s then
        (* [setsockopt] on a closed socket: OSError *)
        (Raise ConnectionError, sc_set_state DISCONNECTED c1)
      else if negb (timeout_ok timeout) then
        (* [settimeout]: ValueError, not caught *)
        (Raise ValueError, c1)
      else
        let s1 := settimeout (Some timeout) s in
        match host with
        | None =>
            (* [connect((None, port))]: TypeError, not caught *)
            (Raise OtherException, sc_set_sock (Some s1) c1)
        | Some _ =>
            if negb (port_ok port) then
              (* OverflowError, not caught *)
              (Raise OverflowError, sc_set_sock (Some s1) c1)
            else if negb (sock_connect_ok s1) then
              (Raise ConnectionError,
               sc_set_state DISCONNECTED (sc_set_sock (Some s1) c1))
            else
              (Return tt, sc_set_state CONNECTED (sc_set_sock (Some s1) c1))
        end
  end.

Definition sc_close (c : SocketConnection) : outcome unit * SocketConnection :=
if decide (_state c = DISCONNECTED) then (Return tt, c)
else (Return tt, sc_set_state DISCONNECTED (sc_set_sock None c)).

(** [shutdown] may fail; the failure is swallowed and [close] runs in the
    [finally] clause either way. *)
Definition sc_disconnect (c : SocketConnection)
  : outcome unit * SocketConnection :=
if decide (_state c = DISCONNECTED) then (Return tt, c)
else sc_close c.

(** [if timeout is not None: self._sock.settimeout(timeout)], which stands
    before the [try] of [send] and of [receive]: what it raises is not
    caught.  It raises ValueError on a negative timeout and OSError on a
    closed socket. *)
Definition timed (timeout : option Q) (s : socket) : socket :=
match timeout with
| Some t => settimeout (Some t) s
| None => s
end.

Definition settimeout_raises (timeout : option Q) (s : socket) : option exn :=
match timeout with
| None => None
| Some t =>
    if negb (timeout_ok t) then Some ValueError
    else if sock_closed s then Some OSError
    else None
end.

Definition sc_send (data : bytes) (timeout : option Q) (c : SocketConnection)
  : outcome (option Z) * SocketConnection :=
if decide (_state c <> CONNECTED) then (Raise ConnectionError, c)
else
  match _sock c with
  | None => (Raise AttributeError, c)
  | Some s =>
      match settimeout_raises timeout s with
      | Some e => (Raise e, c)
      | None =>
          let s1 := timed timeout s in
          match sock_sendall data s1 with
          | (RecvBytes _, s2) => (Return None, sc_set_sock (Some s2) c)
          | (RecvTimeout, s2) => (Raise TimeoutError, sc_set_sock (Some s2) c)
          | (RecvOSError, s2) =>
              (Raise ConnectionError,
               sc_set_state DISCONNECTED (sc_set_sock (Some s2) c))
          end
      end
  end.

Definition sc_receive (size : nat) (timeout : option Q) (c : SocketConnection)
  : outcome bytes * SocketConnection :=
if decide (_state c <> CONNECTED) then (Raise ConnectionError, c)
else
  match _sock c with
  | None => (Raise AttributeError, c)
  | Some s =>
    match settimeout_raises timeout s with
    | Some e => (Raise e, c)
    | None =>
      let s1 := timed timeout s in
      match sock_recv size s1 with
      | (RecvBytes [], s2) =>
          (* [if not data]: closed by the peer *)
          (Raise ConnectionError,
           sc_set_state DISCONNECTED (sc_set_sock (Some s2) c))
      | (RecvBytes data, s2) => (Return data, sc_set_sock (Some s2) c)
      | (RecvTimeout, s2) => (Raise TimeoutError, sc_set_sock (Some s2) c)
      | (RecvOSError, s2) =>
          (Raise ConnectionError,
           sc_set_state DISCONNECTED (sc_set_sock (Some s2) c))
      end
    end
  end.

#[global] Instance SocketConnection_IConnection : IConnection SocketConnection := {
  conn_new := sc_new;
  conn_state := _state;
  conn_connect := fun host port => sc_connect host port 5;
  conn_disconnect := sc_disconnect;
  conn_send := sc_send;
  conn_receive := sc_receive;
  conn_close := sc_close
}.

(** *** DummyConnection *)

Record DummyConnection : Type := {
  d_state : ConnectionState;
  d_buffer : bytes
}.

(** [DummyConnection()]: the second statement reads [threading], which
    connections.py does not import. *)
Definition dc_new (net : Net) : outcome DummyConnection * Net :=
(Raise NameError, net).

Definition dc_connect (host : option string) (port : Z) (c : DummyConnection)
  : outcome unit * DummyConnection :=
(Return tt, {| d_state := CONNECTED; d_buffer := d_buffer c |}).

Definition dc_disconnect (c : DummyConnection)
  : outcome unit * DummyConnection :=
(Return tt, {| d_state := DISCONNECTED; d_buffer := d_buffer c |}).

Definition dc_send (data : bytes) (timeout : option Q) (c : DummyConnection)
  : outcome (option Z) * DummyConnection :=
if decide (d_state c <> CONNECTED) then (Raise ConnectionError, c)
else (Return (Some (Z.of_nat (List.length data))),
      {| d_state := d_state c; d_buffer := d_buffer c ++ data |}).

(** [bytes(self._buffer[:size])], then [self._buffer = self._buffer[size:]]. *)
Definition dc_receive (size : nat) (timeout : option Q) (c : DummyConnection)
  : outcome bytes * DummyConnection :=
if decide (d_state c <> CONNECTED) then (Raise ConnectionError, c)
else (Return (take size (d_buffer c)),
      {| d_state := d_state c; d_buffer := drop size (d_buffer c) |}).

Definition dc_close (c : DummyConnection) : outcome unit * DummyConnection :=
(Return tt, {| d_state := DISCONNECTED; d_buffer := [] |}).

#[global] Instance DummyConnection_IConnection : IConnection DummyConnection := {
  conn_new := dc_new;
  conn_state := d_state;
  conn_connect := dc_connect;
  conn_disconnect := dc_disconnect;
  conn_send := dc_send;
  conn_receive := dc_receive;
  conn_close := dc_close
}.

End Connections.

(** A [threading.Thread] that has been started: [alive] until its body has
    returned.  [join] on a thread whose loop has been told to stop is taken
    to succeed within its timeout. *)
Record thread : Type := { alive : bool }.

(** ** VideoStream ([src/core/video.py]) *)

Module Video.
Import Connections.

(** [_running] and [_current_frame] are ThreadSafeValues on which no callback
    is ever registered; they are plain cells here (see
    [ThreadSafeFacts.set_value_unobserved]).  [_conn] names the connection in
    the store of its owner; the reader below is handed the object itself. *)
Record VideoStream : Type := {
  _conn : nat;
  _frame_callback : option (bytes -> bool);
  _running : bool;
  _thread : option thread;
  _current_frame : option bytes;
  _frame_ready : bool
}.

Definition init (connection : nat) (frame_callback : option (bytes -> bool))
  : VideoStream :=
{| _conn := connection; _frame_callback := frame_callback; _running := false;
   _thread := None; _current_frame := None; _frame_ready := false |}.

Definition set_running (b : bool) (v : VideoStream) : VideoStream :=
{| _conn := _conn v; _frame_callback := _frame_callback v; _running := b;
   _thread := _thread v; _current_frame := _current_frame v;
   _frame_ready := _frame_ready v |}.

Definition set_frame (frame : bytes) (v : VideoStream) : VideoStream :=
{| _conn := _conn v; _frame_callback := _frame_callback v;
   _running := _running v; _thread := _thread v;
   _current_frame := Some frame; _frame_ready := true |}.


(** [get_frame]: [Event.wait(timeout)] answers with the flag as it stands
    once the wait is over.  With no timeout the wait is over only when the
    flag is set: see [get_frame_blocks]. *)
Definition get_frame (timeout : option Q) (v : VideoStream) : option bytes :=
if negb (_running v) then None
else if _frame_ready v then _current_frame v
else None.


(** [stop]. *)
Definition stop (v : VideoStream) : VideoStream :=
if negb (_running v) then v
else {| _conn := _conn v; _frame_callback := _frame_callback v;
        _running := false; _thread := None;
        _current_frame := _current_frame v; _frame_ready := true |}.

Section Reader.
Context {C : Type} `{IConnection C}.

(** [start], given the connection object [self._conn].  On a stream that
    is not running the state of the connection is to be compared with
    [ConnectionState.CONNECTED]: video.py does not import [ConnectionState],
    and the statements after the comparison are never reached. *)
Definition start (c : C) (v : VideoStream) : outcome unit * VideoStream :=
if _running v then (Return tt, v)
else (Raise NameError, v).

(** What the reader thread works on: the stream object, its connection, the
    log, the pauses taken, and every [receive] it made with its answer. *)
Record reader : Type := {
  vs : VideoStream;
  conn : C;
  log : list log_entry;
  slept : list Q;
  reads : list (nat * outcome bytes)
}.

Definition set_vs (v : VideoStream) (r : reader) : reader :=
{| vs := v; conn := conn r; log := log r; slept := slept r;
   reads := reads r |}.

Definition add_log (e : log_entry) (r : reader) : reader :=
{| vs := vs r; conn := conn r; log := log r ++ [e]; slept := slept r;
   reads := reads r |}.

Definition sleep (d : Q) (r : reader) : reader :=
{| vs := vs r; conn := conn r; log := log r; slept := slept r ++ [d];
   reads := reads r |}.

(** [self._conn.receive(size, timeout=1.0)]. *)
Definition receive (size : nat) (r : reader) : outcome bytes * reader :=
let '(o, c') := conn_receive size (Some 1%Q) (conn r) in
(o, {| vs := vs r; conn := c'; log := log r; slept := slept r;
       reads := reads r ++ [(size, o)] |}).

Definition MAX_FRAME_LENGTH : Z := 10 * 1024 * 1024.

(** The loop [while remaining > 0 and self._running.value]; [None] when
    [fuel] iterations did not end it. *)
Fixpoint read_payload (fuel : nat) (remaining : Z) (frame_data : bytes)
  (r : reader) : option (outcome bytes * reader) :=
if (0 <? remaining) && _running (vs r) then
  match fuel with
  | O => None
  | S fuel' =>
      let '(o, r1) := receive (Z.to_nat (Z.min 4096 remaining)) r in
      match o with
      | Raise e => Some (Raise e, r1)
      | Return [] => Some (Return frame_data, r1)
      | Return chunk =>
          read_payload fuel' (remaining - Z.of_nat (List.length chunk))
            (frame_data ++ chunk) r1
      end
  end
else Some (Return frame_data, r).

(** The body of the inner [try] of one turn of the reader loop: [Return]
    when it runs to its end or reaches a [continue], [Raise] when an
    exception leaves it. *)
Definition stream_body (r : reader) : option (outcome unit * reader) :=
let '(o, r1) := receive 4 r in
match o with
| Raise e => Some (Raise e, r1)
| Return header =>
    if decide (List.length header <> 4%nat) then
      Some (Return tt, add_log (WARNING, "Invalid frame header received") r1)
    else
      match unpack_le32 header with
      | None => Some (Raise OtherException, r1)
      | Some frame_length =>
          if (frame_length =? 0) || (MAX_FRAME_LENGTH <? frame_length) then
            Some (Return tt, add_log (WARNING, "Invalid frame length") r1)
          else
            match read_payload (Z.to_nat frame_length) frame_length [] r1 with
            | None => None
            | Some (Raise e, r2) => Some (Raise e, r2)
            | Some (Return frame_data, r2) =>
                if decide (Z.of_nat (List.length frame_data) <> frame_length)
                then Some (Return tt,
                           add_log (WARNING, "Incomplete frame received") r2)
                else
                  let r3 := set_vs (set_frame frame_data (vs r2)) r2 in
                  match _frame_callback (vs r3) with
                  | None => Some (Return tt, r3)
                  | Some callback =>
                      if callback frame_data then Some (Return tt, r3)
                      else Some (Return tt,
                                 add_log (LOG_ERROR, "Error in frame callback")
                                   r3)
                  end
            end
      end
end.

(** How one turn of the loop ends. *)
Inductive turn : Type := Continue | Break.

(** One turn with the two [except] clauses. *)
Definition stream_iteration (r : reader) : option (turn * reader) :=
match stream_body r with
| None => None
| Some (Return _, r') => Some (Continue, r')
| Some (Raise ConnectionError, r') =>
    Some (Break,
          set_vs (set_running false (vs r'))
            (add_log (LOG_ERROR, "Connection error in video stream") r'))
| Some (Raise _, r') =>
    Some (Continue,
          sleep (1 # 10) (add_log (LOG_ERROR, "Error in video stream") r'))
end.

(** [while self._running.value]; [None] when the loop is still going after
    [fuel] turns. *)
Fixpoint stream_while (fuel : nat) (r : reader) : option reader :=
if _running (vs r) then
  match fuel with
  | O => None
  | S fuel' =>
      match stream_iteration r with
      | None => None
      | Some (Break, r') => Some r'
      | Some (Continue, r') => stream_while fuel' r'
      end
  end
else Some r.

(** [_stream_loop], with its [finally] clause. *)
Definition _stream_loop (fuel : nat) (r : reader) : option reader :=
match stream_while fuel r with
| None => None
| Some r' =>
    Some (add_log (INFO, "Video stream loop ended")
            (set_vs (set_running false (vs r')) r'))
end.

End Reader.
Arguments reader : clear implicits.
End Video.

(** ** NetworkManager ([src/core/network_manager.py]) *)

Module Manager.
Import Connections.

(** Modelled from the spec: the class CommandProcessor (module [commands])
    is constructed and driven by the manager and is not among the sources.
    It is the CommandChannel of the spec, a framing layer that owns one
    connection, and is kept abstract: it is built from the reference of its
    connection and its methods act on the store of connections. [R] is the
    type of the responses of [send_command]. *)
Class ICommandProcessor (P C R : Type) : Type := {
  cp_new : nat -> P;
  cp_start : P -> list C -> outcome unit * P * list C;
  cp_stop : P -> list C -> outcome unit * P * list C;
  cp_send_command :
    string -> option Q -> P -> list C -> outcome R * P * list C
}.

(** What the manager does to the outside, in order. *)
Inductive event : Type :=
| Build (i : nat)
| ConnectCall (i : nat) (port : Z) (o : outcome unit)
| DisconnectCall (i : nat)
| CloseCall (i : nat)
| Sleep (d : Q).

Section NetworkManager.
Context {C : Type} `{IConnection C} {P R : Type} `{ICommandProcessor P C R}.

(** The surroundings of a manager: the store of the connection objects made
    so far (a reference is an index), the network, the trace and the log. *)
Record World : Type := {
  conns : list C;
  net : Net;
  trace : list event;
  log : list log_entry
}.

Definition set_conns (cs : list C) (w : World) : World :=
{| conns := cs; net := net w; trace := trace w; log := log w |}.

Definition add_event (e : event) (w : World) : World :=
{| conns := conns w; net := net w; trace := trace w ++ [e]; log := log w |}.

Definition add_log (e : log_entry) (w : World) : World :=
{| conns := conns w; net := net w; trace := trace w; log := log w ++ [e] |}.

(** [time.sleep(d)] for a delay that is not negative. *)
Definition sleep (d : Q) (w : World) : World := add_event (Sleep d) w.

(** [self._connection_class()]: when the class raises no object is made. *)
Definition build (w : World) : outcome nat * World :=
match conn_new (net w) with
| (Return c, net') =>
    let i := List.length (conns w) in
    (Return i,
     {| conns := conns w ++ [c]; net := net'; trace := trace w ++ [Build i];
        log := log w |})
| (Raise e, net') =>
    (Raise e,
     {| conns := conns w; net := net'; trace := trace w; log := log w |})
end.

(** A method call on the object behind a reference; a reference to nothing
    raises. *)
Definition call {A : Type} (i : nat) (f : C -> outcome A * C) (w : World)
  : outcome A * World :=
match conns w !! i with
| None => (Raise OtherException, w)
| Some c => let '(o, c') := f c in (o, set_conns (<[i := c']> (conns w)) w)
end.

Record NetworkManager : Type := {
  _reconnect_attempts : Z;
  _reconnect_delay : Q;
  _state : ConnectionState;
  _control_conn : option nat;
  _video_conn : option nat;
  _video_stream : option Video.VideoStream;
  _command_processor : option P;
  _host : option string;
  _control_port : Z;
  _video_port : Z;
  _reconnect_thread : option thread;
  _stop_event : bool
}.

(** [NetworkManager(connection_class, reconnect_attempts, reconnect_delay)];
    the connection class is the instance [IConnection C]. *)
Definition init (reconnect_attempts : Z) (reconnect_delay : Q)
  : NetworkManager :=
{| _reconnect_attempts := reconnect_attempts;
   _reconnect_delay := reconnect_delay;
   _state := DISCONNECTED;
   _control_conn := None; _video_conn := None;
   _video_stream := None; _command_processor := None;
   _host := None; _control_port := 5002; _video_port := 8002;
   _reconnect_thread := None; _stop_event := false |}.

Definition with_state (v : ConnectionState) (m : NetworkManager)
  : NetworkManager :=
{| _reconnect_attempts := _reconnect_attempts m;
   _reconnect_delay := _reconnect_delay m;
   _state := v;
   _control_conn := _control_conn m; _video_conn := _video_conn m;
   _video_stream := _video_stream m;
   _command_processor := _command_processor m;
   _host := _host m; _control_port := _control_port m;
   _video_port := _video_port m;
   _reconnect_thread := _reconnect_thread m; _stop_event := _stop_event m |}.

Definition with_conns (control video : option nat) (m : NetworkManager)
  : NetworkManager :=
{| _reconnect_attempts := _reconnect_attempts m;
   _reconnect_delay := _reconnect_delay m;
   _state := _state m;
   _control_conn := control; _video_conn := video;
   _video_stream := _video_stream m;
   _command_processor := _command_processor m;
   _host := _host m; _control_port := _control_port m;
   _video_port := _video_port m;
   _reconnect_thread := _reconnect_thread m; _stop_event := _stop_event m |}.

Definition with_video_stream (v : option Video.VideoStream)
  (m : NetworkManager) : NetworkManager :=
{| _reconnect_attempts := _reconnect_attempts m;
   _reconnect_delay := _reconnect_delay m;
   _state := _state m;
   _control_conn := _control_conn m; _video_conn := _video_conn m;
   _video_stream := v;
   _command_processor := _command_processor m;
   _host := _host m; _control_port := _control_port m;
   _video_port := _video_port m;
   _reconnect_thread := _reconnect_thread m; _stop_event := _stop_event m |}.

Definition with_command_processor (p : option P) (m : NetworkManager)
  : NetworkManager :=
{| _reconnect_attempts := _reconnect_attempts m;
   _reconnect_delay := _reconnect_delay m;
   _state := _state m;
   _control_conn := _control_conn m; _video_conn := _video_conn m;
   _video_stream := _video_stream m;
   _command_processor := p;
   _host := _host m; _control_port := _control_port m;
   _video_port := _video_port m;
   _reconnect_thread := _reconnect_thread m; _stop_event := _stop_event m |}.

Definition with_target (host : string) (control_port video_port : Z)
  (m : NetworkManager) : NetworkManager :=
{| _reconnect_attempts := _reconnect_attempts m;
   _reconnect_delay := _reconnect_delay m;
   _state := _state m;
   _control_conn := _control_conn m; _video_conn := _video_conn m;
   _video_stream := _video_stream m;
   _command_processor := _command_processor m;
   _host := Some host; _control_port := control_port;
   _video_port := video_port;
   _reconnect_thread := _reconnect_thread m; _stop_event := _stop_event m |}.

Definition with_thread (t : option thread) (stop_event : bool)
  (m : NetworkManager) : NetworkManager :=
{| _reconnect_attempts := _reconnect_attempts m;
   _reconnect_delay := _reconnect_delay m;
   _state := _state m;
   _control_conn := _control_conn m; _video_conn := _video_conn m;
   _video_stream := _video_stream m;
   _command_processor := _command_processor m;
   _host := _host m; _control_port := _control_port m;
   _video_port := _video_port m;
   _reconnect_thread := t; _stop_event := stop_event |}.

(** [state] getter and setter. *)
Definition state (m : NetworkManager) : ConnectionState := _state m.

Definition set_state (value : ConnectionState) (m : NetworkManager) (w : World)
  : NetworkManager * World :=
let old_state := _state m in
(with_state value m,
 if decide (old_state <> value)
 then add_log (INFO, "Connection state changed") w
 else w).

Definition is_connected (m : NetworkManager) : bool :=
bool_decide (state m = CONNECTED).

(** [_stop_reconnect_thread]: a thread that is still alive is told to stop
    and joined. *)
Definition _stop_reconnect_thread (m : NetworkManager) : NetworkManager :=
match _reconnect_thread m with
| Some t => if alive t then with_thread None true m
            else with_thread None (_stop_event m) m
| None => with_thread None (_stop_event m) m
end.

(** [conn.disconnect(); conn.close()] inside [try/except Exception], for one
    element of [[self._control_conn, self._video_conn]].  [report] tells
    whether the handler logs ([_disconnect]) or passes
    ([_cleanup_connections]). *)
Definition shut (report : bool) (conn : option nat) (w : World) : World :=
match conn with
| None => w
| Some i =>
    let '(o1, w1) := call i conn_disconnect (add_event (DisconnectCall i) w) in
    let '(o, w') :=
      match o1 with
      | Raise e => (Raise e, w1)
      | Return _ => call i conn_close (add_event (CloseCall i) w1)
      end in
    if is_raise o && report
    then add_log (LOG_ERROR, "Error closing connection") w'
    else w'
end.

(** The part shared by [_disconnect] and [_cleanup_connections]: stop and
    drop the two channels, shut and drop the two connections. *)
Definition teardown (report : bool) (m : NetworkManager) (w : World)
  : NetworkManager * World :=
let m1 := with_video_stream None m in
let '(m2, w2) :=
  match _command_processor m1 with
  | None => (m1, w)
  | Some p =>
      let '(o, _, cs) := cp_stop p (conns w) in
      (with_command_processor None m1,
       if is_raise o && report
       then add_log (LOG_ERROR, "Error stopping command processor")
              (set_conns cs w)
       else set_conns cs w)
  end in
let w3 := shut report (_control_conn m2) w2 in
let w4 := shut report (_video_conn m2) w3 in
(with_conns None None m2, w4).

Definition _disconnect (m : NetworkManager) (w : World)
  : NetworkManager * World :=
if decide (state m = DISCONNECTED) then (m, w)
else
  let '(m1, w1) := set_state DISCONNECTING m w in
  let '(m2, w2) := teardown true m1 w1 in
  let '(m3, w3) := set_state DISCONNECTED m2 w2 in
  (m3, add_log (INFO, "Disconnected from robot") w3).

Definition _cleanup_connections (m : NetworkManager) (w : World)
  : NetworkManager * World :=
teardown false m w.

(** [disconnect]. *)
Definition disconnect (m : NetworkManager) (w : World)
  : outcome unit * NetworkManager * World :=
let '(m', w') := _disconnect (_stop_reconnect_thread m) w in
(Return tt, m', w').

(** [connect]: the thread is started and its body, [_connect_loop], is left
    pending. *)
Definition connect (host : string) (control_port video_port : Z)
  (m : NetworkManager) (w : World) : outcome unit * NetworkManager * World :=
if decide (state m = CONNECTED) then
  (Return tt, m, add_log (WARNING, "Already connected") w)
else
  let m1 := with_target host control_port video_port m in
  let m2 := _stop_reconnect_thread m1 in
  let '(m3, w3) := _disconnect m2 w in
  let '(m4, w4) := set_state CONNECTING m3 w3 in
  (Return tt, with_thread (Some {| alive := true |}) false m4, w4).

(** The [try] block of one turn of [_connect_loop], up to the point where
    the lock is taken: the two connections are made and connected one after
    the other, then the two channels are made and started. *)
Definition attempt (m : NetworkManager) (w : World)
  : outcome (nat * nat * P * Video.VideoStream) * World :=
match build w with
| (Raise e, w1) => (Raise e, w1)
| (Return control_conn, w1) =>
let '(o1, w2) :=
  call control_conn (conn_connect (_host m) (_control_port m)) w1 in
let w2 := add_event (ConnectCall control_conn (_control_port m) o1) w2 in
match o1 with
| Raise e => (Raise e, w2)
| Return _ =>
    match build w2 with
    | (Raise e, w3) => (Raise e, w3)
    | (Return video_conn, w3) =>
    let '(o2, w4) :=
      call video_conn (conn_connect (_host m) (_video_port m)) w3 in
    let w4 := add_event (ConnectCall video_conn (_video_port m) o2) w4 in
    match o2 with
    | Raise e => (Raise e, w4)
    | Return _ =>
        let command_processor : P := cp_new control_conn in
        let video_stream := Video.init video_conn None in
        let '(o3, command_processor, cs) :=
          cp_start command_processor (conns w4) in
        let w5 := set_conns cs w4 in
        match o3 with
        | Raise e => (Raise e, w5)
        | Return _ =>
            match conns w5 !! video_conn with
            | None => (Raise OtherException, w5)
            | Some c =>
                match Video.start c video_stream with
                | (Raise e, _) => (Raise e, w5)
                | (Return _, video_stream) =>
                    (Return (control_conn, video_conn, command_processor,
                             video_stream), w5)
                end
            end
        end
    end
    end
end
end.

(** [2 ** (attempt - 1)] times the configured delay. *)
Definition backoff (reconnect_delay : Q) (attempt : Z) : Q :=
(reconnect_delay * inject_Z (2 ^ (attempt - 1)))%Q.

(** The [while] loop of [_connect_loop] from a given value of [attempt];
    [None] when [fuel] turns did not end it.  [time.sleep] stands in the
    handler of ConnectionError: the ValueError with which it refuses a
    negative delay is caught by nothing and ends the body of the thread. *)
Fixpoint connect_while (fuel : nat) (attempt_no : Z) (m : NetworkManager)
  (w : World) : option (outcome unit * NetworkManager * World) :=
if negb (_stop_event m) && (attempt_no <? _reconnect_attempts m) then
  match fuel with
  | O => None
  | S fuel' =>
      let w0 := if 0 <? attempt_no
                then add_log (INFO, "Reconnection attempt") w
                else w in
      match attempt m w0 with
      | (Return (control_conn, video_conn, command_processor, video_stream),
         w1) =>
          let m1 :=
            with_video_stream (Some video_stream)
              (with_command_processor (Some command_processor)
                 (with_conns (Some control_conn) (Some video_conn) m)) in
          let '(m2, w2) := set_state CONNECTED m1 w1 in
          Some (Return tt, m2, add_log (INFO, "Connected") w2)
      | (Raise ConnectionError, w1) =>
          let attempt_no := attempt_no + 1 in
          let w2 := add_log (LOG_ERROR, "Connection attempt failed") w1 in
          let '(m1, w3) := _cleanup_connections m w2 in
          if _reconnect_attempts m <=? attempt_no then
            let w4 := add_log (LOG_ERROR, "Failed to connect") w3 in
            let '(m2, w5) := set_state DISCONNECTED m1 w4 in
            Some (Return tt, m2, w5)
          else if Qle_bool 0 (backoff (_reconnect_delay m) attempt_no) then
            connect_while fuel' attempt_no m1
              (sleep (backoff (_reconnect_delay m) attempt_no) w3)
          else Some (Raise ValueError, m1, w3)
      | (Raise _, w1) =>
          let w2 :=
            add_log (CRITICAL, "Unexpected error during connection") w1 in
          let '(m1, w3) := set_state DISCONNECTED m w2 in
          let '(m2, w4) := _cleanup_connections m1 w3 in
          Some (Return tt, m2, w4)
      end
  end
else Some (Return tt, m, w).

(** [_connect_loop]: [attempt = 0], then the loop. *)
Definition _connect_loop (fuel : nat) (m : NetworkManager) (w : World)
  : option (outcome unit * NetworkManager * World) :=
connect_while fuel 0 m w.

(** The reconnect thread, once it gets to run: its body is [_connect_loop],
    after which it is no longer alive, whether the body has returned or
    raised. *)
Definition run_reconnect_thread (fuel : nat) (m : NetworkManager) (w : World)
  : option (outcome unit * NetworkManager * World) :=
match _reconnect_thread m with
| Some {| alive := true |} =>
    match _connect_loop fuel m w with
    | Some (o, m', w') =>
        Some (o, with_thread (Some {| alive := false |}) (_stop_event m') m',
              w')
    | None => None
    end
| _ => Some (Return tt, m, w)
end.

(** [send_command]. *)
Definition send_command (command : string) (timeout : option Q)
  (m : NetworkManager) (w : World) : outcome R * NetworkManager * World :=
match is_connected m, _command_processor m with
| true, Some p =>
    let '(o, p', cs) := cp_send_command command timeout p (conns w) in
    (o, with_command_processor (Some p') m, set_conns cs w)
| _, _ => (Raise ConnectionError, m, w)
end.

(** [get_video_frame]. *)
Definition get_video_frame (timeout : option Q) (m : NetworkManager)
  : option bytes :=
match is_connected m, _video_stream m with
| true, Some v => Video.get_frame timeout v
| _, _ => None
end.

(** What the code builds, connects and waits for, read off a trace. *)
Definition builds (tr : list event) : list nat :=
omap (fun e => match e with Build i => Some i | _ => None end) tr.

Definition sleeps (tr : list event) : list Q :=
omap (fun e => match e with Sleep d => Some d | _ => None end) tr.

(** The connections on which [disconnect] or [close] is called, call by
    call. *)
Definition shuts (tr : list event) : list nat :=
omap (fun e => match e with
               | DisconnectCall i | CloseCall i => Some i
               | _ => None
               end) tr.





(** [w'] differs from [w] by no new connection, no wait and no use of the
    network. *)
Definition quiet (w w' : World) : Prop :=
net w' = net w
/\ builds (trace w') = builds (trace w)
/\ sleeps (trace w') = sleeps (trace w).

(** The settings that only the constructor and [connect] write. *)
Definition same_settings (m m' : NetworkManager) : Prop :=
_reconnect_attempts m' = _reconnect_attempts m
/\ _reconnect_delay m' = _reconnect_delay m
/\ _host m' = _host m
/\ _control_port m' = _control_port m
/\ _video_port m' = _video_port m
/\ _stop_event m' = _stop_event m
/\ _reconnect_thread m' = _reconnect_thread m.

Definition thread_alive (m : NetworkManager) : bool :=
match _reconnect_thread m with
| Some t => alive t
| None => false
end.

Definition channels_present (m : NetworkManager) : bool :=
match _command_processor m, _video_stream m with
| Some _, Some _ => true
| _, _ => false
end.

(** What holds of a manager between two calls: when it is connected it has
    its two channels, and the reconnect thread is pending only while the
    state is Connecting. *)
Definition consistent (m : NetworkManager) : bool :=
(if is_connected m then channels_present m else true)
&& (if thread_alive m then bool_decide (state m = CONNECTING) else true).

End NetworkManager.
Arguments World : clear implicits.
Arguments NetworkManager : clear implicits.
End Manager.

(** ** The [retry] decorator ([src/utils/utils.py]) *)

Module Utils.
Section Retry.
Context {St A : Type}.

(** [for attempt in range(attempt, max_attempts + 1)] with [todo] turns left.
    [catches] is the tuple [exceptions]; [warn] is the call of
    [logger.warning] and [pause] is [time.sleep] for a delay that is not
    negative.  A negative delay is refused by [time.sleep] with ValueError,
    which leaves the handler and the decorated call.  [current_delay] is
    held as an exact number: the products of the code are exact as long as
    the numbers are whole and below 2^53 (see [Schedule.whole]). *)
Fixpoint retry_from (todo : nat) (max_attempts : Z) (backoff : Q)
  (catches : exn -> bool) (warn : St -> St) (pause : Q -> St -> St)
  (func : St -> outcome A * St)
  (attempt : Z) (current_delay : Q) (s : St) : outcome A * St :=
match todo with
| O => (Raise RobotError, s)
| S todo' =>
    match func s with
    | (Return a, s') => (Return a, s')
    | (Raise e, s') =>
        if catches e then
          if attempt =? max_attempts then (Raise RobotError, s')
          else if Qle_bool 0 current_delay then
            retry_from todo' max_attempts backoff catches warn pause func
              (attempt + 1) (current_delay * backoff)%Q
              (pause current_delay (warn s'))
          else (Raise ValueError, warn s')
        else (Raise e, s')
    end
end.

Definition retry (max_attempts : Z) (delay backoff : Q)
  (catches : exn -> bool) (warn : St -> St) (pause : Q -> St -> St)
  (func : St -> outcome A * St) (s : St) : outcome A * St :=
retry_from (Z.to_nat max_attempts) max_attempts backoff catches warn pause func
  1 delay s.

End Retry.
End Utils.

(** ** The NetworkManager of [Main.py] *)

Module MainPy.
Import Connections.

(** [Main.py] has its own enumeration of four states. *)
Inductive ConnectionState : Type :=
| DISCONNECTED
| CONNECTING
| CONNECTED
| ERROR.

#[global] Instance ConnectionState_eq_dec : EqDecision ConnectionState.
Proof. solve_decision. Defined.

(** The part of [Client] the manager touches ([src/core/client.py]); the
    attributes [client_socket] and [client_socket1] are [None] until they are
    assigned. *)
Record Client : Type := {
  tcp_flag : bool;
  _client_socket : option socket;
  _command_socket : option socket;
  client_socket : option socket;
  client_socket1 : option socket
}.

Record NetworkManager : Type := {
  client : Client;
  _state : ConnectionState;
  _stop_event : bool;
  _reconnect_attempts : Z;
  video_thread : option thread;
  instruction_thread : option thread;
  video_socket : option socket;
  instruction_socket : option socket;
  ip : option string;
  port : option Z;
  video_port : option Z;
  _video_thread_running : bool;
  _instruction_thread_running : bool
}.

(** The manager with what it acts on: the network, the pauses taken by
    [retry], the log. *)
Record system : Type := {
  mgr : NetworkManager;
  net : Net;
  slept : list Q;
  log : list log_entry
}.

Definition SOCKET_TIMEOUT : Q := 1.

Definition init (c : Client) : NetworkManager :=
{| client := c; _state := DISCONNECTED; _stop_event := false;
   _reconnect_attempts := 0; video_thread := None;
   instruction_thread := None; video_socket := None;
   instruction_socket := None; ip := None; port := None; video_port := None;
   _video_thread_running := false; _instruction_thread_running := false |}.

Definition with_mgr (m : NetworkManager) (s : system) : system :=
{| mgr := m; net := net s; slept := slept s; log := log s |}.

Definition add_log (e : log_entry) (s : system) : system :=
{| mgr := mgr s; net := net s; slept := slept s; log := log s ++ [e] |}.

Definition pause (d : Q) (s : system) : system :=
{| mgr := mgr s; net := net s; slept := slept s ++ [d]; log := log s |}.

Definition with_state (v : ConnectionState) (m : NetworkManager)
  : NetworkManager :=
{| client := client m; _state := v; _stop_event := _stop_event m;
   _reconnect_attempts := _reconnect_attempts m;
   video_thread := video_thread m; instruction_thread := instruction_thread m;
   video_socket := video_socket m; instruction_socket := instruction_socket m;
   ip := ip m; port := port m; video_port := video_port m;
   _video_thread_running := _video_thread_running m;
   _instruction_thread_running := _instruction_thread_running m |}.

Definition with_stop_event (b : bool) (m : NetworkManager) : NetworkManager :=
{| client := client m; _state := _state m; _stop_event := b;
   _reconnect_attempts := _reconnect_attempts m;
   video_thread := video_thread m; instruction_thread := instruction_thread m;
   video_socket := video_socket m; instruction_socket := instruction_socket m;
   ip := ip m; port := port m; video_port := video_port m;
   _video_thread_running := _video_thread_running m;
   _instruction_thread_running := _instruction_thread_running m |}.

Definition with_target (i : string) (p vp : Z) (m : NetworkManager)
  : NetworkManager :=
{| client := client m; _state := _state m; _stop_event := _stop_event m;
   _reconnect_attempts := _reconnect_attempts m;
   video_thread := video_thread m; instruction_thread := instruction_thread m;
   video_socket := video_socket m; instruction_socket := instruction_socket m;
   ip := Some i; port := Some p; video_port := Some vp;
   _video_thread_running := _video_thread_running m;
   _instruction_thread_running := _instruction_thread_running m |}.

Definition with_sockets (instruction video : option socket)
  (m : NetworkManager) : NetworkManager :=
{| client := client m; _state := _state m; _stop_event := _stop_event m;
   _reconnect_attempts := _reconnect_attempts m;
   video_thread := video_thread m; instruction_thread := instruction_thread m;
   video_socket := video; instruction_socket := instruction;
   ip := ip m; port := port m; video_port := video_port m;
   _video_thread_running := _video_thread_running m;
   _instruction_thread_running := _instruction_thread_running m |}.

Definition with_client (c : Client) (m : NetworkManager) : NetworkManager :=
{| client := c; _state := _state m; _stop_event := _stop_event m;
   _reconnect_attempts := _reconnect_attempts m;
   video_thread := video_thread m; instruction_thread := instruction_thread m;
   video_socket := video_socket m; instruction_socket := instruction_socket m;
   ip := ip m; port := port m; video_port := video_port m;
   _video_thread_running := _video_thread_running m;
   _instruction_thread_running := _instruction_thread_running m |}.

Definition state (m : NetworkManager) : ConnectionState := _state m.

(** [_set_state] with [_on_state_changed]: [Client] has no
    [on_connection_state_changed], so the change is only logged. *)
Definition _set_state (new_state : ConnectionState) (s : system) : system :=
if decide (_state (mgr s) <> new_state)
then add_log (INFO, "Connection state changed")
       (with_mgr (with_state new_state (mgr s)) s)
else s.

(** [_create_socket] (the second definition in the class is the one in
    force): a new socket with its timeout set.  [settimeout] fails with
    OSError on a socket that is handed out closed. *)
Definition _create_socket (s : system) : outcome socket * system :=
let '(sock, net') := new_socket (net s) in
(if sock_closed sock then Raise OSError
 else Return (settimeout (Some SOCKET_TIMEOUT) sock),
 {| mgr := mgr s; net := net'; slept := slept s; log := log s |}).

(** [sock.connect((ip, port))] on a socket that [_create_socket] has
    returned; [ip] is a string.  A port outside 0..65535 is refused with
    OverflowError, which is no OSError. *)
Definition sock_connect (sock : socket) (port : Z) : outcome unit :=
if negb (port_ok port) then Raise OverflowError
else if sock_connect_ok sock then Return tt
else Raise OSError.

(** [start_threads]. *)
Definition start_threads (m : NetworkManager)
  : outcome unit * NetworkManager :=
if decide (state m <> CONNECTED) then (Raise InvalidStateError, m)
else if _video_thread_running m || _instruction_thread_running m
then (Raise InvalidStateError, m)
else
  (Return tt,
   {| client := client m; _state := _state m; _stop_event := false;
      _reconnect_attempts := _reconnect_attempts m;
      video_thread := Some {| alive := true |};
      instruction_thread := Some {| alive := true |};
      video_socket := video_socket m;
      instruction_socket := instruction_socket m;
      ip := ip m; port := port m; video_port := video_port m;
      _video_thread_running := true; _instruction_thread_running := true |}).

(** [disconnect]: the class has no method [_stop_threads], the call to it
    raises AttributeError and what follows it is never reached. *)
Definition disconnect (s : system) : outcome unit * system :=
if decide (state (mgr s) = DISCONNECTED) then (Return tt, s)
else
  let s1 := _set_state DISCONNECTED s in
  (Raise AttributeError, with_mgr (with_stop_event true (mgr s1)) s1).

(** [_handle_connection_error]: its first statement is
    [logging.error(error)], and nothing in Main.py binds the name [logging]
    (the logger of the module is [logger]).  The NameError leaves the
    method before [_set_state(ConnectionState.ERROR)] and [stop_threads()]
    are reached. *)
Definition _handle_connection_error (s : system) : outcome unit * system :=
(Raise NameError, s).

(** [Client.turn_on_client]: two new sockets, then their timeouts.  The
    OSError of [settimeout] on a socket that is handed out closed clears
    [tcp_flag] and is raised again. *)
Definition turn_on_client (s : system) : outcome unit * system :=
let '(s1, net1) := new_socket (net s) in
let '(s2, net2) := new_socket net1 in
let c := client (mgr s) in
let failed := sock_closed s1 || sock_closed s2 in
(if failed then Raise OSError else Return tt,
 {| mgr := with_client
             {| tcp_flag := negb failed;
                _client_socket :=
                  Some (if sock_closed s1 then s1
                        else settimeout (Some 5%Q) s1);
                _command_socket :=
                  Some (if failed then s2 else settimeout (Some 5%Q) s2);
                client_socket := client_socket c;
                client_socket1 := client_socket1 c |} (mgr s);
    net := net2; slept := slept s; log := log s |}).

(** The handler [except Exception] of the third inner [try] of [connect]:
    [self.disconnect()], then ConnectionError, unless [disconnect] itself
    raises. *)
Definition initialize_failed (s : system) : outcome bool * system :=
match disconnect s with
| (Return _, s') => (Raise ConnectionError, s')
| (Raise e, s') => (Raise e, s')
end.

(** What the handler of the second inner [try] does before it raises
    ConnectionError: the instruction socket is closed and dropped. *)
Definition drop_instruction_socket (s : system) : system :=
with_mgr (with_sockets None (video_socket (mgr s)) (mgr s)) s.

(** The body of [connect] inside its outer [try].  The two inner [try]
    blocks turn an OSError into ConnectionError and let anything else
    through. *)
Definition connect_try (i : string) (p vp : Z) (s : system)
  : outcome bool * system :=
let s := with_mgr (with_target i p vp (mgr s)) s in
match _create_socket s with
| (Raise _, s) => (Raise ConnectionError, s)
| (Return isock, s) =>
let s := with_mgr (with_sockets (Some isock) (video_socket (mgr s)) (mgr s)) s in
match sock_connect isock p with
| Raise OSError => (Raise ConnectionError, s)
| Raise e => (Raise e, s)
| Return _ =>
  let s := add_log (INFO, "Connected to command port") s in
  match _create_socket s with
  | (Raise _, s) => (Raise ConnectionError, drop_instruction_socket s)
  | (Return vsock, s) =>
  let s := with_mgr (with_sockets (instruction_socket (mgr s)) (Some vsock)
                       (mgr s)) s in
  match sock_connect vsock vp with
  | Raise OSError => (Raise ConnectionError, drop_instruction_socket s)
  | Raise e => (Raise e, s)
  | Return _ =>
    let s := add_log (INFO, "Connected to video port") s in
    match turn_on_client s with
    | (Raise _, s) => initialize_failed s
    | (Return _, s) =>
    let c := client (mgr s) in
    let s := with_mgr
               (with_client
                  {| tcp_flag := tcp_flag c;
                     _client_socket := _client_socket c;
                     _command_socket := _command_socket c;
                     client_socket := video_socket (mgr s);
                     client_socket1 := instruction_socket (mgr s) |}
                  (mgr s)) s in
    (* [start_threads()], [_set_state(CONNECTED)], then
       [self._reconnect_attempts.value = 0]: [value] is a property of
       ThreadSafeCounter that has no setter, so the assignment raises
       AttributeError and [return True] is never reached *)
    match start_threads (mgr s) with
    | (Return _, m') =>
        initialize_failed (_set_state CONNECTED (with_mgr m' s))
    | (Raise _, m') => initialize_failed (with_mgr m' s)
    end
    end
  end
  end
end
end.

(** [connect] as written, without its decorator.  The handler of the
    outer [try] calls [_handle_connection_error] and then raises again what
    it has caught; what the call itself raises takes the place of that. *)
Definition connect_once (i : string) (p vp : Z) (s : system)
  : outcome bool * system :=
if decide (state (mgr s) = CONNECTED) then (Raise InvalidStateError, s)
else
  match connect_try i p vp (_set_state CONNECTING s) with
  | (Return b, s') => (Return b, s')
  | (Raise e, s') =>
      match _handle_connection_error s' with
      | (Return _, s'') => (Raise e, s'')
      | (Raise e', s'') => (Raise e', s'')
      end
  end.

(** [connect]: [@retry(max_attempts=3, delay=1.0, backoff=2.0,
    exceptions=(ConnectionError, socket.error, TimeoutError))]. *)
Definition connect (i : string) (p vp : Z) (s : system)
  : outcome bool * system :=
Utils.retry 3 1 2
  (fun e => match e with
            | ConnectionError | OSError | TimeoutError => true
            | _ => false
            end)
  (add_log (WARNING, "Attempt failed")) pause
  (connect_once i p vp) s.

End MainPy.

(** ** The command reader of [Main.py]: MyWindow.receive_instruction *)

Module MainWindow.
Import Connections.

(** [s.split(sep)] for a separator of one character. *)
Fixpoint split (sep : ascii) (s : string) : list string :=
match s with
| EmptyString => [EmptyString]
| String c rest =>
    if Ascii.eqb c sep then EmptyString :: split sep rest
    else match split sep rest with
         | [] => [String c EmptyString]
         | field :: fields => String c field :: fields
         end
end.

Definition newline : ascii := "010"%char.
Definition hash : ascii := "#"%char.

(** The window with what the reader touches.  A Python [str] is held as
    its UTF-8 encoding: splitting on a separator of one byte, comparison and
    concatenation are the same on the encodings as on the texts. *)
Record window : Type := {
  client : MainPy.Client;
  label_sonic : string;
  power_value : string * string;
  printed : list (list string)
}.

Definition with_client (c : MainPy.Client) (u : window) : window :=
{| client := c; label_sonic := label_sonic u; power_value := power_value u;
   printed := printed u |}.

Definition set_tcp_flag (b : bool) (c : MainPy.Client) : MainPy.Client :=
{| MainPy.tcp_flag := b;
   MainPy._client_socket := MainPy._client_socket c;
   MainPy._command_socket := MainPy._command_socket c;
   MainPy.client_socket := MainPy.client_socket c;
   MainPy.client_socket1 := MainPy.client_socket1 c |}.

Definition set_command_socket (s : socket) (c : MainPy.Client)
  : MainPy.Client :=
{| MainPy.tcp_flag := MainPy.tcp_flag c;
   MainPy._client_socket := MainPy._client_socket c;
   MainPy._command_socket := Some s;
   MainPy.client_socket := MainPy.client_socket c;
   MainPy.client_socket1 := MainPy.client_socket1 c |}.

Definition in_range (lo hi : Z) (b : byte) : bool :=
(lo <=? byte_to_Z b) && (byte_to_Z b <=? hi).

(** Whether [data.decode('utf-8')] accepts the bytes: they are a run of
    well-formed sequences of one to four bytes (no overlong form, no
    surrogate, nothing above U+10FFFF). *)
Fixpoint utf8_valid (data : bytes) : bool :=
match data with
| [] => true
| b0 :: rest =>
    if in_range 0 127 b0 then utf8_valid rest
    else if in_range 194 223 b0 then
      match rest with
      | b1 :: rest => in_range 128 191 b1 && utf8_valid rest
      | _ => false
      end
    else if in_range 224 239 b0 then
      match rest with
      | b1 :: b2 :: rest =>
          in_range (if byte_to_Z b0 =? 224 then 160 else 128)
                   (if byte_to_Z b0 =? 237 then 159 else 191) b1
          && in_range 128 191 b2 && utf8_valid rest
      | _ => false
      end
    else if in_range 240 244 b0 then
      match rest with
      | b1 :: b2 :: b3 :: rest =>
          in_range (if byte_to_Z b0 =? 240 then 144 else 128)
                   (if byte_to_Z b0 =? 244 then 143 else 191) b1
          && in_range 128 191 b2 && in_range 128 191 b3 && utf8_valid rest
      | _ => false
      end
    else false
end.

(** [Client.receive_data] ([src/core/client.py]):
    [self._command_socket.recv(1024).decode('utf-8')].  The handler is for
    OSError and AttributeError; the UnicodeDecodeError of [decode], a
    ValueError, leaves the method. *)
Definition receive_data (c : MainPy.Client)
  : outcome string * MainPy.Client :=
if negb (MainPy.tcp_flag c) then (Return "", c)
else match MainPy._command_socket c with
     | None => (Return "", c)
     | Some s =>
         match sock_recv 1024 s with
         | (RecvBytes data, s') =>
             if utf8_valid data
             then (Return (string_of_list_byte data), set_command_socket s' c)
             else (Raise ValueError, set_command_socket s' c)
         | (_, s') =>
             (Return "", set_tcp_flag false (set_command_socket s' c))
         end
     end.

Section ReceiveInstruction.

(** The command codes [cmd.CMD_SONIC] and [cmd.CMD_POWER] come from the
    module [src.core.command], which is not among the sources. *)
Variables CMD_SONIC CMD_POWER : string.

(** The body of [for oneCmd in cmdArray]. [data == ""] compares a list
    with a string and is never true; [data[1]] on a list of one element is
    an IndexError that nothing catches. *)
Definition handle (oneCmd : string) (u : window) : outcome unit * window :=
let data := split hash oneCmd in
let u := {| client := client u; label_sonic := label_sonic u;
            power_value := power_value u;
            printed := printed u ++ [data] |} in
match data with
| [] => (Raise OtherException, u)
| code :: args =>
    if String.eqb code CMD_SONIC then
      match args with
      | [] => (Raise OtherException, u)
      | a :: _ =>
          (Return tt,
           {| client := client u;
              label_sonic := ("Obstacle:" ++ a ++ "cm")%string;
              power_value := power_value u; printed := printed u |})
      end
    else if String.eqb code CMD_POWER then
      match args with
      | [a; b] =>
          (Return tt,
           {| client := client u; label_sonic := label_sonic u;
              power_value := (a, b); printed := printed u |})
      | _ => (Return tt, u)
      end
    else (Return tt, u)
end.

Fixpoint for_each (cmdArray : list string) (u : window)
  : outcome unit * window :=
match cmdArray with
| [] => (Return tt, u)
| oneCmd :: rest =>
    match handle oneCmd u with
    | (Return _, u') => for_each rest u'
    | (Raise e, u') => (Raise e, u')
    end
end.

(** The [while True] loop; [None] when it is still going after [fuel]
    turns.  Whatever [receive_data] raises is caught by the bare [except],
    which clears [tcp_flag] and leaves the loop.  The statement
    [cmdArray==cmdArray[:-1]] is a comparison whose value is dropped:
    [cmdArray] is what [split] returned. *)
Fixpoint receive_loop (fuel : nat) (u : window)
  : option (outcome unit * window) :=
match fuel with
| O => None
| S fuel' =>
    match receive_data (client u) with
    | (Raise _, c) => Some (Return tt, with_client (set_tcp_flag false c) u)
    | (Return alldata, c) =>
        let u := with_client c u in
        if String.eqb alldata "" then Some (Return tt, u)
        else
          let cmdArray := split newline alldata in
          match for_each cmdArray u with
          | (Return _, u') => receive_loop fuel' u'
          | (Raise e, u') => Some (Raise e, u')
          end
    end
end.

(** [receive_instruction]: [connected] tells whether
    [client_socket1.connect((ip, 5002))] went through. *)
Definition receive_instruction (fuel : nat) (connected : bool) (u : window)
  : option (outcome unit * window) :=
receive_loop fuel (with_client (set_tcp_flag connected (client u)) u).

(** What one value returned by [receive_data] is turned into. *)
Definition records (alldata : string) : list (list string) :=
map (split hash) (split newline alldata).

(** A piece of text on which the body of the [for] loop does not raise: it
    is not the bare code [CMD_SONIC] with no field after it. *)
Definition calm (oneCmd : string) : bool :=
match split hash oneCmd with
| [code] => negb (String.eqb code CMD_SONIC)
| _ => true
end.

(** A value that [receive_data] can return and that the loop handles to
    the end: not empty, of at most 1024 bytes, well-formed UTF-8, calm in
    all its pieces. *)
Definition handled (chunk : string) : bool :=
negb (String.eqb chunk "")
&& (List.length (list_byte_of_string chunk) <=? 1024)%nat
&& utf8_valid (list_byte_of_string chunk)
&& forallb calm (split newline chunk).

End ReceiveInstruction.

(** Whether the character [c] occurs in [s]. *)
Fixpoint occurs (c : ascii) (s : string) : bool :=
match s with
| EmptyString => false
| String c' rest => Ascii.eqb c' c || occurs c rest
end.

(** The text of the records [rs], each followed by a newline, and then
    [tail]. *)
Definition wire (rs : list string) (tail : string) : string :=
fold_right (fun r text => (r ++ String newline text)%string) tail rs.

End MainWindow.

(** ** A command channel for the manager *)

Module Commands.
Import Connections.

(** Modelled from the spec: the CommandChannel of section 4.3, as far as the
    manager drives it.  [send_command] writes the text through the
    connection of the channel; the reader thread is started and stopped by
    a flag. *)
Record CommandChannel : Type := {
  cc_conn : nat;
  cc_running : bool
}.

Section Channel.
Context {C : Type} `{IConnection C}.

Definition cc_start (p : CommandChannel) (cs : list C)
  : outcome unit * CommandChannel * list C :=
(Return tt, {| cc_conn := cc_conn p; cc_running := true |}, cs).

Definition cc_stop (p : CommandChannel) (cs : list C)
  : outcome unit * CommandChannel * list C :=
(Return tt, {| cc_conn := cc_conn p; cc_running := false |}, cs).

Definition cc_send_command (text : string) (timeout : option Q)
  (p : CommandChannel) (cs : list C) : outcome unit * CommandChannel * list C :=
match cs !! cc_conn p with
| None => (Raise AttributeError, p, cs)
| Some c =>
    let '(o, c') := conn_send (list_byte_of_string text) timeout c in
    (match o with Return _ => Return tt | Raise e => Raise e end,
     p, <[cc_conn p := c']> cs)
end.

#[global] Instance CommandChannel_ICommandProcessor
  : Manager.ICommandProcessor CommandChannel C unit := {
  Manager.cp_new := fun i => {| cc_conn := i; cc_running := false |};
  Manager.cp_start := cc_start;
  Manager.cp_stop := cc_stop;
  Manager.cp_send_command := cc_send_command
}.

End Channel.
End Commands.

(** ** A socket read as a stream of bytes *)

Module Stream.
Import Connections.

(** The bytes that successive [recv] calls return before they meet
    anything else: a time-out, an error, or the end of the stream (an empty
    piece of data in the script is read as the end of the stream, as an
    exhausted script is). *)
Fixpoint pending (inbox : list sock_event) : bytes :=
match inbox with
| SockData (b :: data) :: rest => (b :: data) ++ pending rest
| _ => []
end.

(** What is left of the script of the peer: its events and its bytes. *)
Fixpoint weight (inbox : list sock_event) : nat :=
match inbox with
| [] => 0
| SockData data :: rest => S (List.length data + weight rest)
| _ :: rest => S (weight rest)
end.

(** The reader after [n] turns of a loop that is still going: [None] when
    the loop ends, or a turn does not come to its end, before that. *)
Fixpoint turns {C : Type} `{IConnection C} (n : nat) (r : Video.reader C)
  : option (Video.reader C) :=
match n with
| O => Some r
| S n' =>
    if Video._running (Video.vs r) then
      match Video.stream_iteration r with
      | Some (Video.Continue, r') => turns n' r'
      | _ => None
      end
    else None
end.

End Stream.

(** ** Reading the pauses of [retry] *)

Module Schedule.

(** The first [k] values of [current_delay]: [delay], then each time
    [current_delay *= backoff]. *)
Fixpoint delays (delay backoff : Q) (k : nat) : list Q :=
match k with
| O => []
| S k' => delay :: delays (delay * backoff)%Q backoff k'
end.

(** Whether [retry] makes the call again after this outcome, when the
    attempts allow for it. *)
Definition retried {A : Type} (catches : exn -> bool) (o : outcome A) : bool :=
match o with
| Return _ => false
| Raise e => catches e
end.

(** The state in which call number [k + 1] is made when the [k] calls
    before it have all been made again: after each of them the warning is
    logged and the pause is taken. *)
Fixpoint at_try {St A : Type} (backoff : Q) (warn : St -> St)
  (pause : Q -> St -> St) (func : St -> outcome A * St)
  (k : nat) (delay : Q) (s : St) : St :=
match k with
| O => s
| S k' =>
    at_try backoff warn pause func k' (delay * backoff)%Q
      (pause delay (warn (snd (func s))))
end.

(** Numbers on which the floating-point products of [retry] are exact:
    [delay] and [backoff] are whole numbers, not negative, and [delay]
    multiplied [k] times by [backoff] is below 2^53. *)
Definition whole (delay backoff : Q) (k : nat) : Prop :=
exists d b : Z,
  delay = inject_Z d /\ backoff = inject_Z b
  /\ 0 <= d /\ 0 <= b /\ d * b ^ Z.of_nat k < 2 ^ 53.

End Schedule.

(** ** Keeping a value within bounds ([Main.py], [src/utils/utils.py]) *)

Module Bounds.

(** The callers pass integers (a rounded percentage and the bounds 0 and
    100); the functions are modelled on integers. *)

(** [MyWindow.restriction] ([Main.py]). *)
Definition restriction (var v_min v_max : Z) : Z :=
if var <? v_min then v_min
else if v_max <? var then v_max
else var.

(** The built-ins [min(a, b)] and [max(a, b)]: the first argument unless
    the second is smaller, or greater. *)
Definition py_min (a b : Z) : Z := if b <? a then b else a.
Definition py_max (a b : Z) : Z := if a <? b then b else a.

(** [clamp] ([src/utils/utils.py]). *)
Definition clamp (value min_val max_val : Z) : Z :=
py_max min_val (py_min value max_val).

(** [validate_range] ([src/utils/utils.py]). *)
Definition validate_range (value min_val max_val : Z) : outcome Z :=
if negb ((min_val <=? value) && (value <=? max_val))
then Raise ValueError
else Return value.

End Bounds.

(** ** Sending ([src/core/client.py]) *)

Module ClientPy.
Import Connections.

(** [Client.send_data]: [data.encode('utf-8')] is the text as it is held;
    [socket.timeout] is an OSError. *)
Definition send_data (data : string) (c : MainPy.Client) : MainPy.Client :=
if negb (MainPy.tcp_flag c) then c
else match MainPy._command_socket c with
     | None => c
     | Some s =>
         match sock_sendall (list_byte_of_string data) s with
         | (RecvBytes _, s') => MainWindow.set_command_socket s' c
         | (_, s') =>
             MainWindow.set_tcp_flag false
               (MainWindow.set_command_socket s' c)
         end
     end.

End ClientPy.

(** ** The video thread of [Main.py]: NetworkManager._video_thread_func *)

Module MainThreads.
Import Connections.

(** [buffer.split(b'\n', 1)] when [b'\n' in buffer]: what is before the
    first newline, and what is after it. *)
Fixpoint split_once (buffer : bytes) : option (bytes * bytes) :=
match buffer with
| [] => None
| b :: rest =>
    if Byte.eqb b x0a then Some ([], rest)
    else match split_once rest with
         | Some (frame_data, rest') => Some (b :: frame_data, rest')
         | None => None
         end
end.

(** The loop [while b'\n' in buffer]: the frames handed to
    [_process_video_frame], in order, and the buffer that is left. *)
Fixpoint frames_loop (fuel : nat) (buffer : bytes) : list bytes * bytes :=
match fuel with
| O => ([], buffer)
| S fuel' =>
    match split_once buffer with
    | None => ([], buffer)
    | Some (frame_data, rest) =>
        let '(frames, remainder) := frames_loop fuel' rest in
        (frame_data :: frames, remainder)
    end
end.

(** Each turn takes a newline off the buffer: as many turns as the buffer
    has bytes end the loop. *)
Definition drain (buffer : bytes) : list bytes * bytes :=
frames_loop (List.length buffer) buffer.

(** The thread at work: the manager with its surroundings, the local
    [buffer], and the frames handed to [_process_video_frame] so far (the
    method itself does nothing). *)
Record video_run : Type := {
  sys : MainPy.system;
  buffer : bytes;
  processed : list bytes
}.

Definition with_video_socket (sock : socket) (s : MainPy.system)
  : MainPy.system :=
MainPy.with_mgr
  (MainPy.with_sockets (MainPy.instruction_socket (MainPy.mgr s)) (Some sock)
     (MainPy.mgr s)) s.

(** Whether the [while] loop of [_video_thread_func] takes another turn. *)
Definition video_goes_on (r : video_run) : bool :=
MainPy._video_thread_running (MainPy.mgr (sys r))
&& negb (MainPy._stop_event (MainPy.mgr (sys r))).

(** What the handler [except Exception] of the loop does: it logs and,
    the stop event being clear, pauses; the loop goes on. *)
Definition unexpected (s : MainPy.system) : MainPy.system :=
MainPy.pause (1 # 10)
  (MainPy.add_log (LOG_ERROR, "Unexpected error in video thread") s).

(** One turn of the loop.  An empty read or a socket error is handed to
    [_handle_connection_error] (the stop event is clear, or the turn would
    not have been taken); the [break] that follows the call is reached only
    when the call returns, and what the call raises is caught by the
    handler [except Exception] of the turn. *)
Definition video_turn (r : video_run) : Video.turn * video_run :=
let m := MainPy.mgr (sys r) in
if decide (MainPy.state m <> MainPy.CONNECTED) then
  (Video.Continue,
   {| sys := MainPy.pause (1 # 10) (sys r); buffer := buffer r;
      processed := processed r |})
else
  match MainPy.video_socket m with
  | None =>
      (* [recv] on [None]: AttributeError *)
      (Video.Continue,
       {| sys := unexpected (sys r); buffer := buffer r;
          processed := processed r |})
  | Some sock =>
      match sock_recv 4096 sock with
      | (RecvBytes (b :: data), sock') =>
          let '(frames, remainder) := drain (buffer r ++ b :: data) in
          (Video.Continue,
           {| sys := with_video_socket sock' (sys r);
              buffer := remainder;
              processed := processed r ++ frames |})
      | (RecvTimeout, sock') =>
          (Video.Continue,
           {| sys := with_video_socket sock' (sys r);
              buffer := buffer r; processed := processed r |})
      | (_, sock') =>
          match MainPy._handle_connection_error
                  (with_video_socket sock' (sys r)) with
          | (Return _, s') =>
              (Video.Break,
               {| sys := s'; buffer := buffer r; processed := processed r |})
          | (Raise _, s') =>
              (Video.Continue,
               {| sys := unexpected s'; buffer := buffer r;
                  processed := processed r |})
          end
      end
  end.

(** The [while] loop of [_video_thread_func]; [None] when it is still
    going after [fuel] turns. *)
Fixpoint video_while (fuel : nat) (r : video_run) : option video_run :=
if video_goes_on r then
  match fuel with
  | O => None
  | S fuel' =>
      match video_turn r with
      | (Video.Continue, r') => video_while fuel' r'
      | (Video.Break, r') => Some r'
      end
  end
else Some r.

(** The thread after [n] turns of the loop, or as the loop has left it
    before that. *)
Fixpoint video_turns (n : nat) (r : video_run) : video_run :=
match n with
| O => r
| S n' =>
    if video_goes_on r then
      match video_turn r with
      | (Video.Continue, r') => video_turns n' r'
      | (Video.Break, r') => r'
      end
    else r
end.

(** All the bytes of the script of a peer: a time-out, an error and an
    empty piece of data bring none. *)
Fixpoint received (inbox : list sock_event) : bytes :=
match inbox with
| SockData data :: rest => data ++ received rest
| _ :: rest => received rest
| [] => []
end.

(** [_video_thread_func]. *)
Definition _video_thread_func (fuel : nat) (s : MainPy.system)
  : option video_run :=
match MainPy.video_socket (MainPy.mgr s) with
| None =>
    Some {| sys := MainPy.add_log (LOG_ERROR, "Video socket not initialized") s;
            buffer := []; processed := [] |}
| Some _ => video_while fuel {| sys := s; buffer := []; processed := [] |}
end.

End MainThreads.

(** ** Sample objects

    Concrete inputs on which the properties below are exercised. *)

Module Samples.
Import Connections.

(** A flag watched by two observers that count their calls; the first one
    raises. *)
Definition observed_flag : ThreadSafe.ThreadSafeValue bool nat :=
{| ThreadSafe._value := false;
   ThreadSafe._name := "video_running";
   ThreadSafe._callbacks :=
     [ {| ThreadSafe.cb_id := 1;
          ThreadSafe.cb_run := fun _ _ n => (ThreadSafe.CbRaise, S n) |};
       {| ThreadSafe.cb_id := 2;
          ThreadSafe.cb_run := fun _ _ n => (ThreadSafe.CbReturn, S n) |} ] |}.

Definition socket_with (inbox : list sock_event) : socket :=
{| sock_connect_ok := true; sock_inbox := inbox; sock_send_faults := [];
   sock_sent := []; sock_timeout := None; sock_closed := false |}.

(** A SocketConnection that is connected to a peer sending [inbox]. *)
Definition connected_to (inbox : list sock_event) : SocketConnection :=
{| _sock := Some (socket_with inbox); _state := CONNECTED;
   _host := Some "192.168.1.100"; _port := Some 8002; _timeout := 5 |}.

(** A connected DummyConnection into which nothing has been sent. *)
Definition idle_dummy : DummyConnection :=
{| d_state := CONNECTED; d_buffer := [] |}.

(** A reader thread that has just been started on a connection. *)
Definition reader_on (c : SocketConnection) : Video.reader SocketConnection :=
{| Video.vs := Video.set_running true (Video.init 0 None);
   Video.conn := c; Video.log := []; Video.slept := []; Video.reads := [] |}.

(** A peer that sends a header announcing one byte more than 10 MiB, and
    then a well-formed frame of one byte. *)
Definition oversized_then_frame : list sock_event :=
[SockData (pack_le32 (10 * 1024 * 1024 + 1));
 SockData (pack_le32 1); SockData ["A"%byte]].

(** A manager as the client makes it, with three attempts and a base delay
    of one second, in a world where nothing has happened yet. *)
Definition fresh_manager : Manager.NetworkManager Commands.CommandChannel :=
Manager.init 3 1.

Definition fresh_world (nt : Net) : Manager.World SocketConnection :=
{| Manager.conns := []; Manager.net := nt; Manager.trace := [];
   Manager.log := [] |}.

(** A connection class as a test injects it: a double over a scripted
    socket.  Its constructor returns, its methods are those of
    SocketConnection, and it has no finaliser. *)
Record Double : Type := { inner : SocketConnection }.

Definition lift {A : Type}
  (f : SocketConnection -> outcome A * SocketConnection) (d : Double)
  : outcome A * Double :=
let '(o, c) := f (inner d) in (o, {| inner := c |}).

Definition double_new (nt : Net) : outcome Double * Net :=
let '(s, nt') := new_socket nt in
(Return {| inner := {| _sock := Some s; _state := DISCONNECTED;
                       _host := None; _port := None; _timeout := 5 |} |},
 nt').

#[global] Instance Double_IConnection : IConnection Double := {
  conn_new := double_new;
  conn_state := fun d => _state (inner d);
  conn_connect := fun host port => lift (sc_connect host port 5);
  conn_disconnect := lift sc_disconnect;
  conn_send := fun data timeout => lift (sc_send data timeout);
  conn_receive := fun size timeout => lift (sc_receive size timeout);
  conn_close := lift sc_close
}.

Definition double_world (nt : Net) : Manager.World Double :=
{| Manager.conns := []; Manager.net := nt; Manager.trace := [];
   Manager.log := [] |}.

(** A network on which no peer can be reached. *)
Definition dead_network : Net := [unreachable; unreachable; unreachable].

(** A network on which the first two connections fail and the next two go
    through; the video peer sends one frame of one byte. *)
Definition flaky_network : Net :=
[unreachable; unreachable; socket_with [];
 socket_with [SockData (pack_le32 1); SockData ["A"%byte]]].

Definition robot : string := "192.168.1.100".

(** A connection that has been handed the socket [s] and has answered
    [connect(robot, port)] as [st] tells. *)
Definition connection_on (s : socket) (port : Z) (st : ConnectionState)
  : SocketConnection :=
{| _sock := Some (settimeout (Some 5%Q) s); _state := st;
   _host := Some robot; _port := Some port; _timeout := 5 |}.

(** A manager in state Connected with what the state stands for: the
    control connection and the video connection of the try that went
    through, after two tries that failed, and the two channels on them. *)
Definition connected_sample
  : Manager.NetworkManager Commands.CommandChannel
    * Manager.World SocketConnection :=
({| Manager._reconnect_attempts := 3;
    Manager._reconnect_delay := 1;
    Manager._state := CONNECTED;
    Manager._control_conn := Some 2%nat;
    Manager._video_conn := Some 3%nat;
    Manager._video_stream :=
      Some {| Video._conn := 3; Video._frame_callback := None;
              Video._running := true;
              Video._thread := Some {| alive := true |};
              Video._current_frame := None; Video._frame_ready := false |};
    Manager._command_processor :=
      Some {| Commands.cc_conn := 2; Commands.cc_running := true |};
    Manager._host := Some robot;
    Manager._control_port := 5002;
    Manager._video_port := 8002;
    Manager._reconnect_thread := Some {| alive := false |};
    Manager._stop_event := false |},
 {| Manager.conns :=
      [connection_on unreachable 5002 DISCONNECTED;
       connection_on unreachable 5002 DISCONNECTED;
       connection_on (socket_with []) 5002 CONNECTED;
       connection_on
         (socket_with [SockData (pack_le32 1); SockData ["A"%byte]])
         8002 CONNECTED];
    Manager.net := [];
    Manager.trace :=
      [Manager.Build 0; Manager.Sleep 1; Manager.Build 1; Manager.Sleep 2;
       Manager.Build 2; Manager.Build 3];
    Manager.log := [] |}).

(** A manager whose connection has been lost and flagged as such. *)
Definition failed_manager : Manager.NetworkManager Commands.CommandChannel :=
Manager.with_state ERROR fresh_manager.

Definition nl : string := String MainWindow.newline "".

(** The window of a client whose command socket delivers the given texts,
    one for each [recv]. *)
Definition window_on (chunks : list string) : MainWindow.window :=
{| MainWindow.client :=
     {| MainPy.tcp_flag := false;
        MainPy._client_socket := None;
        MainPy._command_socket :=
          Some (socket_with
                  (map (fun c => SockData (list_byte_of_string c)) chunks));
        MainPy.client_socket := None;
        MainPy.client_socket1 := None |};
   MainWindow.label_sonic := "";
   MainWindow.power_value := ("100", "100");
   MainWindow.printed := [] |}.

(** The record [CMD1#a#b] cut in two by the transport, and [CMD2#c]. *)
Definition two_receives : list string :=
["CMD1#a#"; ("b" ++ nl ++ "CMD2#c" ++ nl)%string].

(** The manager of [Main.py] in a given state, before any socket is made. *)
Definition main_system (st : MainPy.ConnectionState) (nt : Net)
  : MainPy.system :=
{| MainPy.mgr :=
     MainPy.with_state st
       (MainPy.init {| MainPy.tcp_flag := false;
                       MainPy._client_socket := None;
                       MainPy._command_socket := None;
                       MainPy.client_socket := None;
                       MainPy.client_socket1 := None |});
   MainPy.net := nt; MainPy.slept := []; MainPy.log := [] |}.

(** A frame of eight bytes between the JPEG markers, and a peer that sends
    the header for eight bytes and the frame in one piece. *)
Definition test_frame : bytes :=
[xff; xd8; x00; x00; x00; x00; xff; xd9].

Definition frame_of_eight : list sock_event :=
[SockData (pack_le32 8 ++ test_frame)].

(** The header for eight bytes cut in two by the transport, and the frame. *)
Definition header_in_two : list sock_event :=
[SockData (take 2 (pack_le32 8)); SockData (drop 2 (pack_le32 8));
 SockData test_frame].

(** The header for eight bytes with the first three bytes of the frame, the
    frame's next two bytes, and its last three bytes with the header of the
    frame that follows. *)
Definition frame_in_three : list sock_event :=
[SockData (pack_le32 8 ++ take 3 test_frame);
 SockData (take 2 (drop 3 test_frame));
 SockData (drop 5 test_frame ++ pack_le32 1)].

(** A reader thread on an idle DummyConnection. *)
Definition idle_reader : Video.reader DummyConnection :=
{| Video.vs := Video.set_running true (Video.init 0 None);
   Video.conn := idle_dummy; Video.log := []; Video.slept := [];
   Video.reads := [] |}.

(** A manager on DummyConnections, as the tests make it, in a world where
    nothing has happened yet. *)
Definition test_world : Manager.World DummyConnection :=
{| Manager.conns := []; Manager.net := []; Manager.trace := [];
   Manager.log := [] |}.

(** A client that is switched on and whose peer lets one receive time out
    before it sends a record. *)
Definition silent_then_record (c : MainPy.Client) : MainPy.Client :=
MainWindow.set_command_socket
  (socket_with [SockTimeout; SockData (list_byte_of_string "CMD_POWER#7#8")])
  (MainWindow.set_tcp_flag true c).

(** Three records in one receive, the second the bare code of the sonar. *)
Definition sonic_between : string :=
("CMD_POWER#7#8" ++ nl ++ "CMD_SONIC" ++ nl ++ "CMD_POWER#6#6" ++ nl)%string.

(** The manager of [Main.py] as [start_threads] leaves it, Connected and
    with both threads running, on a video socket whose peer sends
    [inbox]. *)
Definition streaming_system (inbox : list sock_event) : MainPy.system :=
{| MainPy.mgr :=
     {| MainPy.client := MainPy.client (MainPy.mgr (main_system MainPy.CONNECTED []));
        MainPy._state := MainPy.CONNECTED;
        MainPy._stop_event := false;
        MainPy._reconnect_attempts := 0;
        MainPy.video_thread := Some {| alive := true |};
        MainPy.instruction_thread := Some {| alive := true |};
        MainPy.video_socket := Some (socket_with inbox);
        MainPy.instruction_socket := Some (socket_with []);
        MainPy.ip := Some robot; MainPy.port := Some 5002;
        MainPy.video_port := Some 8002;
        MainPy._video_thread_running := true;
        MainPy._instruction_thread_running := true |};
   MainPy.net := []; MainPy.slept := []; MainPy.log := [] |}.

(** Two frames and the start of a third, cut in two by the transport in
    the middle of the second frame, with a time-out in between. *)
Definition frames_in_two : list sock_event :=
[SockData (list_byte_of_string ("ab" ++ nl ++ "cd"));
 SockTimeout;
 SockData (list_byte_of_string ("e" ++ nl ++ "f"))].

End Samples.

(** * Properties *)

(** ** The length header *)

Module WireFacts.

Lemma byte_to_Z_of_Z (z : Z) : byte_to_Z (byte_of_Z z) = Z.land z 255.
Proof.
  unfold byte_to_Z, byte_of_Z.
  assert (Hrange : 0 <= Z.land z 255 < 256).
  { change 255 with (Z.ones 8). rewrite Z.land_ones by lia.
    apply Z.mod_pos_bound. lia. }
  destruct (Byte.of_N (Z.to_N (Z.land z 255))) as [b|] eqn:Hb.
  - apply Byte.to_of_N in Hb. rewrite Hb. apply Z2N.id. lia.
  - apply Byte.of_N_None_iff in Hb. lia.
Qed.

(** The header is the length written in base 256, low byte first. *)
Lemma unpack_pack_le32 (n : Z) :
  0 <= n < 2 ^ 32 -> unpack_le32 (pack_le32 n) = Some n.
Proof.
  intros Hn. unfold unpack_le32, pack_le32. rewrite !byte_to_Z_of_Z.
  f_equal. apply Z.bits_inj'. intros i Hi.
  change 255 with (Z.ones 8).
  rewrite !Z.lor_spec, !Z.shiftl_spec, !Z.land_spec by lia.
  destruct (Z.lt_ge_cases i 8) as [H8|H8];
    [|destruct (Z.lt_ge_cases i 16) as [H16|H16];
      [|destruct (Z.lt_ge_cases i 24) as [H24|H24];
        [|destruct (Z.lt_ge_cases i 32) as [H32|H32]]]].
  - rewrite Z.testbit_ones_nonneg by lia.
    rewrite (Z.testbit_neg_r _ (i - 8)), (Z.testbit_neg_r _ (i - 16)),
      (Z.testbit_neg_r _ (i - 24)) by lia.
    replace (i <? 8) with true by (symmetry; apply Z.ltb_lt; lia).
    rewrite andb_true_r, !orb_false_r. reflexivity.
  - rewrite !Z.shiftr_spec, !Z.testbit_ones_nonneg by lia.
    rewrite (Z.testbit_neg_r _ (i - 16)), (Z.testbit_neg_r _ (i - 24)) by lia.
    replace (i <? 8) with false by (symmetry; apply Z.ltb_ge; lia).
    replace (i - 8 <? 8) with true by (symmetry; apply Z.ltb_lt; lia).
    replace (i - 8 + 8) with i by lia.
    rewrite andb_false_r, andb_true_r, !orb_false_r. reflexivity.
  - rewrite !Z.shiftr_spec, !Z.testbit_ones_nonneg by lia.
    rewrite (Z.testbit_neg_r _ (i - 24)) by lia.
    replace (i <? 8) with false by (symmetry; apply Z.ltb_ge; lia).
    replace (i - 8 <? 8) with false by (symmetry; apply Z.ltb_ge; lia).
    replace (i - 16 <? 8) with true by (symmetry; apply Z.ltb_lt; lia).
    replace (i - 16 + 16) with i by lia.
    rewrite !andb_false_r, andb_true_r, !orb_false_r. reflexivity.
  - rewrite !Z.shiftr_spec, !Z.testbit_ones_nonneg by lia.
    replace (i <? 8) with false by (symmetry; apply Z.ltb_ge; lia).
    replace (i - 8 <? 8) with false by (symmetry; apply Z.ltb_ge; lia).
    replace (i - 16 <? 8) with false by (symmetry; apply Z.ltb_ge; lia).
    replace (i - 24 <? 8) with true by (symmetry; apply Z.ltb_lt; lia).
    replace (i - 24 + 24) with i by lia.
    rewrite !andb_false_r, andb_true_r. reflexivity.
  - rewrite !Z.shiftr_spec, !Z.testbit_ones_nonneg by lia.
    replace (i <? 8) with false by (symmetry; apply Z.ltb_ge; lia).
    replace (i - 8 <? 8) with false by (symmetry; apply Z.ltb_ge; lia).
    replace (i - 16 <? 8) with false by (symmetry; apply Z.ltb_ge; lia).
    replace (i - 24 <? 8) with false by (symmetry; apply Z.ltb_ge; lia).
    rewrite !andb_false_r. simpl. symmetry.
    destruct (Z.eq_dec n 0) as [->|Hnz]; [apply Z.testbit_0_l|].
    apply Z.bits_above_log2; [lia|].
    assert (Z.log2 n < 32) by (apply Z.log2_lt_pow2; lia). lia.
Qed.

End WireFacts.

(** ** ThreadSafeValue *)

Module ThreadSafeFacts.
Import ThreadSafe.

Section Facts.
Context {T : Type} `{EqDecision T} {W : Type}.
Implicit Types (t : ThreadSafeValue T W) (cbs : list (callback T W)).

Lemma notify_loop_invocations cbs (old new : T) (w : W) :
  invocations (snd (notify_loop cbs old new w))
  = map (fun cb => (cb_id cb, old, new)) cbs.
Proof.
  revert w. induction cbs as [|cb rest IH]; intros w; simpl; [reflexivity|].
  destruct (cb_run cb old new w) as [r w1] eqn:Hrun.
  specialize (IH w1).
  destruct (notify_loop rest old new w1) as [w2 evs]. simpl in *.
  f_equal. destruct r; simpl; exact IH.
Qed.

Lemma notify_loop_world cbs (old new : T) (w : W) :
  fst (notify_loop cbs old new w) = run_all cbs old new w.
Proof.
  revert w. induction cbs as [|cb rest IH]; intros w; simpl; [reflexivity|].
  unfold run_all in *. simpl.
  destruct (cb_run cb old new w) as [r w1] eqn:Hrun.
  specialize (IH w1).
  destruct (notify_loop rest old new w1) as [w2 evs]. simpl in *.
  exact IH.
Qed.

(** The loop neither takes nor gives back the lock: every call in it sees
    the depth at which the loop was entered. *)
Lemma notify_loop_depths cbs (old new : T) (w : W) (d : nat)
    (after : list (event T)) :
  invoke_depths d (snd (notify_loop cbs old new w) ++ after)
  = repeat d (List.length cbs) ++ invoke_depths d after.
Proof.
  revert w. induction cbs as [|cb rest IH]; intros w; simpl; [reflexivity|].
  destruct (cb_run cb old new w) as [r w1] eqn:Hrun.
  specialize (IH w1).
  destruct (notify_loop rest old new w1) as [w2 evs]. simpl in *.
  f_equal. destruct r; simpl; exact IH.
Qed.

Lemma invocations_app (evs1 evs2 : list (event T)) :
  invocations (evs1 ++ evs2) = invocations evs1 ++ invocations evs2.
Proof.
  induction evs1 as [|e rest IH]; simpl; [reflexivity|].
  destruct e; simpl; rewrite IH; reflexivity.
Qed.

(** A container nobody observes is a plain cell. *)
Lemma set_value_unobserved t (v : T) (w : W) :
  _callbacks t = [] ->
  fst (set_value v t w) = (with_value t v, w).
Proof.
  intros Hcb. unfold set_value, _notify_observers.
  destruct (decide (_value t <> v)) as [Hne|Heq]; simpl.
  - rewrite Hcb. reflexivity.
  - apply dec_stable in Heq. subst v. destruct t; reflexivity.
Qed.

(** C7 (as amended): [set] calls the registered callbacks with (old, new),
    each of them once and in order of registration, exactly when the new
    value differs from the stored one. The calls are made while the
    re-entrant lock is held twice by the caller (once by the setter, once by
    [_notify_observers]); a callback that raises is caught, so that the
    callbacks after it are called all the same and [set] returns. *)
Theorem set_value_notifies t (v : T) (w : W) :
  let '(t', w', evs) := set_value v t w in
  _value t' = v /\ _callbacks t' = _callbacks t /\
  invocations evs
  = (if decide (_value t = v) then []
     else map (fun cb => (cb_id cb, _value t, v)) (_callbacks t)) /\
  w' = (if decide (_value t = v) then w
        else run_all (_callbacks t) (_value t) v w) /\
  invoke_depths 0 evs
  = (if decide (_value t = v) then []
     else repeat 2%nat (List.length (_callbacks t))).
Proof.
  unfold set_value, _notify_observers.
  destruct (decide (_value t <> v)) as [Hne|Heq].
  - destruct (decide (_value t = v)) as [Heq|_]; [contradiction|].
    simpl.
    pose proof (notify_loop_invocations (_callbacks t) (_value t) v w) as Hinv.
    pose proof (notify_loop_world (_callbacks t) (_value t) v w) as Hw.
    pose proof (notify_loop_depths (_callbacks t) (_value t) v w 2
                  [Release; Release]) as Hd.
    destruct (notify_loop (_callbacks t) (_value t) v w) as [w' evs].
    simpl in *. repeat split; try assumption.
    + rewrite !invocations_app. simpl. rewrite Hinv, !app_nil_r. reflexivity.
    + rewrite <- app_assoc. simpl. rewrite Hd.
      simpl. rewrite app_nil_r. reflexivity.
  - apply dec_stable in Heq.
    destruct (decide (_value t = v)) as [_|Hne]; [|contradiction].
    simpl. repeat split; assumption.
Qed.

End Facts.

(** C7 (as stated) fails: the two observers of [Samples.observed_flag] are
    called while the lock is held, not after it has been given back. *)
Lemma callbacks_run_under_lock :
  ~ Forall (fun depth => depth = 0%nat)
      (invoke_depths 0 (snd (set_value true Samples.observed_flag 0%nat))).
Proof.
  vm_compute. intros Hall. inversion Hall as [|d ds Hd _]. discriminate Hd.
Qed.

End ThreadSafeFacts.

(** ** Connections *)

Module ConnectionFacts.
Import Connections.


Lemma settimeout_raises_cases (timeout : option Q) (s : socket) :
  match settimeout_raises timeout s with
  | None =>
      match timeout with
      | Some t => (0 <= t)%Q /\ sock_closed s = false
      | None => True
      end
  | Some e =>
      exists t, timeout = Some t
        /\ (e = ValueError /\ (t < 0)%Q
            \/ e = OSError /\ (0 <= t)%Q /\ sock_closed s = true)
  end.
Proof.
  unfold settimeout_raises, timeout_ok.
  destruct timeout as [t|]; [|exact I].
  destruct (Qle_bool 0 t) eqn:Ht; simpl.
  - apply Qle_bool_iff in Ht.
    destruct (sock_closed s) eqn:Hclosed.
    + exists t. split; [reflexivity|]. right. repeat split; assumption.
    + split; [assumption|reflexivity].
  - exists t. split; [reflexivity|]. left. split; [reflexivity|].
    apply Qnot_le_lt. intros Hle. apply Qle_bool_iff in Hle. congruence.
Qed.




End ConnectionFacts.

(** ** VideoStream *)

Module VideoFacts.
Import Connections Video.

Section Facts.
Context {C : Type} `{IConnection C}.
Implicit Types (r : reader C).

(** The payload loop ends: each turn that does not leave the loop takes at
    least one byte off [remaining]. *)
Lemma read_payload_ends (fuel : nat) (remaining : Z) (frame_data : bytes) r :
  (Z.to_nat remaining <= fuel)%nat ->
  exists res, read_payload fuel remaining frame_data r = Some res.
Proof.
  revert remaining frame_data r.
  induction fuel as [|fuel IH]; intros remaining frame_data r Hfuel; simpl.
  - destruct (0 <? remaining) eqn:Hpos; simpl; [|eauto].
    apply Z.ltb_lt in Hpos. lia.
  - destruct ((0 <? remaining) && _running (vs r)) eqn:Hcond; [|eauto].
    apply andb_true_iff in Hcond as [Hpos _]. apply Z.ltb_lt in Hpos.
    destruct (receive _ r) as [[chunk|e] r1]; [|eauto].
    destruct chunk as [|b chunk]; [eauto|].
    apply IH. simpl List.length. lia.
Qed.

Lemma stream_iteration_ends r : exists res, stream_iteration r = Some res.
Proof.
  unfold stream_iteration, stream_body.
  destruct (receive 4 r) as [[header|e] r1].
  2:{ destruct e; eauto. }
  destruct (decide (List.length header <> 4%nat)); [eauto|].
  destruct (unpack_le32 header) as [frame_length|]; [|eauto].
  destruct ((frame_length =? 0) || (MAX_FRAME_LENGTH <? frame_length));
    [eauto|].
  destruct (read_payload_ends (Z.to_nat frame_length) frame_length [] r1)
    as [[[frame_data|e] r2] ->]; [lia| |destruct e; eauto].
  destruct (decide (Z.of_nat (List.length frame_data) <> frame_length));
    [eauto|].
  simpl. destruct (_frame_callback (vs r2)) as [callback|]; [|eauto].
  destruct (callback frame_data); eauto.
Qed.

Lemma unpack_le32_length (header : bytes) (n : Z) :
  unpack_le32 header = Some n -> List.length header = 4%nat.
Proof.
  destruct header as [|b0 [|b1 [|b2 [|b3 [|b4 rest]]]]]; simpl;
    intros Heq; try discriminate; reflexivity.
Qed.

(** When the reader loop has ended the stream is not running. *)
Lemma stream_loop_stops (fuel : nat) r r' :
  _stream_loop fuel r = Some r' -> _running (vs r') = false.
Proof.
  unfold _stream_loop. destruct (stream_while fuel r) as [r1|]; [|discriminate].
  intros Heq. inversion Heq. reflexivity.
Qed.

(** C3 (as amended): a header that decodes to a length of 0 or of more than
    10 MiB costs a warning and nothing else.  The turn of the reader loop
    ends there and the loop goes on: the stream is as it was (still
    running, the latest frame untouched), the four bytes of the header are
    the only ones read, and the next thing the loop does is to read four
    bytes as a header again. *)
Theorem invalid_length_is_skipped r (header : bytes) (c' : C) (L : Z) :
  conn_receive 4 (Some 1%Q) (conn r) = (Return header, c') ->
  unpack_le32 header = Some L ->
  L = 0 \/ MAX_FRAME_LENGTH < L ->
  let r' := {| vs := vs r; conn := c';
               log := log r ++ [(WARNING, "Invalid frame length")];
               slept := slept r;
               reads := reads r ++ [(4%nat, Return header)] |} in
  stream_iteration r = Some (Continue, r')
  /\ (forall fuel : nat,
        _running (vs r) = true -> stream_while (S fuel) r = stream_while fuel r').
Proof.
  intros Hrecv Hunpack Hbad r'.
  assert (Hiter : stream_iteration r = Some (Continue, r')).
  { unfold stream_iteration, stream_body, receive. rewrite Hrecv.
    destruct (decide (List.length header <> 4%nat)) as [Hlen|_].
    { exfalso. apply Hlen. eapply unpack_le32_length. eassumption. }
    rewrite Hunpack.
    assert (Hcond : (L =? 0) || (MAX_FRAME_LENGTH <? L) = true).
    { apply orb_true_iff. destruct Hbad as [->|Hlt].
      - left. reflexivity.
      - right. apply Z.ltb_lt. exact Hlt. }
    rewrite Hcond. reflexivity. }
  split; [exact Hiter|].
  intros fuel Hrun. simpl. rewrite Hrun, Hiter. reflexivity.
Qed.

(** C10: [get_frame] answers [None] whenever the stream is not running,
    whatever the latest-frame slot holds.  In particular it does so after
    [stop], which leaves the stored frame where it is, and after the reader
    loop has ended, for whatever reason it ended. *)
Theorem get_frame_needs_running (timeout : option Q) :
  (forall v : VideoStream, _running v = false -> get_frame timeout v = None)
  /\ (forall v : VideoStream,
        get_frame timeout (stop v) = None
        /\ _current_frame (stop v) = _current_frame v)
  /\ (forall (fuel : nat) r r',
        _stream_loop fuel r = Some r' -> get_frame timeout (vs r') = None).
Proof.
  assert (Hbase : forall v, _running v = false -> get_frame timeout v = None).
  { intros v Hrun. unfold get_frame. rewrite Hrun. reflexivity. }
  split; [exact Hbase|]. split.
  - intros v. unfold stop.
    destruct (_running v) eqn:Hrun; simpl; split;
      try reflexivity; apply Hbase; assumption.
  - intros fuel r r' Hloop. apply Hbase. eapply stream_loop_stops. eassumption.
Qed.

End Facts.

(** The theorem at the header announcing 10 MiB + 1 bytes. *)
Lemma invalid_length_is_skipped_witness :
  stream_iteration (Samples.reader_on
                      (Samples.connected_to Samples.oversized_then_frame))
  = Some (Continue,
          {| vs := set_running true (init 0 None);
             conn := snd (sc_receive 4 (Some 1%Q)
                            (Samples.connected_to Samples.oversized_then_frame));
             log := [(WARNING, "Invalid frame length")];
             slept := [];
             reads := [(4%nat, Return (pack_le32 (10 * 1024 * 1024 + 1)))] |}).
Proof.
  apply (invalid_length_is_skipped
           (Samples.reader_on
              (Samples.connected_to Samples.oversized_then_frame))
           (pack_le32 (10 * 1024 * 1024 + 1)) _ (10 * 1024 * 1024 + 1)).
  - reflexivity.
  - reflexivity.
  - right. reflexivity.
Defined.

(** C3 (as stated) fails: after the header announcing 10 MiB + 1 bytes the
    turn does not end the loop, the stream is still running, and the bytes
    that follow are read, the next four as a header and one more as the
    payload that becomes the latest frame. *)
Lemma oversized_length_is_not_fatal :
  let r0 := Samples.reader_on
              (Samples.connected_to Samples.oversized_then_frame) in
  (forall r', stream_iteration r0 <> Some (Break, r'))
  /\ (exists r1, stream_iteration r0 = Some (Continue, r1)
                 /\ _running (vs r1) = true)
  /\ (exists r', _stream_loop 4 r0 = Some r'
                 /\ _current_frame (vs r') = Some ["A"%byte]
                 /\ reads r'
                    = [(4%nat, Return (pack_le32 (10 * 1024 * 1024 + 1)));
                       (4%nat, Return (pack_le32 1));
                       (1%nat, Return ["A"%byte]);
                       (4%nat, Raise ConnectionError)]).
Proof.
  intros r0. split; [|split].
  - intros r' Heq. vm_compute in Heq. discriminate Heq.
  - eexists. split; [vm_compute; reflexivity|reflexivity].
  - eexists. split; [vm_compute; reflexivity|]. split; reflexivity.
Qed.

(** A header for eight bytes followed by eight bytes: after one turn of the
    reader loop [get_frame] returns these eight bytes, as often as it is
    asked. *)
Example frame_of_eight_is_delivered :
  match stream_iteration
          (Samples.reader_on (Samples.connected_to Samples.frame_of_eight)) with
  | Some (Continue, r') =>
      get_frame (Some (1 # 5)) (vs r') = Some Samples.test_frame
      /\ reads r' = [(4%nat, Return (pack_le32 8));
                     (8%nat, Return Samples.test_frame)]
  | _ => False
  end.
Proof. vm_compute. split; reflexivity. Qed.

(** The theorem at a stream that holds a frame and is not running, and at
    the end of the reader loop that delivered this frame. *)
Lemma get_frame_needs_running_witness :
  get_frame (Some 1%Q)
    {| _conn := 0; _frame_callback := None; _running := false;
       _thread := None; _current_frame := Some ["A"%byte];
       _frame_ready := true |} = None
  /\ (forall r',
        _stream_loop 4 (Samples.reader_on
                          (Samples.connected_to Samples.oversized_then_frame))
        = Some r' ->
        get_frame (Some 1%Q) (vs r') = None).
Proof.
  destruct (get_frame_needs_running (C := SocketConnection) (Some 1%Q))
    as (Hidle & _ & Hloop).
  split.
  - apply Hidle. reflexivity.
  - intros r' Hrun. exact (Hloop _ _ _ Hrun).
Defined.

End VideoFacts.

(** ** NetworkManager *)

Module ManagerFacts.
Import Connections Manager.

Section Facts.
Context {C : Type} `{IConnection C} {P R : Type} `{ICommandProcessor P C R}.
Implicit Types (m : NetworkManager P) (w : World C).

(** *** Traces *)

Lemma builds_app (tr1 tr2 : list event) :
  builds (tr1 ++ tr2) = builds tr1 ++ builds tr2.
Proof. apply omap_app. Qed.

Lemma sleeps_app (tr1 tr2 : list event) :
  sleeps (tr1 ++ tr2) = sleeps tr1 ++ sleeps tr2.
Proof. apply omap_app. Qed.

Lemma quiet_refl w : quiet w w.
Proof. repeat split. Qed.

Lemma quiet_trans w1 w2 w3 : quiet w1 w2 -> quiet w2 w3 -> quiet w1 w3.
Proof.
  intros (Hn1 & Hb1 & Hs1) (Hn2 & Hb2 & Hs2).
  repeat split; congruence.
Qed.

Lemma quiet_add_log (e : log_entry) w : quiet w (add_log e w).
Proof. repeat split. Qed.

Lemma quiet_set_conns (cs : list C) w : quiet w (set_conns cs w).
Proof. repeat split. Qed.

Lemma quiet_add_event (e : event) w :
  builds [e] = [] -> sleeps [e] = [] -> quiet w (add_event e w).
Proof.
  intros Hb Hs. unfold quiet, add_event. simpl.
  rewrite builds_app, sleeps_app, Hb, Hs, !app_nil_r. repeat split.
Qed.

Lemma quiet_call {A : Type} (i : nat) (f : C -> outcome A * C) w :
  quiet w (snd (call i f w)).
Proof.
  unfold call. destruct (conns w !! i) as [c|]; [|apply quiet_refl].
  destruct (f c) as [o c']. apply quiet_set_conns.
Qed.

Lemma quiet_shut (report : bool) (conn : option nat) w :
  quiet w (shut report conn w).
Proof.
  unfold shut. destruct conn as [i|]; [|apply quiet_refl].
  pose proof (quiet_call i conn_disconnect (add_event (DisconnectCall i) w))
    as Hq1.
  destruct (call i conn_disconnect (add_event (DisconnectCall i) w))
    as [o1 w1].
  simpl in Hq1.
  assert (Hq : quiet w w1).
  { eapply quiet_trans; [|exact Hq1]. apply quiet_add_event; reflexivity. }
  destruct o1 as [[]|e].
  - pose proof (quiet_call i conn_close (add_event (CloseCall i) w1)) as Hq2.
    destruct (call i conn_close (add_event (CloseCall i) w1)) as [o2 w2].
    simpl in Hq2.
    assert (Hq' : quiet w w2).
    { eapply quiet_trans; [exact Hq|]. eapply quiet_trans; [|exact Hq2].
      apply quiet_add_event; reflexivity. }
    destruct (is_raise o2 && report); [|exact Hq'].
    eapply quiet_trans; [exact Hq'|apply quiet_add_log].
  - destruct (is_raise (Raise (A:=unit) e) && report); [|exact Hq].
    eapply quiet_trans; [exact Hq|apply quiet_add_log].
Qed.

Lemma set_state_spec (v : ConnectionState) m w :
  fst (set_state v m w) = with_state v m /\ quiet w (snd (set_state v m w)).
Proof.
  unfold set_state. simpl. split; [reflexivity|].
  destruct (decide (_state m <> v)); [apply quiet_add_log|apply quiet_refl].
Qed.

(** *** Tearing down *)

Lemma teardown_spec (report : bool) m w :
  let m' := fst (teardown report m w) in
  _state m' = _state m /\ same_settings m m'
  /\ _control_conn m' = None /\ _video_conn m' = None
  /\ _video_stream m' = None /\ _command_processor m' = None
  /\ quiet w (snd (teardown report m w)).
Proof.
  unfold teardown, same_settings. simpl.
  destruct (_command_processor m) as [p|] eqn:Hcp.
  - destruct (cp_stop p (conns w)) as [[o p'] cs]. simpl.
    split_and!; try reflexivity.
    eapply quiet_trans; [|apply quiet_shut].
    eapply quiet_trans; [|apply quiet_shut].
    destruct (is_raise o && report).
    + eapply quiet_trans; [apply quiet_set_conns|apply quiet_add_log].
    + apply quiet_set_conns.
  - simpl. split_and!; try reflexivity; try assumption.
    eapply quiet_trans; apply quiet_shut.
Qed.

Lemma _disconnect_spec m w :
  let m' := fst (_disconnect m w) in
  same_settings m m' /\ state m' = DISCONNECTED
  /\ quiet w (snd (_disconnect m w))
  /\ (state m = DISCONNECTED -> _disconnect m w = (m, w))
  /\ (state m <> DISCONNECTED ->
      _control_conn m' = None /\ _video_conn m' = None
      /\ _video_stream m' = None /\ _command_processor m' = None).
Proof.
  unfold _disconnect, state.
  destruct (decide (_state m = DISCONNECTED)) as [Hd|Hnd].
  - simpl. unfold same_settings. split_and!; try reflexivity; try assumption.
    + apply quiet_refl.
    + intros Hne. contradiction.
  - pose proof (set_state_spec DISCONNECTING m w) as [Hm1 Hq1].
    destruct (set_state DISCONNECTING m w) as [m1 w1]. simpl in Hm1, Hq1.
    pose proof (teardown_spec true m1 w1) as Ht.
    destruct (teardown true m1 w1) as [m2 w2]. simpl in Ht.
    destruct Ht as (Hst & Hset & Hc & Hv & Hvs & Hcp & Hq2).
    pose proof (set_state_spec DISCONNECTED m2 w2) as [Hm3 Hq3].
    destruct (set_state DISCONNECTED m2 w2) as [m3 w3]. simpl in Hm3, Hq3.
    simpl. subst m3 m1.
    unfold same_settings in *. simpl in *.
    destruct Hset as (? & ? & ? & ? & ? & ? & ?).
    split_and!; try assumption; try reflexivity; try contradiction.
    + eapply quiet_trans; [exact Hq1|]. eapply quiet_trans; [exact Hq2|].
      eapply quiet_trans; [exact Hq3|apply quiet_add_log].
    + intros _. split_and!; assumption.
Qed.

Lemma _stop_reconnect_thread_spec m :
  _stop_reconnect_thread m
  = with_thread None (_stop_event m || thread_alive m) m.
Proof.
  unfold _stop_reconnect_thread, thread_alive.
  destruct (_reconnect_thread m) as [[[|]]|]; simpl;
    rewrite ?orb_true_r, ?orb_false_r; reflexivity.
Qed.

Lemma with_thread_id m :
  _reconnect_thread m = None -> with_thread None (_stop_event m) m = m.
Proof. destruct m; simpl; intros ->; reflexivity. Qed.

(** *** connect *)

Lemma connect_spec (host : string) (control_port video_port : Z) m w :
  state m <> CONNECTED ->
  exists m1 w1,
    connect host control_port video_port m w = (Return tt, m1, w1)
    /\ state m1 = CONNECTING
    /\ _reconnect_thread m1 = Some {| alive := true |}
    /\ _stop_event m1 = false
    /\ _host m1 = Some host
    /\ _control_port m1 = control_port
    /\ _video_port m1 = video_port
    /\ _reconnect_attempts m1 = _reconnect_attempts m
    /\ _reconnect_delay m1 = _reconnect_delay m
    /\ quiet w w1
    /\ (state m <> DISCONNECTED -> channels_present m1 = false).
Proof.
  intros Hnc. unfold connect.
  destruct (decide (state m = CONNECTED)) as [Hc|_]; [contradiction|].
  rewrite _stop_reconnect_thread_spec.
  set (m2 := with_thread None _ _).
  pose proof (_disconnect_spec m2 w) as (Hset & Hst & Hq & _ & Hch).
  destruct (_disconnect m2 w) as [m3 w3]. simpl in Hset, Hst, Hq, Hch.
  pose proof (set_state_spec CONNECTING m3 w3) as [Hm4 Hq4].
  destruct (set_state CONNECTING m3 w3) as [m4 w4]. simpl in Hm4, Hq4.
  subst m4. eexists _, _. split; [reflexivity|].
  destruct Hset as (Ha & Hd & Hh & Hcp & Hvp & _ & _).
  simpl. split_and!; try reflexivity; try assumption.
  - eapply quiet_trans; eassumption.
  - intros Hnd. unfold channels_present. simpl.
    destruct (Hch Hnd) as (_ & _ & _ & ->). reflexivity.
Qed.

(** *** The connect loop *)






Lemma shuts_app (tr1 tr2 : list event) :
  shuts (tr1 ++ tr2) = shuts tr1 ++ shuts tr2.
Proof. apply omap_app. Qed.

Lemma call_trace {A : Type} (i : nat) (f : C -> outcome A * C) w :
  trace (snd (call i f w)) = trace w /\ net (snd (call i f w)) = net w.
Proof.
  unfold call. destruct (conns w !! i) as [c|]; [|split; reflexivity].
  destruct (f c) as [o c']. split; reflexivity.
Qed.




(** The equation of the loop for one more turn of fuel. *)
Lemma connect_while_S (fuel : nat) (a : Z) m w :
  connect_while (S fuel) a m w
  = if negb (_stop_event m) && (a <? _reconnect_attempts m) then
      let w0 := if 0 <? a then add_log (INFO, "Reconnection attempt") w
                else w in
      match attempt m w0 with
      | (Return (control_conn, video_conn, command_processor, video_stream),
         w1) =>
          let m1 :=
            with_video_stream (Some video_stream)
              (with_command_processor (Some command_processor)
                 (with_conns (Some control_conn) (Some video_conn) m)) in
          let '(m2, w2) := set_state CONNECTED m1 w1 in
          Some (Return tt, m2, add_log (INFO, "Connected") w2)
      | (Raise ConnectionError, w1) =>
          let w2 := add_log (LOG_ERROR, "Connection attempt failed") w1 in
          let '(m1, w3) := _cleanup_connections m w2 in
          if _reconnect_attempts m <=? a + 1 then
            let w4 := add_log (LOG_ERROR, "Failed to connect") w3 in
            let '(m2, w5) := set_state DISCONNECTED m1 w4 in
            Some (Return tt, m2, w5)
          else if Qle_bool 0 (backoff (_reconnect_delay m) (a + 1)) then
            connect_while fuel (a + 1) m1
              (sleep (backoff (_reconnect_delay m) (a + 1)) w3)
          else Some (Raise ValueError, m1, w3)
      | (Raise _, w1) =>
          let w2 :=
            add_log (CRITICAL, "Unexpected error during connection") w1 in
          let '(m1, w3) := set_state DISCONNECTED m w2 in
          let '(m2, w4) := _cleanup_connections m1 w3 in
          Some (Return tt, m2, w4)
      end
    else Some (Return tt, m, w).
Proof. reflexivity. Qed.




(** [disconnect] and [close] are called on the connections that the
    manager holds, and on no other. *)
Lemma shut_shuts (report : bool) (conn : option nat) w :
  shuts (trace (shut report conn w))
  = shuts (trace w)
    ++ match conn with
       | None => []
       | Some i =>
           if is_raise (fst (call i conn_disconnect
                               (add_event (DisconnectCall i) w)))
           then [i] else [i; i]
       end.
Proof.
  unfold shut. destruct conn as [i|]; [|rewrite app_nil_r; reflexivity].
  pose proof (call_trace i conn_disconnect (add_event (DisconnectCall i) w))
    as [Ht1 _].
  destruct (call i conn_disconnect (add_event (DisconnectCall i) w))
    as [o1 w1].
  simpl in Ht1. simpl fst.
  destruct o1 as [[]|e].
  - pose proof (call_trace i conn_close (add_event (CloseCall i) w1))
      as [Ht2 _].
    destruct (call i conn_close (add_event (CloseCall i) w1)) as [o2 w2].
    simpl in Ht2.
    assert (Ht : trace w2 = trace w ++ [DisconnectCall i; CloseCall i]).
    { rewrite Ht2. simpl. rewrite Ht1, <- app_assoc. reflexivity. }
    destruct (is_raise o2 && report); simpl; rewrite Ht, shuts_app;
      reflexivity.
  - destruct (is_raise (Raise (A:=unit) e) && report); simpl;
      rewrite Ht1, shuts_app; reflexivity.
Qed.









(** A loop that is entered in a state other than Connected leaves the
    manager Connected only with its two channels in place. *)
Lemma connect_while_channels (fuel : nat) :
  forall (a : Z) m w o m' w',
    state m <> CONNECTED ->
    connect_while fuel a m w = Some (o, m', w') ->
    state m' = CONNECTED -> channels_present m' = true.
Proof.
  induction fuel as [|fuel IH]; intros a m w o m' w' Hnc Hrun Hconn.
  { simpl in Hrun.
    destruct (negb (_stop_event m) && (a <? _reconnect_attempts m));
      [discriminate|].
    inversion Hrun; subst. contradiction. }
  rewrite connect_while_S in Hrun.
  destruct (negb (_stop_event m) && (a <? _reconnect_attempts m)).
  2:{ inversion Hrun; subst. contradiction. }
  cbv zeta in Hrun.
  destruct (attempt m _) as [[[[[cc vc] p] v]|e] w1].
  - pose proof (set_state_spec CONNECTED
                  (with_video_stream (Some v)
                     (with_command_processor (Some p)
                        (with_conns (Some cc) (Some vc) m))) w1) as [Hm2 _].
    destruct (set_state CONNECTED _ w1) as [m2 w2]. simpl in Hm2.
    inversion Hrun; subst. reflexivity.
  - assert (Hother :
      forall m1 w3 m2 w4,
        set_state DISCONNECTED m
          (add_log (CRITICAL, "Unexpected error during connection") w1)
        = (m1, w3) ->
        teardown false m1 w3 = (m2, w4) -> state m2 = DISCONNECTED).
    { intros m1 w3 m2 w4 Hset Hclean.
      pose proof (set_state_spec DISCONNECTED m
                    (add_log (CRITICAL, "Unexpected error during connection")
                       w1)) as [Hm1 _].
      rewrite Hset in Hm1. simpl in Hm1. subst m1.
      pose proof (teardown_spec false (with_state DISCONNECTED m) w3)
        as (Hst & _).
      rewrite Hclean in Hst. exact Hst. }
    destruct e;
      try (unfold _cleanup_connections in Hrun;
           destruct (set_state DISCONNECTED m _) as [m1 w3] eqn:Hset;
           destruct (teardown false m1 w3) as [m2 w4] eqn:Hclean;
           pose proof (Hother _ _ _ _ eq_refl Hclean) as Hdisc;
           inversion Hrun; subst; congruence).
    clear Hother. unfold _cleanup_connections in Hrun.
    pose proof (teardown_spec false m
                  (add_log (LOG_ERROR, "Connection attempt failed") w1))
      as (Hst1 & _).
    destruct (teardown false m _) as [m1 w3]. simpl in Hst1.
    destruct (_reconnect_attempts m <=? a + 1).
    + pose proof (set_state_spec DISCONNECTED m1
                    (add_log (LOG_ERROR, "Failed to connect") w3))
        as [Hm2 _].
      destruct (set_state DISCONNECTED m1 _) as [m2 w5]. simpl in Hm2.
      inversion Hrun; subst. discriminate Hconn.
    + destruct (Qle_bool 0 (backoff (_reconnect_delay m) (a + 1))).
      * eapply IH; [|exact Hrun|exact Hconn].
        unfold state in *. congruence.
      * inversion Hrun; subst. unfold state in *. congruence.
Qed.




(** *** disconnect *)

(** C8: [disconnect] never raises and leaves the manager Disconnected; a
    second call changes nothing at all, neither in the manager nor around
    it.  A call on a manager that is already Disconnected touches no
    channel and no connection and logs nothing: it does no more than
    forget the handle of the reconnect thread, after telling that thread to
    stop if it is still alive. *)
Theorem disconnect_idempotent m w :
  exists m1 w1,
    disconnect m w = (Return tt, m1, w1)
    /\ state m1 = DISCONNECTED
    /\ disconnect m1 w1 = (Return tt, m1, w1)
    /\ (state m = DISCONNECTED ->
        w1 = w
        /\ m1 = with_thread None (_stop_event m || thread_alive m) m
        /\ (_reconnect_thread m = None -> m1 = m)).
Proof.
  unfold disconnect. rewrite _stop_reconnect_thread_spec.
  set (m0 := with_thread None (_stop_event m || thread_alive m) m).
  pose proof (_disconnect_spec m0 w) as (Hset & Hst & _ & Hnoop & _).
  destruct (_disconnect m0 w) as [m1 w1] eqn:Hdis. simpl in Hset, Hst.
  exists m1, w1. split; [reflexivity|]. split; [exact Hst|]. split.
  - rewrite _stop_reconnect_thread_spec.
    destruct Hset as (_ & _ & _ & _ & _ & _ & Hth). simpl in Hth.
    assert (Halive : thread_alive m1 = false)
      by (unfold thread_alive; rewrite Hth; reflexivity).
    rewrite Halive, orb_false_r, (with_thread_id m1 Hth).
    pose proof (_disconnect_spec m1 w1) as (_ & _ & _ & Hnoop1 & _).
    rewrite (Hnoop1 Hst). reflexivity.
  - intros Hd. specialize (Hnoop Hd).
    inversion Hnoop; subst m1 w1. split_and!; try reflexivity.
    intros Hth. subst m0. unfold thread_alive. rewrite Hth, orb_false_r.
    apply with_thread_id. exact Hth.
Qed.

(** *** The manager between two calls *)

Lemma consistent_init (reconnect_attempts : Z) (reconnect_delay : Q) :
  consistent (init (P := P) reconnect_attempts reconnect_delay) = true.
Proof. reflexivity. Qed.

Lemma consistent_intro m :
  (state m = CONNECTED -> channels_present m = true) ->
  (thread_alive m = true -> state m = CONNECTING) ->
  consistent m = true.
Proof.
  intros Hch Hth. unfold consistent, is_connected.
  apply andb_true_iff. split.
  - destruct (bool_decide_reflect (state m = CONNECTED)); [auto|reflexivity].
  - destruct (thread_alive m); [|reflexivity].
    apply bool_decide_eq_true. auto.
Qed.

Lemma consistent_elim m :
  consistent m = true ->
  (state m = CONNECTED -> channels_present m = true)
  /\ (thread_alive m = true -> state m = CONNECTING).
Proof.
  unfold consistent, is_connected. intros Hc.
  apply andb_true_iff in Hc as [Hch Hth]. split.
  - intros Hconn. rewrite bool_decide_eq_true_2 in Hch; assumption.
  - intros Halive. rewrite Halive in Hth.
    apply bool_decide_eq_true in Hth. exact Hth.
Qed.

Lemma consistent_connect (host : string) (control_port video_port : Z) m w :
  consistent m = true ->
  consistent (snd (fst (connect host control_port video_port m w))) = true.
Proof.
  intros Hc. destruct (decide (state m = CONNECTED)) as [Hconn|Hnc].
  - unfold connect. destruct (decide (state m = CONNECTED));
      [exact Hc|contradiction].
  - destruct (connect_spec host control_port video_port m w Hnc)
      as (m1 & w1 & -> & Hst & _). simpl.
    apply consistent_intro; [intros Hconn; congruence|intros _; exact Hst].
Qed.

Lemma consistent_disconnect m w :
  consistent (snd (fst (disconnect m w))) = true.
Proof.
  unfold disconnect. rewrite _stop_reconnect_thread_spec.
  pose proof (_disconnect_spec
                (with_thread None (_stop_event m || thread_alive m) m) w)
    as (Hset & Hst & _).
  destruct (_disconnect _ w) as [m1 w1]. simpl in *.
  destruct Hset as (_ & _ & _ & _ & _ & _ & Hth). simpl in Hth.
  apply consistent_intro.
  - intros Hconn. congruence.
  - unfold thread_alive. rewrite Hth. discriminate.
Qed.

Lemma consistent_run_reconnect_thread (fuel : nat) m w o m' w' :
  consistent m = true ->
  run_reconnect_thread fuel m w = Some (o, m', w') ->
  consistent m' = true.
Proof.
  intros Hc Hrun. unfold run_reconnect_thread in Hrun.
  destruct (consistent_elim m Hc) as [_ Hth]. unfold thread_alive in Hth.
  destruct (_reconnect_thread m) as [[[|]]|] eqn:Hthread;
    try (inversion Hrun; subst; exact Hc).
  specialize (Hth eq_refl).
  unfold _connect_loop in Hrun.
  destruct (connect_while fuel 0 m w) as [[[o1 m1] w1]|] eqn:Hloop;
    [|discriminate].
  inversion Hrun; subst. apply consistent_intro.
  - intros Hconn. unfold channels_present. simpl.
    eapply (connect_while_channels fuel 0 m w); [|exact Hloop|exact Hconn].
    rewrite Hth. discriminate.
  - unfold thread_alive. simpl. discriminate.
Qed.

Lemma consistent_send_command (command : string) (timeout : option Q) m w :
  consistent m = true ->
  consistent (snd (fst (send_command command timeout m w))) = true.
Proof.
  intros Hc. unfold send_command.
  destruct (is_connected m); [|exact Hc].
  destruct (_command_processor m) as [p|] eqn:Hp; [|exact Hc].
  destruct (cp_send_command command timeout p (conns w)) as [[o p'] cs].
  simpl. destruct (consistent_elim m Hc) as [Hch Hth].
  apply consistent_intro.
  - intros Hconn. specialize (Hch Hconn).
    unfold channels_present in *. simpl.
    rewrite Hp in Hch. exact Hch.
  - exact Hth.
Qed.

(** *** send_command and get_video_frame *)

(** C6: while the state is not Connected, [send_command] raises
    ConnectionError and touches nothing, and [get_video_frame] answers
    [None].  While it is Connected, the manager has its two channels, and
    the two calls are the calls of the same name on these channels. *)
Theorem commands_and_frames_by_state (command : string)
    (timeout : option Q) m w :
  (state m <> CONNECTED ->
   send_command command timeout m w = (Raise ConnectionError, m, w)
   /\ get_video_frame timeout m = None)
  /\ (consistent m = true -> state m = CONNECTED ->
      exists p v,
        _command_processor m = Some p /\ _video_stream m = Some v
        /\ send_command command timeout m w
           = (let '(o, p', cs) :=
                cp_send_command command timeout p (conns w) in
              (o, with_command_processor (Some p') m, set_conns cs w))
        /\ get_video_frame timeout m = Video.get_frame timeout v).
Proof.
  unfold send_command, get_video_frame, is_connected. split.
  - intros Hnc. rewrite bool_decide_eq_false_2 by exact Hnc.
    split; reflexivity.
  - intros Hc Hconn. destruct (consistent_elim m Hc) as [Hch _].
    specialize (Hch Hconn). unfold channels_present in Hch.
    rewrite bool_decide_eq_true_2 by exact Hconn.
    destruct (_command_processor m) as [p|]; [|discriminate].
    destruct (_video_stream m) as [v|]; [|discriminate].
    exists p, v. split_and!; reflexivity.
Qed.

End Facts.


(** For the double, on a network where the first two tries fail and both
    connections of the third go through, the loop waits one second and two
    seconds, builds four connections, and still ends Disconnected:
    [video_stream.start()] raises.  The manager holds nothing, and the two
    connections of the last try are left Connected in the store. *)
Example flaky_network_never_connects :
  let '(_, m1, w1) :=
    connect Samples.robot 5002 8002 Samples.fresh_manager
      (Samples.double_world Samples.flaky_network) in
  match run_reconnect_thread 3 m1 w1 with
  | Some (o, m2, w2) =>
      o = Return tt /\ state m2 = DISCONNECTED
      /\ sleeps (trace w2) = [1%Q; 2%Q]
      /\ builds (trace w2) = [0; 1; 2; 3]%nat
      /\ _control_conn m2 = None /\ _video_conn m2 = None
      /\ map conn_state (conns w2)
         = [DISCONNECTED; DISCONNECTED; CONNECTED; CONNECTED]
      /\ shuts (trace w2) = []
  | None => False
  end.
Proof. vm_compute. split_and!; reflexivity. Qed.




(** The theorem at a manager that has never been connected. *)
Lemma disconnect_idempotent_witness :
  disconnect Samples.fresh_manager (Samples.fresh_world [])
  = (Return tt, Samples.fresh_manager, Samples.fresh_world []).
Proof.
  destruct (disconnect_idempotent Samples.fresh_manager
              (Samples.fresh_world []))
    as (m1 & w1 & Hdis & _ & _ & Hnoop).
  destruct Hnoop as (Hw & _ & Hm); [reflexivity|].
  rewrite Hdis, Hw, (Hm eq_refl). reflexivity.
Defined.

(** The theorem at a manager that has never been connected and at one that
    is connected. *)
Lemma commands_and_frames_by_state_witness :
  send_command "CMD_POWER" None Samples.fresh_manager (Samples.fresh_world [])
  = (Raise ConnectionError, Samples.fresh_manager, Samples.fresh_world [])
  /\ exists p v,
       _command_processor (fst Samples.connected_sample) = Some p
       /\ _video_stream (fst Samples.connected_sample) = Some v
       /\ get_video_frame (Some 1%Q) (fst Samples.connected_sample)
          = Video.get_frame (Some 1%Q) v.
Proof.
  split.
  - destruct (commands_and_frames_by_state "CMD_POWER" None
                Samples.fresh_manager (Samples.fresh_world []))
      as [Hnot _].
    apply Hnot. discriminate.
  - destruct (commands_and_frames_by_state "CMD_POWER" (Some 1%Q)
                (fst Samples.connected_sample) (snd Samples.connected_sample))
      as [_ Hconn].
    destruct Hconn as (p & v & Hp & Hv & _ & Hget); [reflexivity..|].
    exists p, v. split_and!; assumption.
Defined.

End ManagerFacts.

(** ** The command reader of [Main.py] *)

Module MainWindowFacts.
Import Connections MainWindow.

Lemma split_free (sep : ascii) (s : string) :
  occurs sep s = false -> split sep s = [s].
Proof.
  induction s as [|c rest IH]; simpl; [reflexivity|].
  intros Hocc. apply orb_false_iff in Hocc as [Hc Hrest].
  rewrite Hc, (IH Hrest). reflexivity.
Qed.

Lemma split_terminated (sep : ascii) (r text : string) :
  occurs sep r = false ->
  split sep (r ++ String sep text) = r :: split sep text.
Proof.
  induction r as [|c rest IH]; simpl.
  - intros _. rewrite Ascii.eqb_refl. reflexivity.
  - intros Hocc. apply orb_false_iff in Hocc as [Hc Hrest].
    rewrite Hc, (IH Hrest). reflexivity.
Qed.

(** Cutting at the newlines gives back the records that were terminated,
    in their order, and then what follows the last newline. *)
Lemma split_wire (rs : list string) (tail : string) :
  forallb (fun r => negb (occurs newline r)) rs = true ->
  occurs newline tail = false ->
  split newline (wire rs tail) = rs ++ [tail].
Proof.
  intros Hrs Htail. induction rs as [|r rs IH]; simpl.
  - apply split_free. exact Htail.
  - simpl in Hrs. apply andb_true_iff in Hrs as [Hr Hrs].
    apply negb_true_iff in Hr.
    rewrite (split_terminated newline r _ Hr), (IH Hrs). reflexivity.
Qed.

Section Facts.
Variables CMD_SONIC CMD_POWER : string.

Lemma handle_calm (oneCmd : string) (u : window) :
  calm CMD_SONIC oneCmd = true ->
  exists u',
    handle CMD_SONIC CMD_POWER oneCmd u = (Return tt, u')
    /\ client u' = client u
    /\ printed u' = printed u ++ [split hash oneCmd].
Proof.
  unfold calm, handle.
  destruct (split hash oneCmd) as [|code args] eqn:Hsplit.
  { destruct oneCmd as [|c rest]; simpl in Hsplit; [discriminate|].
    destruct (Ascii.eqb c hash); [discriminate|].
    destruct (split hash rest); discriminate. }
  intros Hcalm. destruct (String.eqb code CMD_SONIC) eqn:Hsonic.
  - destruct args as [|a args]; [discriminate|].
    eexists. split_and!; reflexivity.
  - destruct (String.eqb code CMD_POWER).
    + destruct args as [|a [|b [|c args]]]; eexists; split_and!; reflexivity.
    + eexists. split_and!; reflexivity.
Qed.

Lemma for_each_calm (cmdArray : list string) :
  forall u : window,
    forallb (calm CMD_SONIC) cmdArray = true ->
    exists u',
      for_each CMD_SONIC CMD_POWER cmdArray u = (Return tt, u')
      /\ client u' = client u
      /\ printed u' = printed u ++ map (split hash) cmdArray.
Proof.
  induction cmdArray as [|oneCmd rest IH]; intros u Hcalm; simpl.
  - exists u. rewrite app_nil_r. split_and!; reflexivity.
  - simpl in Hcalm. apply andb_true_iff in Hcalm as [Hone Hrest].
    destruct (handle_calm oneCmd u Hone) as (u1 & -> & Hc1 & Hp1).
    destruct (IH u1 Hrest) as (u2 & -> & Hc2 & Hp2).
    exists u2. split; [reflexivity|]. split; [congruence|].
    rewrite Hp2, Hp1, <- app_assoc. reflexivity.
Qed.

(** The loop on the texts of successive receives: each text is cut and
    dispatched on its own. *)
Lemma receive_loop_spec (chunks : list string) :
  forall (u : window) (s : socket),
    MainPy.tcp_flag (client u) = true ->
    MainPy._command_socket (client u) = Some s ->
    sock_closed s = false ->
    sock_inbox s = map (fun c => SockData (list_byte_of_string c)) chunks ->
    forallb (handled CMD_SONIC) chunks = true ->
    exists u',
      receive_loop CMD_SONIC CMD_POWER (S (List.length chunks)) u
      = Some (Return tt, u')
      /\ printed u' = printed u ++ flat_map (records) chunks.
Proof.
  induction chunks as [|chunk chunks IH];
    intros u s Hflag Hsock Hopen Hinbox Hok.
  - simpl. unfold receive_data, sock_recv.
    rewrite Hflag, Hsock, Hopen, Hinbox. simpl.
    eexists. split; [reflexivity|]. simpl. rewrite app_nil_r. reflexivity.
  - simpl in Hok. apply andb_true_iff in Hok as [Hchunk Hok].
    unfold handled in Hchunk.
    apply andb_true_iff in Hchunk as [Hchunk Hcalm].
    apply andb_true_iff in Hchunk as [Hchunk Hutf].
    apply andb_true_iff in Hchunk as [Hne Hlen].
    apply negb_true_iff in Hne. apply Nat.leb_le in Hlen.
    change (receive_loop CMD_SONIC CMD_POWER (S (List.length (chunk :: chunks))) u)
      with (match receive_data (client u) with
            | (Raise _, c) =>
                Some (Return tt, with_client (set_tcp_flag false c) u)
            | (Return alldata, c) =>
                let u := with_client c u in
                if String.eqb alldata "" then Some (Return tt, u)
                else
                  match for_each CMD_SONIC CMD_POWER
                          (split newline alldata) u with
                  | (Return _, u') =>
                      receive_loop CMD_SONIC CMD_POWER
                        (S (List.length chunks)) u'
                  | (Raise e, u') => Some (Raise e, u')
                  end
            end).
    unfold receive_data, sock_recv.
    rewrite Hflag, Hsock, Hopen, Hinbox. simpl map.
    cbv beta iota delta [negb].
    rewrite (take_ge _ _ Hlen), (drop_ge _ _ Hlen).
    cbv beta iota.
    rewrite Hutf.
    rewrite string_of_list_byte_of_string, Hne.
    set (s' := set_inbox s _). set (u0 := with_client _ u).
    destruct (for_each_calm (split newline chunk) u0 Hcalm)
      as (u1 & -> & Hc1 & Hp1).
    destruct (IH u1 s') as (u' & Hrun & Hp').
    + rewrite Hc1. exact Hflag.
    + rewrite Hc1. reflexivity.
    + exact Hopen.
    + reflexivity.
    + exact Hok.
    + exists u'. split; [exact Hrun|].
      rewrite Hp', Hp1. simpl. rewrite <- app_assoc. reflexivity.
Qed.

(** C4 (as amended): the command reader keeps nothing from one receive
    to the next.  What a receive returns is decoded as UTF-8, cut at the
    newlines, and the pieces are split at every [#] and dispatched at once,
    on their own: the run over several receives dispatches what each of
    them gives, one after the other.  The records that arrive whole in one
    receive, each with its newline, are dispatched first and in the order
    of the wire.  So a record that the transport has cut in two is never
    put together again.  A receive that is not well-formed UTF-8 ends the
    reader: nothing of it is dispatched and [tcp_flag] is cleared. *)
Theorem receive_instruction_per_receive :
  (forall (chunks : list string) (u : window) (s : socket),
     MainPy._command_socket (client u) = Some s ->
     sock_closed s = false ->
     sock_inbox s = map (fun c => SockData (list_byte_of_string c)) chunks ->
     forallb (handled CMD_SONIC) chunks = true ->
     exists u',
       receive_instruction CMD_SONIC CMD_POWER (S (List.length chunks)) true u
       = Some (Return tt, u')
       /\ printed u' = printed u ++ flat_map records chunks)
  /\ (forall (rs : list string) (tail : string),
        forallb (fun r => negb (occurs newline r)) rs = true ->
        occurs newline tail = false ->
        firstn (List.length rs) (records (wire rs tail))
        = map (split hash) rs)
  /\ (forall (fuel : nat) (u : window) (s : socket) (data : bytes)
             (rest : list sock_event),
        MainPy._command_socket (client u) = Some s ->
        sock_closed s = false ->
        sock_inbox s = SockData data :: rest ->
        utf8_valid (take 1024 data) = false ->
        exists u',
          receive_instruction CMD_SONIC CMD_POWER (S fuel) true u
          = Some (Return tt, u')
          /\ MainPy.tcp_flag (client u') = false
          /\ printed u' = printed u).
Proof.
  split_and!.
  - intros chunks u s Hsock Hopen Hinbox Hok. unfold receive_instruction.
    destruct (receive_loop_spec chunks
                (with_client (set_tcp_flag true (client u)) u) s)
      as (u' & Hrun & Hp); try assumption; try reflexivity.
    exists u'. split; [exact Hrun|exact Hp].
  - intros rs tail Hrs Htail. unfold records.
    rewrite (split_wire rs tail Hrs Htail), map_app.
    rewrite <- (length_map (split hash) rs). apply take_app_length.
  - intros fuel u s data rest Hsock Hopen Hinbox Hbad.
    unfold receive_instruction. cbn [receive_loop].
    unfold receive_data, sock_recv. simpl.
    rewrite Hsock, Hopen, Hinbox, Hbad.
    eexists. split_and!; reflexivity.
Qed.

End Facts.

(** The theorem on [CMD1#a#] followed by [b], newline, [CMD2#c], newline:
    the run dispatches what the first receive gives and then what the
    second gives, which begins with [b] and [CMD2 c]. *)
Lemma receive_instruction_per_receive_witness :
  (exists u',
     receive_instruction "CMD_SONIC" "CMD_POWER" 3 true
       (Samples.window_on Samples.two_receives) = Some (Return tt, u')
     /\ printed u'
        = records "CMD1#a#"
          ++ records ("b" ++ Samples.nl ++ "CMD2#c" ++ Samples.nl)%string)
  /\ firstn 2 (records ("b" ++ Samples.nl ++ "CMD2#c" ++ Samples.nl)%string)
     = [["b"]; ["CMD2"; "c"]].
Proof.
  destruct (receive_instruction_per_receive "CMD_SONIC" "CMD_POWER")
    as (Hrun & Hwire & _).
  split.
  - destruct (Hrun Samples.two_receives
                (Samples.window_on Samples.two_receives)
                (Samples.socket_with
                   (map (fun c => SockData (list_byte_of_string c))
                      Samples.two_receives)))
      as (u' & Hu & Hp); try reflexivity.
    exists u'. split; [exact Hu|]. rewrite Hp. reflexivity.
  - apply (Hwire ["b"; "CMD2#c"] ""); reflexivity.
Defined.

(** C4 (as stated) fails: fed [CMD1#a#] and then [b], newline, [CMD2#c],
    newline, the reader does not dispatch the two records [CMD1 a b] and
    [CMD2 c]; the halves of the first record are dispatched apart. *)
Lemma split_record_is_not_reassembled :
  match receive_instruction "CMD_SONIC" "CMD_POWER" 3 true
          (Samples.window_on Samples.two_receives) with
  | Some (_, u') =>
      printed u' <> [["CMD1"; "a"; "b"]; ["CMD2"; "c"]]
      /\ firstn 2 (printed u') = [["CMD1"; "a"; ""]; ["b"]]
  | None => False
  end.
Proof. vm_compute. split; [discriminate|reflexivity]. Qed.

End MainWindowFacts.

(** ** The NetworkManager of [Main.py], and the guard of [connect] *)

Module MainPyFacts.
Import Connections.

Lemma _set_state_state (v : MainPy.ConnectionState) (s : MainPy.system) :
  MainPy.state (MainPy.mgr (MainPy._set_state v s)) = v.
Proof.
  unfold MainPy._set_state, MainPy.state.
  destruct (decide (MainPy._state (MainPy.mgr s) <> v)) as [Hne|Heq];
    [reflexivity|].
  apply dec_stable in Heq. exact Heq.
Qed.

(** The body of [connect] never returns: once the two sockets have
    connected, [start_threads] is called while the state is still
    Connecting and raises (as the assignment to
    [self._reconnect_attempts.value] would after it), so that the handler
    of the third inner [try] is entered. *)
Lemma connect_try_raises (i : string) (p vp : Z) (s : MainPy.system) :
  exists e, fst (MainPy.connect_try i p vp s) = Raise e.
Proof.
  unfold MainPy.connect_try, MainPy.initialize_failed, MainPy.disconnect.
  repeat (case_match; simpl in * ); simplify_eq; eauto.
Qed.

(** So the handler of the outer [try] is always entered, and the NameError
    of [_handle_connection_error] is what leaves [connect]. *)
Lemma connect_once_raises (i : string) (p vp : Z) (s : MainPy.system) :
  MainPy.state (MainPy.mgr s) <> MainPy.CONNECTED ->
  MainPy.connect_once i p vp s
  = (Raise NameError,
     snd (MainPy.connect_try i p vp (MainPy._set_state MainPy.CONNECTING s))).
Proof.
  intros Hnc. unfold MainPy.connect_once.
  destruct (decide (MainPy.state (MainPy.mgr s) = MainPy.CONNECTED))
    as [Hc|_]; [contradiction|].
  destruct (connect_try_raises i p vp (MainPy._set_state MainPy.CONNECTING s))
    as [e He].
  destruct (MainPy.connect_try i p vp (MainPy._set_state MainPy.CONNECTING s))
    as [o s'].
  simpl in He. subst o. reflexivity.
Qed.

(** NameError is not among the exceptions that [retry] catches: the
    decorated [connect] ends with its first try. *)
Lemma connect_raises (i : string) (p vp : Z) (s : MainPy.system) :
  MainPy.state (MainPy.mgr s) <> MainPy.CONNECTED ->
  MainPy.connect i p vp s
  = (Raise NameError,
     snd (MainPy.connect_try i p vp (MainPy._set_state MainPy.CONNECTING s))).
Proof.
  intros Hnc. unfold MainPy.connect, Utils.retry.
  change (Z.to_nat 3) with 3%nat. cbn [Utils.retry_from].
  rewrite (connect_once_raises i p vp s Hnc). reflexivity.
Qed.

(** C2 (as amended): [connect] called in state Connected leaves the
    manager as it is, state and every other field: the manager of Main.py
    raises InvalidStateError, the core manager only logs a warning and
    returns.  In any other state the call is accepted: no InvalidStateError
    is raised, and the core manager goes to Connecting. *)
Theorem connect_guard :
  (forall (C P R : Type) (IC : IConnection C)
          (IP : Manager.ICommandProcessor P C R)
          (host : string) (control_port video_port : Z)
          (m : Manager.NetworkManager P) (w : Manager.World C),
     Manager.state m = CONNECTED ->
     Manager.connect host control_port video_port m w
     = (Return tt, m, Manager.add_log (WARNING, "Already connected") w))
  /\ (forall (i : string) (p vp : Z) (s : MainPy.system),
        MainPy.state (MainPy.mgr s) = MainPy.CONNECTED ->
        MainPy.connect i p vp s = (Raise InvalidStateError, s))
  /\ (forall (C P R : Type) (IC : IConnection C)
             (IP : Manager.ICommandProcessor P C R)
             (host : string) (control_port video_port : Z)
             (m : Manager.NetworkManager P) (w : Manager.World C),
        Manager.state m <> CONNECTED ->
        fst (fst (Manager.connect host control_port video_port m w))
        = Return tt
        /\ Manager.state
             (snd (fst (Manager.connect host control_port video_port m w)))
           = CONNECTING)
  /\ (forall (i : string) (p vp : Z) (s : MainPy.system),
        MainPy.state (MainPy.mgr s) <> MainPy.CONNECTED ->
        fst (MainPy.connect i p vp s) <> Raise InvalidStateError).
Proof.
  split_and!.
  - intros C P R IC IP host control_port video_port m w Hc.
    unfold Manager.connect.
    destruct (decide (Manager.state m = CONNECTED));
      [reflexivity|contradiction].
  - intros i p vp s Hc. unfold MainPy.connect, Utils.retry. simpl.
    unfold MainPy.connect_once.
    destruct (decide (MainPy.state (MainPy.mgr s) = MainPy.CONNECTED));
      [reflexivity|contradiction].
  - intros C P R IC IP host control_port video_port m w Hnc.
    destruct (ManagerFacts.connect_spec host control_port video_port m w Hnc)
      as (m1 & w1 & -> & Hst & _).
    split; [reflexivity|exact Hst].
  - intros i p vp s Hnc. rewrite (connect_raises i p vp s Hnc).
    discriminate.
Qed.

(** The theorem at a connected manager of each kind. *)
Lemma connect_guard_witness :
  Manager.connect Samples.robot 5002 8002 (fst Samples.connected_sample)
    (snd Samples.connected_sample)
  = (Return tt, fst Samples.connected_sample,
     Manager.add_log (WARNING, "Already connected")
       (snd Samples.connected_sample))
  /\ MainPy.connect Samples.robot 5002 8002
       (Samples.main_system MainPy.CONNECTED [])
     = (Raise InvalidStateError, Samples.main_system MainPy.CONNECTED []).
Proof.
  destruct connect_guard as (Hcore & Hmain & _ & _).
  split.
  - apply Hcore. reflexivity.
  - apply Hmain. reflexivity.
Defined.

(** C2 (as stated) fails.  In state Error the core manager accepts
    [connect], raises nothing and goes to Connecting.  In state Error the
    manager of Main.py, with nobody answering, accepts the call as well: it
    goes to Connecting, makes its try, and what it raises is not
    InvalidStateError. *)
Lemma connect_is_accepted_when_not_connected :
  (let '(o, m1, _) :=
     Manager.connect Samples.robot 5002 8002 Samples.failed_manager
       (Samples.fresh_world Samples.dead_network) in
   o = Return tt /\ Manager.state m1 = CONNECTING)
  /\ (let '(o, s1) :=
        MainPy.connect Samples.robot 5002 8002
          (Samples.main_system MainPy.ERROR Samples.dead_network) in
      o <> Raise InvalidStateError
      /\ MainPy.state (MainPy.mgr s1) = MainPy.CONNECTING
      /\ MainPy.net s1 = [unreachable; unreachable]).
Proof. vm_compute. split_and!; try discriminate; reflexivity. Qed.

End MainPyFacts.

(** ** Connections: the life of a connection object *)

Module ConnectionLifecycle.
Import Connections.

(** [close] is idempotent, and a SocketConnection that has been closed
    while it was not Disconnected is of no further use: [disconnect] and
    [close] do nothing, [send] and [receive] raise ConnectionError without
    touching anything, and [connect] does not connect again: the socket is
    gone, the call raises AttributeError and leaves the state at
    Connecting. *)
Theorem closed_socket_connection (c : SocketConnection) :
  let c1 := snd (sc_close c) in
  fst (sc_close c) = Return tt
  /\ _state c1 = DISCONNECTED
  /\ sc_close c1 = (Return tt, c1)
  /\ sc_disconnect c1 = (Return tt, c1)
  /\ (forall data timeout,
        sc_send data timeout c1 = (Raise ConnectionError, c1))
  /\ (forall size timeout,
        sc_receive size timeout c1 = (Raise ConnectionError, c1))
  /\ (_state c <> DISCONNECTED ->
      _sock c1 = None
      /\ forall host port timeout,
           fst (sc_connect host port timeout c1) = Raise AttributeError
           /\ _state (snd (sc_connect host port timeout c1)) = CONNECTING).
Proof.
  unfold sc_close.
  destruct (decide (_state c = DISCONNECTED)) as [Hd|Hnd]; simpl.
  - split_and!; try reflexivity; try assumption.
    + destruct (decide (_state c = DISCONNECTED)); [reflexivity|contradiction].
    + unfold sc_disconnect.
      destruct (decide (_state c = DISCONNECTED)); [reflexivity|contradiction].
    + intros data timeout. unfold sc_send.
      destruct (decide (_state c <> CONNECTED)) as [_|Hc]; [reflexivity|].
      apply dec_stable in Hc. congruence.
    + intros size timeout. unfold sc_receive.
      destruct (decide (_state c <> CONNECTED)) as [_|Hc]; [reflexivity|].
      apply dec_stable in Hc. congruence.
    + intros Hne. contradiction.
  - split_and!; try reflexivity.
    intros _. split; [reflexivity|]. intros host port timeout.
    split; reflexivity.
Qed.

Lemma closed_socket_connection_witness :
  fst (sc_connect (Some Samples.robot) 8002 5
         (snd (sc_close (Samples.connected_to []))))
  = Raise AttributeError.
Proof.
  destruct (closed_socket_connection (Samples.connected_to []))
    as (_ & _ & _ & _ & _ & _ & Hgone).
  destruct Hgone as [_ Hconnect]; [discriminate|].
  apply (Hconnect (Some Samples.robot) 8002 5%Q).
Defined.

Lemma port_ok_spec (port : Z) :
  if port_ok port then 0 <= port <= 65535 else ~ 0 <= port <= 65535.
Proof.
  unfold port_ok.
  destruct (0 <=? port) eqn:Hlo; destruct (port <=? 65535) eqn:Hhi; simpl;
    rewrite ?Z.leb_le, ?Z.leb_gt in *; lia.
Qed.

Lemma timeout_ok_spec (timeout : Q) :
  if timeout_ok timeout then (0 <= timeout)%Q else (timeout < 0)%Q.
Proof.
  unfold timeout_ok. destruct (Qle_bool 0 timeout) eqn:Ht.
  - apply Qle_bool_iff. exact Ht.
  - apply Qnot_le_lt. intros Hle. apply Qle_bool_iff in Hle. congruence.
Qed.

(** What [connect] leaves behind: a connection that is already Connected
    is not touched; otherwise the call ends Connected when it returns and
    Disconnected when it raises ConnectionError (the socket is closed, or
    the peer does not answer), and when it raises anything else the state
    stays at Connecting: AttributeError when no socket is left, ValueError
    for a negative timeout, another exception when no host is given,
    OverflowError for a port outside 0..65535.  The checks are met in this
    order. *)
Theorem socket_connect_outcomes (host : option string) (port : Z)
    (timeout : Q) (c : SocketConnection) :
  match sc_connect host port timeout c with
  | (Return _, c') =>
      _state c' = CONNECTED
      /\ ((_state c = CONNECTED /\ c' = c)
          \/ (_state c <> CONNECTED
              /\ _host c' = host /\ _port c' = Some port
              /\ _timeout c' = timeout
              /\ (0 <= timeout)%Q /\ host <> None /\ 0 <= port <= 65535
              /\ exists s, _sock c = Some s /\ sock_connect_ok s = true
                           /\ sock_closed s = false))
  | (Raise ConnectionError, c') =>
      _state c' = DISCONNECTED /\ _state c <> CONNECTED
      /\ exists s, _sock c = Some s
                   /\ (sock_closed s = true
                       \/ (sock_connect_ok s = false
                           /\ (0 <= timeout)%Q /\ host <> None
                           /\ 0 <= port <= 65535))
  | (Raise AttributeError, c') =>
      _state c' = CONNECTING /\ _state c <> CONNECTED /\ _sock c = None
  | (Raise ValueError, c') =>
      _state c' = CONNECTING /\ _state c <> CONNECTED
      /\ (timeout < 0)%Q
      /\ exists s, _sock c = Some s /\ sock_closed s = false
  | (Raise OtherException, c') =>
      _state c' = CONNECTING /\ _state c <> CONNECTED /\ host = None
      /\ (0 <= timeout)%Q
  | (Raise OverflowError, c') =>
      _state c' = CONNECTING /\ _state c <> CONNECTED
      /\ ~ 0 <= port <= 65535
      /\ (0 <= timeout)%Q /\ host <> None
  | (Raise _, _) => False
  end.
Proof.
  unfold sc_connect.
  destruct (decide (_state c = CONNECTED)) as [Hc|Hnc].
  { split; [assumption|]. left. split; [assumption|reflexivity]. }
  simpl. destruct (_sock c) as [s|] eqn:Hsock;
    [|split_and!; reflexivity || assumption].
  destruct (sock_closed s) eqn:Hclosed.
  { split_and!; try reflexivity; try assumption.
    exists s. split; [reflexivity|left; assumption]. }
  pose proof (timeout_ok_spec timeout) as Ht.
  destruct (timeout_ok timeout); simpl.
  2:{ split_and!; try reflexivity; try assumption.
      exists s. split; [reflexivity|assumption]. }
  destruct host as [h|]; [|split_and!; reflexivity || assumption].
  pose proof (port_ok_spec port) as Hp.
  destruct (port_ok port); simpl.
  2:{ split_and!; try reflexivity; try assumption. discriminate. }
  destruct (sock_connect_ok s) eqn:Hok; simpl.
  - split; [reflexivity|]. right.
    split_and!; try reflexivity; try assumption; try discriminate; try lia.
    exists s. split_and!; reflexivity || assumption.
  - split_and!; try reflexivity; try assumption.
    exists s. split; [reflexivity|]. right.
    split_and!; try assumption; try discriminate; lia.
Qed.

(** The two classes do not agree on what [send] returns: a
    SocketConnection returns [None] (the value of [sendall]) where the
    DummyConnection returns the number of bytes.  In both, a send that
    returns has put the data, whole, behind what was sent before, and a
    send on a connection that is not Connected raises ConnectionError and
    changes nothing.  A SocketConnection is still Connected after a send
    that timed out and Disconnected after one that failed.  It is left as
    it was, Connected, when it has lost its socket (AttributeError), when
    the timeout is negative (ValueError) and when a timeout is given for a
    socket that is closed (OSError): nothing is sent then. *)
Theorem send_outcomes (data : bytes) (timeout : option Q) :
  (forall c : SocketConnection,
     match sc_send data timeout c with
     | (Return r, c') =>
         r = None /\ _state c = CONNECTED /\ _state c' = CONNECTED
         /\ exists s s', _sock c = Some s /\ _sock c' = Some s'
                         /\ sock_sent s' = sock_sent s ++ [data]
     | (Raise e, c') =>
         (_state c <> CONNECTED /\ e = ConnectionError /\ c' = c)
         \/ (_state c = CONNECTED
             /\ ((e = TimeoutError /\ _state c' = CONNECTED)
                 \/ (e = ConnectionError /\ _state c' = DISCONNECTED)
                 \/ (e = AttributeError /\ c' = c /\ _sock c = None)
                 \/ (e = ValueError /\ c' = c
                     /\ exists t, timeout = Some t /\ (t < 0)%Q)
                 \/ (e = OSError /\ c' = c
                     /\ exists t s, timeout = Some t /\ _sock c = Some s
                                    /\ sock_closed s = true)))
     end)
  /\ (forall d : DummyConnection,
        match dc_send data timeout d with
        | (Return r, d') =>
            r = Some (Z.of_nat (List.length data))
            /\ d_state d = CONNECTED /\ d_state d' = CONNECTED
            /\ d_buffer d' = d_buffer d ++ data
        | (Raise e, d') =>
            e = ConnectionError /\ d' = d /\ d_state d <> CONNECTED
        end).
Proof.
  split.
  - intros c. unfold sc_send.
    destruct (decide (_state c <> CONNECTED)) as [Hne|Hc];
      [left; split_and!; reflexivity || assumption|].
    apply dec_stable in Hc.
    destruct (_sock c) as [s|] eqn:Hsock;
      [|right; split; [assumption|]; right; right; left;
        split_and!; reflexivity].
    pose proof (ConnectionFacts.settimeout_raises_cases timeout s) as Hset.
    destruct (settimeout_raises timeout s) as [e|].
    { right. split; [assumption|]. right. right. right.
      destruct Hset as (t & -> & [(-> & Hneg)|(-> & _ & Hclosed)]).
      - left. split_and!; try reflexivity. exists t. split; [reflexivity|assumption].
      - right. split_and!; try reflexivity. exists t, s.
        split_and!; reflexivity || assumption. }
    clear Hset. cbv zeta. unfold sock_sendall, timed.
    destruct timeout as [t|]; simpl;
      (destruct (sock_closed s);
       [right; split; [assumption|]; right; left; split; reflexivity|]);
      destruct (sock_send_faults s) as [|[d| |] rest]; simpl;
      try (right; split; [assumption|]; left; split; [reflexivity|assumption]);
      try (right; split; [assumption|]; right; left; split; reflexivity);
      (split_and!; [reflexivity|assumption|assumption|]);
      eexists _, _; split_and!; reflexivity.
  - intros d. unfold dc_send.
    destruct (decide (d_state d <> CONNECTED)) as [Hne|Hc].
    + split_and!; [reflexivity|reflexivity|assumption].
    + apply dec_stable in Hc. split_and!; reflexivity || assumption.
Qed.

Lemma dc_receive_connected (d : DummyConnection) (n : nat)
    (timeout : option Q) :
  d_state d = CONNECTED ->
  dc_receive n timeout d
  = (Return (take n (d_buffer d)),
     {| d_state := CONNECTED; d_buffer := drop n (d_buffer d) |}).
Proof.
  intros Hc. unfold dc_receive.
  destruct (decide (d_state d <> CONNECTED)) as [Hne|_]; [contradiction|].
  rewrite Hc. reflexivity.
Qed.

Lemma dc_send_connected (d : DummyConnection) (data : bytes)
    (timeout : option Q) :
  d_state d = CONNECTED ->
  dc_send data timeout d
  = (Return (Some (Z.of_nat (List.length data))),
     {| d_state := CONNECTED; d_buffer := d_buffer d ++ data |}).
Proof.
  intros Hc. unfold dc_send.
  destruct (decide (d_state d <> CONNECTED)) as [Hne|_]; [contradiction|].
  rewrite Hc. reflexivity.
Qed.

(** The DummyConnection is a queue of bytes: what is sent comes back in the
    order in which it was sent, whatever the sizes asked for.  Two
    receives in a row return what one receive of the sum of their sizes
    returns, and a receive of the size of everything buffered returns it
    all and leaves the buffer empty. *)
Theorem dummy_is_a_queue (d : DummyConnection) (a b : bytes) (n k : nat)
    (timeout : option Q) :
  d_state d = CONNECTED ->
  let d1 := snd (dc_send a timeout d) in
  let d2 := snd (dc_send b timeout d1) in
  d_buffer d2 = d_buffer d ++ a ++ b
  /\ dc_receive (List.length (d_buffer d2)) timeout d2
     = (Return (d_buffer d ++ a ++ b),
        {| d_state := CONNECTED; d_buffer := [] |})
  /\ (exists x y d3 d4,
        dc_receive n timeout d2 = (Return x, d3)
        /\ dc_receive k timeout d3 = (Return y, d4)
        /\ dc_receive (n + k) timeout d2 = (Return (x ++ y), d4)).
Proof.
  intros Hc. cbv zeta.
  rewrite (dc_send_connected d a timeout Hc). cbn [snd].
  rewrite dc_send_connected by reflexivity. cbn [snd d_buffer].
  rewrite <- app_assoc. split; [reflexivity|].
  set (buf := d_buffer d ++ a ++ b).
  split.
  - rewrite dc_receive_connected by reflexivity. simpl.
    rewrite firstn_all, drop_all. reflexivity.
  - exists (take n buf), (take k (drop n buf)),
      {| d_state := CONNECTED; d_buffer := drop n buf |},
      {| d_state := CONNECTED; d_buffer := drop k (drop n buf) |}.
    rewrite !dc_receive_connected by reflexivity. simpl.
    split_and!; try reflexivity.
    rewrite drop_drop, take_take_drop. reflexivity.
Qed.

Lemma dummy_is_a_queue_witness :
  dc_receive 4 None
    (snd (dc_send ["S"%byte; "T"%byte] None
            (snd (dc_send ["T"%byte; "E"%byte] None Samples.idle_dummy))))
  = (Return ["T"%byte; "E"%byte; "S"%byte; "T"%byte], Samples.idle_dummy).
Proof.
  destruct (dummy_is_a_queue Samples.idle_dummy ["T"%byte; "E"%byte]
              ["S"%byte; "T"%byte] 0 0 None eq_refl) as (_ & Hall & _).
  exact Hall.
Defined.

(** [disconnect] keeps what the DummyConnection has buffered, [close]
    throws it away: after a new [connect] the bytes sent before a
    [disconnect] can still be received, those sent before a [close] are
    lost. *)
Theorem dummy_disconnect_keeps_close_drops (d : DummyConnection)
    (host : option string) (port : Z) (size : nat) (timeout : option Q) :
  dc_receive size timeout
    (snd (dc_connect host port (snd (dc_disconnect d))))
  = (Return (take size (d_buffer d)),
     {| d_state := CONNECTED; d_buffer := drop size (d_buffer d) |})
  /\ dc_receive size timeout (snd (dc_connect host port (snd (dc_close d))))
     = (Return [], {| d_state := CONNECTED; d_buffer := [] |}).
Proof.
  unfold dc_receive. simpl. rewrite take_nil, drop_nil. split; reflexivity.
Qed.

End ConnectionLifecycle.

(** ** The reader loop of VideoStream, turn by turn *)

Module ReaderFacts.
Import Connections Video.

Section Facts.
Context {C : Type} `{IConnection C}.
Implicit Types (r : reader C).

Lemma receive_spec (size : nat) r (o : outcome bytes) r1 :
  receive size r = (o, r1) ->
  vs r1 = vs r /\ log r1 = log r /\ slept r1 = slept r
  /\ reads r1 = reads r ++ [(size, o)]
  /\ conn_receive size (Some 1%Q) (conn r) = (o, conn r1).
Proof.
  unfold receive. destruct (conn_receive size (Some 1%Q) (conn r)) as [o' c'].
  intros Heq. inversion Heq; subst. split_and!; reflexivity.
Qed.

(** The payload loop touches neither the stream object, nor the log, nor
    the clock; when it raises, the exception is the answer of its last
    [receive]. *)
Lemma read_payload_spec (fuel : nat) (remaining : Z) (frame_data : bytes) r
    (o : outcome bytes) r2 :
  read_payload fuel remaining frame_data r = Some (o, r2) ->
  vs r2 = vs r /\ log r2 = log r /\ slept r2 = slept r
  /\ match o with
     | Raise e => exists n, last (reads r2) = Some (n, Raise e)
     | Return _ =>
         (exists n d, last (reads r) = Some (n, Return d)) ->
         exists n d, last (reads r2) = Some (n, Return d)
     end.
Proof.
  revert remaining frame_data r.
  induction fuel as [|fuel IH]; intros remaining frame_data r; simpl.
  - destruct ((0 <? remaining) && _running (vs r)); [discriminate|].
    intros Heq. inversion Heq; subst. split_and!; try reflexivity. tauto.
  - destruct ((0 <? remaining) && _running (vs r)).
    2:{ intros Heq. inversion Heq; subst. split_and!; try reflexivity. tauto. }
    destruct (receive _ r) as [o1 r1] eqn:Hrecv.
    apply receive_spec in Hrecv as (Hvs & Hlog & Hslept & Hreads & _).
    destruct o1 as [[|b chunk]|e].
    + intros Heq. inversion Heq; subst.
      split_and!; try assumption. intros _. rewrite Hreads, last_snoc. eauto.
    + intros Hrest. apply IH in Hrest as (Hvs2 & Hlog2 & Hslept2 & Hlast).
      split_and!; try congruence.
      destruct o as [d|e]; [|exact Hlast].
      intros _. apply Hlast. rewrite Hreads, last_snoc. eauto.
    + intros Heq. inversion Heq; subst.
      split_and!; try assumption. rewrite Hreads, last_snoc. eauto.
Qed.

(** How a turn of the reader loop ends is told by the answer of its last
    [receive].  Only a ConnectionError ends the loop: the stream is then
    marked as not running.  Any other exception is logged and costs a
    pause of 0.1 s, and the turn leaves the stream object as it found it:
    what was read of a frame up to then is thrown away.  A turn in which
    no [receive] raised neither pauses nor stops the stream.  In no case
    does a turn that raised store a frame. *)
Theorem turn_is_told_by_last_read r (t : turn) r' :
  stream_iteration r = Some (t, r') ->
  match last (reads r') with
  | Some (_, Raise ConnectionError) =>
      t = Break /\ vs r' = set_running false (vs r) /\ slept r' = slept r
      /\ log r' = log r ++ [(LOG_ERROR, "Connection error in video stream")]
  | Some (_, Raise _) =>
      t = Continue /\ vs r' = vs r /\ slept r' = slept r ++ [1 # 10]
      /\ log r' = log r ++ [(LOG_ERROR, "Error in video stream")]
  | Some (_, Return _) =>
      t = Continue /\ _running (vs r') = _running (vs r)
      /\ slept r' = slept r
  | None => False
  end.
Proof.
  unfold stream_iteration, stream_body.
  destruct (receive 4 r) as [o r1] eqn:Hrecv.
  apply receive_spec in Hrecv as (Hvs & Hlog & Hslept & Hreads & _).
  destruct o as [header|e].
  2:{ destruct e; intros Heq; inversion Heq; subst; simpl;
        rewrite Hreads, last_snoc, Hvs, Hlog, Hslept;
        split_and!; reflexivity. }
  assert (Hret : exists n d, last (reads r1) = Some (n, Return d)).
  { rewrite Hreads, last_snoc. eauto. }
  destruct (decide (List.length header <> 4%nat)) as [Hne|Hlen].
  { intros Heq. inversion Heq; subst. simpl.
    rewrite Hreads, last_snoc, Hvs, Hslept. split_and!; reflexivity. }
  apply dec_stable in Hlen.
  destruct (unpack_le32 header) as [frame_length|] eqn:Hunpack.
  2:{ exfalso. destruct header as [|b0 [|b1 [|b2 [|b3 [|b4 rest]]]]];
        simpl in *; discriminate. }
  destruct ((frame_length =? 0) || (MAX_FRAME_LENGTH <? frame_length)).
  { intros Heq. inversion Heq; subst. simpl.
    rewrite Hreads, last_snoc, Hvs, Hslept. split_and!; reflexivity. }
  destruct (read_payload (Z.to_nat frame_length) frame_length [] r1)
    as [[o2 r2]|] eqn:Hpay; [|discriminate].
  apply read_payload_spec in Hpay as (Hvs2 & Hlog2 & Hslept2 & Hlast).
  destruct o2 as [frame_data|e].
  - destruct (Hlast Hret) as (n & d & Hl).
    destruct (decide (Z.of_nat (List.length frame_data) <> frame_length)).
    { intros Heq. inversion Heq; subst. simpl.
      rewrite Hl, Hvs2, Hvs, Hslept2, Hslept. split_and!; reflexivity. }
    simpl. destruct (_frame_callback (vs r2)) as [callback|];
      [destruct (callback frame_data)|];
      intros Heq; inversion Heq; subst; simpl;
      rewrite Hl, Hvs2, Hvs, Hslept2, Hslept; split_and!; reflexivity.
  - destruct Hlast as [n Hl].
    destruct e; intros Heq; inversion Heq; subst; simpl;
      rewrite Hl, Hvs2, Hvs, Hlog2, Hlog, Hslept2, Hslept;
      split_and!; reflexivity.
Qed.

(** A header read that returns fewer than four bytes (or more) ends the
    turn with a warning. *)
Lemma stream_iteration_short_header r (header : bytes) (c' : C) :
  conn_receive 4 (Some 1%Q) (conn r) = (Return header, c') ->
  List.length header <> 4%nat ->
  stream_iteration r
  = Some (Continue,
          {| vs := vs r; conn := c';
             log := log r ++ [(WARNING, "Invalid frame header received")];
             slept := slept r;
             reads := reads r ++ [(4%nat, Return header)] |}).
Proof.
  intros Hrecv Hlen. unfold stream_iteration, stream_body, receive.
  rewrite Hrecv.
  destruct (decide (List.length header <> 4%nat)) as [_|Hl];
    [reflexivity|contradiction].
Qed.

(** The reader does not put a header together from two reads.  When the
    first [receive] of a turn returns fewer than four bytes, these bytes
    are dropped with a warning and the turn is over: the stream object is
    as it was, nothing is read as payload, and the next turn takes the four
    bytes that follow as a header. *)
Theorem short_header_is_dropped r (header : bytes) (c' : C) :
  conn_receive 4 (Some 1%Q) (conn r) = (Return header, c') ->
  (List.length header < 4)%nat ->
  let r' := {| vs := vs r; conn := c';
               log := log r ++ [(WARNING, "Invalid frame header received")];
               slept := slept r;
               reads := reads r ++ [(4%nat, Return header)] |} in
  stream_iteration r = Some (Continue, r')
  /\ (forall fuel : nat,
        _running (vs r) = true ->
        stream_while (S fuel) r = stream_while fuel r').
Proof.
  intros Hrecv Hlen r'.
  assert (Hiter : stream_iteration r = Some (Continue, r')).
  { apply stream_iteration_short_header; [assumption|lia]. }
  split; [exact Hiter|].
  intros fuel Hrun. simpl. rewrite Hrun, Hiter. reflexivity.
Qed.

End Facts.

(** The theorem at a read that raises a time-out. *)
Lemma turn_is_told_by_last_read_witness :
  let r0 := Samples.reader_on (Samples.connected_to [SockTimeout]) in
  let r1 := sleep (1 # 10)
              (add_log (LOG_ERROR, "Error in video stream")
                 (snd (receive 4 r0))) in
  stream_iteration r0 = Some (Continue, r1)
  /\ vs r1 = vs r0 /\ slept r1 = [1 # 10].
Proof.
  intros r0 r1.
  assert (Hturn : stream_iteration r0 = Some (Continue, r1)) by reflexivity.
  split; [exact Hturn|].
  pose proof (turn_is_told_by_last_read r0 Continue r1 Hturn) as Hspec.
  change (last (reads r1))
    with (Some (4%nat, @Raise bytes TimeoutError)) in Hspec.
  destruct Hspec as (_ & Hvs & Hslept & _). split; assumption.
Defined.

(** The theorem at a header that arrives in two pieces: the frame of eight
    bytes that follows is not delivered. *)
Lemma short_header_is_dropped_witness :
  exists r',
    stream_iteration (Samples.reader_on
                        (Samples.connected_to Samples.header_in_two))
    = Some (Continue, r')
    /\ _current_frame (vs r') = None
    /\ reads r' = [(4%nat, Return (take 2 (pack_le32 8)))].
Proof.
  destruct (short_header_is_dropped
              (Samples.reader_on (Samples.connected_to Samples.header_in_two))
              (take 2 (pack_le32 8))
              (snd (sc_receive 4 (Some 1%Q)
                      (Samples.connected_to Samples.header_in_two))))
    as [Hturn _].
  - reflexivity.
  - simpl. lia.
  - eexists. split; [exact Hturn|]. split; reflexivity.
Defined.

(** *** Readers on a SocketConnection *)

Import Stream.

Lemma pending_nonempty (inbox : list sock_event) :
  pending inbox <> [] ->
  exists b data rest, inbox = SockData (b :: data) :: rest.
Proof.
  destruct inbox as [|[[|b data]| |] rest]; simpl; try congruence. eauto.
Qed.

(** A [recv] on an open socket with bytes pending returns a first part of
    them, as much as the data at the head of the script allows, and leaves
    the others pending. *)
Lemma sock_recv_pending (n : nat) (s : socket) (b : byte) (data : bytes)
    (rest : list sock_event) (t : option Q) :
  sock_closed s = false ->
  sock_inbox s = SockData (b :: data) :: rest ->
  let k := Nat.min n (S (List.length data)) in
  exists s',
    sock_recv n (timed t s) = (RecvBytes (take k (pending (sock_inbox s))), s')
    /\ sock_closed s' = false
    /\ pending (sock_inbox s') = drop k (pending (sock_inbox s)).
Proof.
  intros Hopen Hinbox k.
  assert (Ht : sock_closed (timed t s) = sock_closed s
               /\ sock_inbox (timed t s) = sock_inbox s).
  { destruct t; split; reflexivity. }
  destruct Ht as [Hc Hi].
  unfold sock_recv. rewrite Hc, Hopen, Hi, Hinbox.
  eexists. split_and!.
  - f_equal. f_equal. cbn [pending].
    rewrite take_app_le by (simpl; lia).
    subst k. destruct (Nat.le_gt_cases n (S (List.length data))) as [Hle|Hgt].
    + rewrite Nat.min_l by lia. reflexivity.
    + rewrite Nat.min_r by lia.
      rewrite !take_ge by (simpl; lia). reflexivity.
  - simpl. rewrite Hc. exact Hopen.
  - cbn [sock_inbox set_inbox].
    transitivity (drop n (b :: data) ++ pending rest);
      [destruct (drop n (b :: data)); reflexivity|].
    cbn [pending]. rewrite drop_app_le by (simpl; lia). f_equal.
    subst k. destruct (Nat.le_gt_cases n (S (List.length data))) as [Hle|Hgt].
    + rewrite Nat.min_l by lia. reflexivity.
    + rewrite Nat.min_r by lia.
      rewrite !drop_ge by (simpl; lia). reflexivity.
Qed.

Implicit Types (r : reader SocketConnection).

(** [receive] on a connected SocketConnection whose socket is open and has
    bytes pending. *)
Lemma receive_pending (n : nat) r (s : socket) (b : byte) (data : bytes)
    (rest : list sock_event) :
  _state (conn r) = CONNECTED -> _sock (conn r) = Some s ->
  sock_closed s = false ->
  sock_inbox s = SockData (b :: data) :: rest ->
  (1 <= n)%nat ->
  let k := Nat.min n (S (List.length data)) in
  exists r1 s1,
    receive n r = (Return (take k (pending (sock_inbox s))), r1)
    /\ vs r1 = vs r /\ log r1 = log r /\ slept r1 = slept r
    /\ _state (conn r1) = CONNECTED /\ _sock (conn r1) = Some s1
    /\ sock_closed s1 = false
    /\ pending (sock_inbox s1) = drop k (pending (sock_inbox s)).
Proof.
  intros Hc Hsock Hopen Hinbox Hn k.
  destruct (sock_recv_pending n s b data rest (Some 1%Q) Hopen Hinbox)
    as (s1 & Hrecv & Hopen1 & Hpend).
  fold k in Hrecv, Hpend.
  assert (Htake : exists b' chunk,
             take k (pending (sock_inbox s)) = b' :: chunk).
  { rewrite Hinbox. cbn [pending]. subst k.
    destruct n as [|n]; [lia|]. simpl. eauto. }
  destruct Htake as (b' & chunk & Htake).
  unfold receive. cbn [conn_receive SocketConnection_IConnection].
  unfold sc_receive.
  destruct (decide (_state (conn r) <> CONNECTED)) as [Hne|_];
    [contradiction|].
  rewrite Hsock. unfold settimeout_raises.
  change (timeout_ok 1) with true. cbn [negb]. rewrite Hopen.
  cbv zeta. rewrite Hrecv, Htake.
  eexists _, s1. split_and!; try reflexivity; assumption.
Qed.

(** The payload loop on such a connection: as long as enough bytes are
    pending it reads exactly [remaining] of them, in however many pieces
    they come. *)
Lemma read_payload_pending (fuel : nat) (remaining : Z) (frame_data : bytes)
    r (s : socket) :
  _running (vs r) = true ->
  _state (conn r) = CONNECTED -> _sock (conn r) = Some s ->
  sock_closed s = false ->
  0 <= remaining ->
  (Z.to_nat remaining <= List.length (pending (sock_inbox s)))%nat ->
  (Z.to_nat remaining <= fuel)%nat ->
  exists r2 s2,
    read_payload fuel remaining frame_data r
    = Some (Return (frame_data
                    ++ take (Z.to_nat remaining) (pending (sock_inbox s))),
            r2)
    /\ vs r2 = vs r /\ log r2 = log r /\ slept r2 = slept r
    /\ _state (conn r2) = CONNECTED /\ _sock (conn r2) = Some s2
    /\ sock_closed s2 = false
    /\ pending (sock_inbox s2)
       = drop (Z.to_nat remaining) (pending (sock_inbox s)).
Proof.
  revert remaining frame_data r s.
  induction fuel as [|fuel IH];
    intros remaining frame_data r s Hrun Hc Hsock Hopen Hpos Hlen Hfuel.
  - assert (remaining = 0) by lia. subst remaining. simpl.
    exists r, s. rewrite app_nil_r. split_and!; try reflexivity; assumption.
  - cbn [read_payload].
    destruct (0 <? remaining) eqn:Hgt; rewrite Hrun; cbn [andb].
    2:{ apply Z.ltb_ge in Hgt. assert (remaining = 0) by lia. subst remaining.
        exists r, s. simpl. rewrite app_nil_r.
        split_and!; try reflexivity; assumption. }
    apply Z.ltb_lt in Hgt.
    destruct (pending_nonempty (sock_inbox s)) as (b & data & rest & Hinbox).
    { intros Hnil. rewrite Hnil in Hlen. simpl in Hlen. lia. }
    set (n := Z.to_nat (Z.min 4096 remaining)).
    assert (Hn : (1 <= n)%nat) by (subst n; lia).
    destruct (receive_pending n r s b data rest Hc Hsock Hopen Hinbox Hn)
      as (r1 & s1 & Hrecv & Hvs & Hlog & Hslept & Hc1 & Hsock1 & Hopen1
          & Hpend1).
    set (k := Nat.min n (S (List.length data))) in *.
    assert (Hk : (1 <= k <= Z.to_nat remaining)%nat) by (subst k n; lia).
    assert (Hklen : List.length (take k (pending (sock_inbox s))) = k).
    { rewrite length_take. lia. }
    rewrite Hrecv.
    destruct (take k (pending (sock_inbox s))) as [|b' chunk] eqn:Htake.
    { simpl in Hklen. lia. }
    rewrite Hklen.
    destruct (IH (remaining - Z.of_nat k) (frame_data ++ b' :: chunk) r1 s1)
      as (r2 & s2 & Hrest & Hvs2 & Hlog2 & Hslept2 & Hc2 & Hsock2 & Hopen2
          & Hpend2); try assumption; try lia.
    { congruence. }
    { rewrite Hpend1, length_drop. lia. }
    exists r2, s2. rewrite Hrest.
    replace (Z.to_nat (remaining - Z.of_nat k))
      with (Z.to_nat remaining - k)%nat in * by lia.
    split_and!; try congruence.
    + f_equal. f_equal. rewrite <- app_assoc. f_equal.
      rewrite Hpend1, <- Htake, take_take_drop.
      replace (k + (Z.to_nat remaining - k))%nat with (Z.to_nat remaining)
        by lia.
      reflexivity.
    + rewrite Hpend2, Hpend1, drop_drop.
      replace (k + (Z.to_nat remaining - k))%nat with (Z.to_nat remaining)
        by lia.
      reflexivity.
Qed.

(** A frame whose header arrives in one piece is put together from however
    many pieces its payload comes in.  After the turn [get_frame] returns
    the payload, and the bytes sent after it are still pending, none of
    them read. *)
Theorem fragmented_payload_is_reassembled r (s : socket) (c0 : bytes)
    (rest : list sock_event) (payload extra : bytes)
    (timeout : option Q) :
  _running (vs r) = true ->
  _state (conn r) = CONNECTED -> _sock (conn r) = Some s ->
  sock_closed s = false ->
  sock_inbox s = SockData c0 :: rest ->
  (4 <= List.length c0)%nat ->
  pending (sock_inbox s)
  = pack_le32 (Z.of_nat (List.length payload)) ++ payload ++ extra ->
  1 <= Z.of_nat (List.length payload) <= MAX_FRAME_LENGTH ->
  exists r' s',
    stream_iteration r = Some (Continue, r')
    /\ vs r' = set_frame payload (vs r)
    /\ get_frame timeout (vs r') = Some payload
    /\ slept r' = slept r
    /\ _state (conn r') = CONNECTED /\ _sock (conn r') = Some s'
    /\ sock_closed s' = false
    /\ pending (sock_inbox s') = extra.
Proof.
  intros Hrun Hc Hsock Hopen Hinbox Hc0 Hpend HL.
  set (L := Z.of_nat (List.length payload)) in *.
  destruct c0 as [|b data]; [simpl in Hc0; lia|].
  destruct (receive_pending 4 r s b data rest Hc Hsock Hopen Hinbox)
    as (r1 & s1 & Hrecv & Hvs & Hlog & Hslept & Hc1 & Hsock1 & Hopen1
        & Hpend1); [lia|].
  rewrite Nat.min_l in Hrecv, Hpend1 by (simpl in Hc0; lia).
  rewrite Hpend in Hrecv, Hpend1.
  rewrite take_app_length' in Hrecv by reflexivity.
  rewrite drop_app_length' in Hpend1 by reflexivity.
  assert (Hmax : MAX_FRAME_LENGTH < 2 ^ 32) by reflexivity.
  assert (Hunpack : unpack_le32 (pack_le32 L) = Some L).
  { apply WireFacts.unpack_pack_le32. lia. }
  destruct (read_payload_pending (Z.to_nat L) L [] r1 s1)
    as (r2 & s2 & Hpay & Hvs2 & Hlog2 & Hslept2 & Hc2 & Hsock2 & Hopen2
        & Hpend2); try assumption; try lia.
  { congruence. }
  { rewrite Hpend1, length_app. subst L. lia. }
  rewrite Hpend1 in Hpay, Hpend2. subst L. rewrite Nat2Z.id in Hpay, Hpend2.
  rewrite take_app_length in Hpay. rewrite drop_app_length in Hpend2.
  simpl app in Hpay.
  assert (Hbody : exists r3,
             stream_body r = Some (Return tt, r3)
             /\ vs r3 = set_frame payload (vs r) /\ slept r3 = slept r
             /\ conn r3 = conn r2).
  { unfold stream_body. rewrite Hrecv.
    destruct (decide (List.length (pack_le32 (Z.of_nat (List.length payload)))
                      <> 4%nat)) as [Hne|_]; [exfalso; apply Hne; reflexivity|].
    rewrite Hunpack.
    replace ((Z.of_nat (List.length payload) =? 0)
             || (MAX_FRAME_LENGTH <? Z.of_nat (List.length payload)))
      with false
      by (symmetry; apply orb_false_iff; split;
          [apply Z.eqb_neq|apply Z.ltb_ge]; lia).
    rewrite Nat2Z.id, Hpay.
    destruct (decide (Z.of_nat (List.length payload)
                      <> Z.of_nat (List.length payload))) as [Hne|_];
      [exfalso; apply Hne; reflexivity|].
    cbv zeta.
    destruct (_frame_callback (vs (set_vs (set_frame payload (vs r2)) r2)))
      as [callback|]; [destruct (callback payload)|];
      eexists; (split; [reflexivity|]); simpl;
      rewrite Hvs2, Hvs, Hslept2, Hslept; split_and!; reflexivity. }
  destruct Hbody as (r3 & Hbody & Hvs3 & Hslept3 & Hconn3).
  exists r3, s2. unfold stream_iteration. rewrite Hbody, Hvs3, Hconn3.
  split_and!; try reflexivity; try assumption.
  unfold get_frame. simpl. rewrite Hrun. reflexivity.
Qed.

(** *** The reader loop spins on an idle DummyConnection *)

Lemma idle_dummy_turn (rd : reader DummyConnection) :
  d_state (conn rd) = CONNECTED -> d_buffer (conn rd) = [] ->
  stream_iteration rd
  = Some (Continue,
          {| vs := vs rd; conn := conn rd;
             log := log rd ++ [(WARNING, "Invalid frame header received")];
             slept := slept rd;
             reads := reads rd ++ [(4%nat, Return [])] |}).
Proof.
  intros Hc Hbuf. apply stream_iteration_short_header; [|simpl; lia].
  cbn [conn_receive DummyConnection_IConnection].
  rewrite ConnectionLifecycle.dc_receive_connected by assumption.
  rewrite Hbuf. destruct (conn rd) as [st buf]. simpl in *. subst.
  reflexivity.
Qed.

(** On a connected DummyConnection into which nothing is sent the reader
    loop never ends and never pauses.  [receive] returns the empty byte
    string at once; the turn logs a warning and goes on to the next, which
    does the same: after [n] turns the loop has made [n] reads and logged
    [n] warnings, has slept not at all, and the stream is as it was.  No
    number of turns ends the loop: it runs until [stop] is called. *)
Theorem idle_dummy_reader_spins (rd : reader DummyConnection) (n : nat) :
  _running (vs rd) = true ->
  d_state (conn rd) = CONNECTED -> d_buffer (conn rd) = [] ->
  stream_while n rd = None
  /\ _stream_loop n rd = None
  /\ turns n rd
     = Some {| vs := vs rd; conn := conn rd;
               log := log rd
                      ++ repeat (WARNING, "Invalid frame header received") n;
               slept := slept rd;
               reads := reads rd ++ repeat (4%nat, Return []) n |}.
Proof.
  intros Hrun Hc Hbuf.
  assert (Hwhile : stream_while n rd = None).
  { revert rd Hrun Hc Hbuf.
    induction n as [|n IH]; intros rd Hrun Hc Hbuf; simpl; rewrite Hrun;
      [reflexivity|].
    rewrite idle_dummy_turn by assumption. apply IH; assumption. }
  split; [exact Hwhile|].
  split; [unfold _stream_loop; rewrite Hwhile; reflexivity|].
  clear Hwhile. revert rd Hrun Hc Hbuf.
  induction n as [|n IH]; intros rd Hrun Hc Hbuf.
  - simpl. rewrite !app_nil_r. destruct rd; reflexivity.
  - cbn [turns]. rewrite Hrun, idle_dummy_turn by assumption.
    rewrite IH by assumption. cbn [vs conn log slept reads repeat].
    rewrite <- !app_assoc. reflexivity.
Qed.

(** The theorem at a frame of eight bytes that comes in three pieces. *)
Lemma fragmented_payload_is_reassembled_witness :
  exists r' s',
    stream_iteration (Samples.reader_on
                        (Samples.connected_to Samples.frame_in_three))
    = Some (Continue, r')
    /\ get_frame (Some 1%Q) (vs r') = Some Samples.test_frame
    /\ _sock (conn r') = Some s'
    /\ pending (sock_inbox s') = pack_le32 1.
Proof.
  destruct (fragmented_payload_is_reassembled
              (Samples.reader_on (Samples.connected_to Samples.frame_in_three))
              (Samples.socket_with Samples.frame_in_three)
              (pack_le32 8 ++ take 3 Samples.test_frame)
              [SockData (take 2 (drop 3 Samples.test_frame));
               SockData (drop 5 Samples.test_frame ++ pack_le32 1)]
              Samples.test_frame (pack_le32 1) (Some 1%Q))
    as (r' & s' & Hturn & _ & Hframe & _ & _ & Hsock & _ & Hpend).
  - reflexivity.
  - reflexivity.
  - reflexivity.
  - reflexivity.
  - reflexivity.
  - simpl. lia.
  - reflexivity.
  - unfold MAX_FRAME_LENGTH. simpl. lia.
  - exists r', s'. split_and!; assumption.
Defined.

(** The theorem at three turns. *)
Lemma idle_dummy_reader_spins_witness :
  stream_while 3 Samples.idle_reader = None
  /\ option_map slept (turns 3 Samples.idle_reader) = Some [].
Proof.
  destruct (idle_dummy_reader_spins Samples.idle_reader 3)
    as (Hwhile & _ & Hturns); try reflexivity.
  split; [exact Hwhile|]. rewrite Hturns. reflexivity.
Defined.

(** *** Starting a stream *)

Section Start.
Context {C : Type} `{IConnection C}.


End Start.

End ReaderFacts.

(** ** NetworkManager: edges of [connect] and [disconnect] *)

Module ManagerEdgeFacts.
Import Connections Manager.

Section Facts.
Context {C : Type} `{IConnection C} {P R : Type} `{ICommandProcessor P C R}.
Implicit Types (m : NetworkManager P) (w : World C).

Lemma connect_while_no_turn (fuel : nat) (a : Z) m w :
  negb (_stop_event m) && (a <? _reconnect_attempts m) = false ->
  connect_while fuel a m w = Some (Return tt, m, w).
Proof. intros Hcond. destruct fuel; simpl; rewrite Hcond; reflexivity. Qed.

(** A manager made with [reconnect_attempts] of zero or less never
    connects and never gives up: [connect] sets the state to Connecting
    and starts the thread, the loop of the thread makes no turn, and the
    state stays at Connecting: no connection is made, the thread is over,
    and running it again changes nothing. *)
Theorem no_attempts_stays_connecting (host : string)
    (control_port video_port : Z) (fuel : nat) m w :
  state m <> CONNECTED ->
  _reconnect_attempts m <= 0 ->
  exists m1 w1 m2,
    connect host control_port video_port m w = (Return tt, m1, w1)
    /\ run_reconnect_thread fuel m1 w1 = Some (Return tt, m2, w1)
    /\ state m2 = CONNECTING
    /\ is_connected m2 = false
    /\ thread_alive m2 = false
    /\ builds (trace w1) = builds (trace w)
    /\ (forall fuel' : nat,
          run_reconnect_thread fuel' m2 w1 = Some (Return tt, m2, w1)).
Proof.
  intros Hnc Hzero.
  destruct (ManagerFacts.connect_spec host control_port video_port m w Hnc)
    as (m1 & w1 & Hconnect & Hst & Hth & Hstop & _ & _ & _ & Hatt & _
        & (_ & Hbuilds & _) & _).
  exists m1, w1, (with_thread (Some {| alive := false |}) (_stop_event m1) m1).
  split; [exact Hconnect|].
  assert (Hrun : forall k,
             connect_while k 0 m1 w1 = Some (Return tt, m1, w1)).
  { intros k. apply connect_while_no_turn. rewrite Hstop, Hatt. simpl.
    apply Z.ltb_ge. exact Hzero. }
  split_and!.
  - unfold run_reconnect_thread, _connect_loop. rewrite Hth, Hrun.
    reflexivity.
  - exact Hst.
  - unfold is_connected. apply bool_decide_eq_false_2.
    unfold state in *. simpl. congruence.
  - reflexivity.
  - exact Hbuilds.
  - intros fuel'. reflexivity.
Qed.

(** A turn of the loop in which the call of the connection class raises
    something other than ConnectionError is the last one: the handler of
    [Exception] sets the state to Disconnected and leaves the loop. *)
Lemma first_turn_raises (fuel : nat) m w (e : exn) (nt : Net) :
  _stop_event m = false ->
  0 < _reconnect_attempts m ->
  conn_new (net w) = (Raise e, nt) ->
  e <> ConnectionError ->
  exists m' w',
    _connect_loop (S fuel) m w = Some (Return tt, m', w')
    /\ state m' = DISCONNECTED
    /\ _video_stream m' = None
    /\ builds (trace w') = builds (trace w)
    /\ sleeps (trace w') = sleeps (trace w)
    /\ net w' = nt.
Proof.
  intros Hstop Hatt Hnew Hne.
  unfold _connect_loop. rewrite ManagerFacts.connect_while_S, Hstop.
  replace (0 <? _reconnect_attempts m) with true
    by (symmetry; apply Z.ltb_lt; exact Hatt).
  cbn [negb andb]. change (0 <? 0) with false. cbv zeta. cbv iota.
  unfold attempt, build. rewrite Hnew.
  set (w1 := {| conns := conns w; net := nt; trace := trace w;
                log := log w |}).
  assert (Hgoal :
    exists m' w',
      (let w2 := add_log (CRITICAL, "Unexpected error during connection") w1 in
       let '(m1, w3) := set_state DISCONNECTED m w2 in
       let '(m2, w4) := _cleanup_connections m1 w3 in
       Some (Return tt, m2, w4)) = Some (Return tt, m', w')
      /\ state m' = DISCONNECTED
      /\ _video_stream m' = None
      /\ builds (trace w') = builds (trace w)
      /\ sleeps (trace w') = sleeps (trace w)
      /\ net w' = nt).
  { cbv zeta. unfold _cleanup_connections.
    pose proof (ManagerFacts.set_state_spec DISCONNECTED m
                  (add_log (CRITICAL, "Unexpected error during connection")
                     w1)) as [Hm1 (Hn3 & Hb3 & Hs3)].
    destruct (set_state DISCONNECTED m _) as [m1 w3].
    simpl in Hm1, Hn3, Hb3, Hs3. subst m1.
    pose proof (ManagerFacts.teardown_spec false (with_state DISCONNECTED m)
                  w3) as (Hst & _ & _ & _ & Hvs & _ & (Hn4 & Hb4 & Hs4)).
    destruct (teardown false (with_state DISCONNECTED m) w3) as [m2 w4].
    simpl in Hst, Hvs, Hn4, Hb4, Hs4.
    exists m2, w4. split; [reflexivity|].
    split_and!; try assumption; congruence. }
  destruct e; try exact Hgoal. contradiction.
Qed.

End Facts.

(** The theorem at a manager made with no attempt at all. *)
Lemma no_attempts_stays_connecting_witness :
  exists m1 w1 m2,
    connect Samples.robot 5002 8002
      (init (P := Commands.CommandChannel) 0 1)
      (Samples.fresh_world Samples.flaky_network) = (Return tt, m1, w1)
    /\ run_reconnect_thread 3 m1 w1 = Some (Return tt, m2, w1)
    /\ state m2 = CONNECTING
    /\ builds (trace w1) = [].
Proof.
  destruct (no_attempts_stays_connecting (R := unit) Samples.robot 5002 8002 3
              (init (P := Commands.CommandChannel) 0 1)
              (Samples.fresh_world Samples.flaky_network))
    as (m1 & w1 & m2 & Hc & Hrun & Hst & _ & _ & Hb & _).
  - discriminate.
  - simpl. lia.
  - exists m1, w1, m2. split_and!; assumption.
Defined.

(** *** Managers of SocketConnections *)

Section Sockets.
Context {P R : Type} `{ICommandProcessor P SocketConnection R}.
Implicit Types (m : NetworkManager P) (w : World SocketConnection).

Lemma sc_close_state (c : SocketConnection) :
  fst (sc_close c) = Return tt
  /\ Connections._state (snd (sc_close c)) = DISCONNECTED.
Proof.
  unfold sc_close.
  destruct (decide (Connections._state c = DISCONNECTED)); split;
    try reflexivity; assumption.
Qed.

Lemma sc_disconnect_state (c : SocketConnection) :
  fst (sc_disconnect c) = Return tt
  /\ Connections._state (snd (sc_disconnect c)) = DISCONNECTED.
Proof.
  unfold sc_disconnect.
  destruct (decide (Connections._state c = DISCONNECTED)) as [Hd|Hnd];
    [split; [reflexivity|assumption]|apply sc_close_state].
Qed.

(** [disconnect(); close()] on a reference leaves the object behind it
    Disconnected and touches no other object. *)
Lemma shut_socket (report : bool) (i : nat) w :
  let w' := shut report (Some i) w in
  (forall c, conns w' !! i = Some c -> Connections._state c = DISCONNECTED)
  /\ (forall j, j <> i -> conns w' !! j = conns w !! j).
Proof.
  unfold shut, call. cbn [conns add_event].
  destruct (conns w !! i) as [c|] eqn:Hi.
  2:{ destruct report; simpl; (split; [intros c Hc; congruence|reflexivity]). }
  destruct (sc_disconnect_state c) as [Ho1 Hs1].
  cbn [conn_disconnect SocketConnection_IConnection].
  destruct (sc_disconnect c) as [o1 c1]. simpl in Ho1, Hs1. subst o1.
  cbn [conns set_conns add_event].
  assert (Hlt : (i < List.length (conns w))%nat)
    by (eapply lookup_lt_Some; eassumption).
  rewrite list_lookup_insert_eq by exact Hlt.
  destruct (sc_close_state c1) as [Ho2 Hs2].
  cbn [conn_close SocketConnection_IConnection].
  destruct (sc_close c1) as [o2 c2]. simpl in Ho2, Hs2. subst o2.
  cbn [is_raise andb conns set_conns add_event].
  split.
  - intros c' Hc'. rewrite list_lookup_insert_eq in Hc'
      by (rewrite length_insert; exact Hlt).
    congruence.
  - intros j Hj. rewrite !list_lookup_insert_ne by congruence. reflexivity.
Qed.

Lemma shut_keeps_disconnected (report : bool) (conn : option nat) (i : nat)
    w :
  (forall c, conns w !! i = Some c -> Connections._state c = DISCONNECTED) ->
  forall c, conns (shut report conn w) !! i = Some c ->
            Connections._state c = DISCONNECTED.
Proof.
  intros Hbefore c. destruct conn as [j|]; [|apply Hbefore].
  destruct (shut_socket report j w) as [Hat Hother].
  destruct (decide (i = j)) as [->|Hne]; [apply Hat|].
  rewrite Hother by exact Hne. apply Hbefore.
Qed.

(** [disconnect] on a manager that is not Disconnected leaves the two
    SocketConnections it held Disconnected, whatever they were before and
    whatever stopping the command processor did to them; the manager no
    longer refers to them. *)
Theorem disconnect_shuts_both_connections m w (i : nat)
    (c : SocketConnection) :
  state m <> DISCONNECTED ->
  _control_conn m = Some i \/ _video_conn m = Some i ->
  let '(_, m', w') := disconnect m w in
  conns w' !! i = Some c ->
  Connections._state c = DISCONNECTED
  /\ _control_conn m' = None /\ _video_conn m' = None
  /\ state m' = DISCONNECTED.
Proof.
  intros Hnd Hheld. unfold disconnect.
  rewrite ManagerFacts._stop_reconnect_thread_spec.
  set (m0 := with_thread None (_stop_event m || thread_alive m) m).
  assert (Hm0 : state m0 = state m /\ _control_conn m0 = _control_conn m
                /\ _video_conn m0 = _video_conn m)
    by (split_and!; reflexivity).
  destruct Hm0 as (Hst0 & Hc0 & Hv0).
  destruct (ManagerFacts._disconnect_spec m0 w)
    as (_ & Hst & _ & _ & Hfields).
  destruct Hfields as (Hc' & Hv' & _); [congruence|].
  revert Hst Hc' Hv'. unfold _disconnect.
  destruct (decide (state m0 = DISCONNECTED)) as [Hd|_]; [congruence|].
  unfold set_state, teardown. cbn [fst snd].
  set (m1 := with_video_stream None (with_state DISCONNECTING m0)).
  set (w1 := if decide (_state m0 <> DISCONNECTING)
             then add_log (INFO, "Connection state changed") w else w).
  destruct (match _command_processor m1 with
            | Some p =>
                let '(o, _, cs) := cp_stop p (conns w1) in
                (with_command_processor None m1,
                 if is_raise o && true
                 then add_log (LOG_ERROR, "Error stopping command processor")
                        (set_conns cs w1)
                 else set_conns cs w1)
            | None => (m1, w1)
            end) as [m2 w2] eqn:Hstop.
  assert (Hm2 : _control_conn m2 = _control_conn m
                /\ _video_conn m2 = _video_conn m).
  { destruct (_command_processor m1) as [p|].
    - destruct (cp_stop p (conns w1)) as [[o p'] cs].
      inversion Hstop; subst. split; reflexivity.
    - inversion Hstop; subst. split; reflexivity. }
  destruct Hm2 as [Hc2 Hv2]. rewrite Hc2, Hv2.
  cbn [fst snd]. intros Hst Hc' Hv' Hlookup.
  split_and!; try assumption.
  assert (Hconns : forall ww : World SocketConnection,
             conns (add_log (INFO, "Disconnected from robot")
                      (if decide (_state (with_conns None None m2)
                                  <> DISCONNECTED)
                       then add_log (INFO, "Connection state changed") ww
                       else ww)) = conns ww).
  { intros ww.
    destruct (decide (_state (with_conns None None m2) <> DISCONNECTED));
      reflexivity. }
  rewrite Hconns in Hlookup. revert Hlookup.
  destruct Hheld as [Hi|Hi].
  - apply shut_keeps_disconnected. rewrite Hi.
    apply (shut_socket true i w2).
  - rewrite Hi. apply (shut_socket true i).
Qed.

End Sockets.

(** The theorem at the connected manager of the samples. *)
Lemma disconnect_shuts_both_connections_witness :
  exists c,
    conns (snd (disconnect (fst Samples.connected_sample)
                  (snd Samples.connected_sample))) !! 3%nat = Some c
    /\ Connections._state c = DISCONNECTED.
Proof.
  eexists. split; [vm_compute; reflexivity|].
  match goal with
  | |- Connections._state ?c = _ =>
      pose proof (disconnect_shuts_both_connections (R := unit)
                    (fst Samples.connected_sample)
                    (snd Samples.connected_sample) 3 c) as Hthm
  end.
  destruct (disconnect (fst Samples.connected_sample)
              (snd Samples.connected_sample)) as [[o m'] w'] eqn:Hd.
  vm_compute in Hd. inversion Hd; subst. clear Hd.
  destruct Hthm as (Hc & _).
  - discriminate.
  - right. reflexivity.
  - reflexivity.
  - exact Hc.
Defined.

(** *** Managers on the connection classes of the repository *)

(** With SocketConnection or DummyConnection as connection class the
    connect loop ends at its first turn: the call of the class raises
    NameError, so that nothing is built or connected and nothing is waited
    for, and the manager ends Disconnected and without a video stream,
    whatever the network. *)
Theorem repository_classes_fail_at_first_turn :
  (forall (P R : Type) (IP : ICommandProcessor P SocketConnection R)
          (fuel : nat) (timeout : option Q) (m : NetworkManager P)
          (w : World SocketConnection),
     _stop_event m = false ->
     0 < _reconnect_attempts m ->
     exists m' w',
       _connect_loop (S fuel) m w = Some (Return tt, m', w')
       /\ state m' = DISCONNECTED
       /\ get_video_frame timeout m' = None
       /\ builds (trace w') = builds (trace w)
       /\ sleeps (trace w') = sleeps (trace w)
       /\ net w' = snd (new_socket (net w)))
  /\ (forall (P R : Type) (IP : ICommandProcessor P DummyConnection R)
             (fuel : nat) (timeout : option Q) (m : NetworkManager P)
             (w : World DummyConnection),
        _stop_event m = false ->
        0 < _reconnect_attempts m ->
        exists m' w',
          _connect_loop (S fuel) m w = Some (Return tt, m', w')
          /\ state m' = DISCONNECTED
          /\ get_video_frame timeout m' = None
          /\ builds (trace w') = builds (trace w)
          /\ sleeps (trace w') = sleeps (trace w)
          /\ net w' = net w).
Proof.
  split.
  - intros P R IP fuel timeout m w Hstop Hatt.
    destruct (first_turn_raises fuel m w NameError (snd (new_socket (net w)))
                Hstop Hatt)
      as (m' & w' & Hloop & Hst & Hvs & Hb & Hs & Hn).
    { cbn [conn_new SocketConnection_IConnection]. unfold sc_new.
      destruct (new_socket (net w)); reflexivity. }
    { discriminate. }
    exists m', w'. split_and!; try assumption.
    unfold get_video_frame. rewrite Hvs.
    destruct (is_connected m'); reflexivity.
  - intros P R IP fuel timeout m w Hstop Hatt.
    destruct (first_turn_raises fuel m w NameError (net w) Hstop Hatt)
      as (m' & w' & Hloop & Hst & Hvs & Hb & Hs & Hn).
    { reflexivity. }
    { discriminate. }
    exists m', w'. split_and!; try assumption.
    unfold get_video_frame. rewrite Hvs.
    destruct (is_connected m'); reflexivity.
Qed.

(** The theorem at a new manager with three attempts, on a network where
    every peer would answer. *)
Lemma repository_classes_fail_at_first_turn_witness :
  (exists m' w',
     _connect_loop 1 (init (P := Commands.CommandChannel) 3 1)
       (Samples.fresh_world [Samples.socket_with []; Samples.socket_with []])
     = Some (Return tt, m', w')
     /\ state m' = DISCONNECTED /\ builds (trace w') = [])
  /\ (exists m' w',
        _connect_loop 1 (init (P := Commands.CommandChannel) 3 1)
          Samples.test_world = Some (Return tt, m', w')
        /\ state m' = DISCONNECTED /\ sleeps (trace w') = []).
Proof.
  destruct repository_classes_fail_at_first_turn as [Hsock Hdummy].
  split.
  - destruct (Hsock Commands.CommandChannel unit _ 0%nat None
                (init (P := Commands.CommandChannel) 3 1)
                (Samples.fresh_world
                   [Samples.socket_with []; Samples.socket_with []]))
      as (m' & w' & Hloop & Hst & _ & Hb & _); [reflexivity..|].
    exists m', w'. split_and!; assumption.
  - destruct (Hdummy Commands.CommandChannel unit _ 0%nat None
                (init (P := Commands.CommandChannel) 3 1) Samples.test_world)
      as (m' & w' & Hloop & Hst & _ & _ & Hs & _); [reflexivity..|].
    exists m', w'. split_and!; assumption.
Defined.

End ManagerEdgeFacts.

(** ** The NetworkManager of Main.py: how [connect] ends *)

Module MainConnectFacts.
Import Connections.

Lemma _set_state_kept (v : MainPy.ConnectionState) (s : MainPy.system) :
  MainPy.slept (MainPy._set_state v s) = MainPy.slept s
  /\ MainPy.net (MainPy._set_state v s) = MainPy.net s
  /\ MainPy._stop_event (MainPy.mgr (MainPy._set_state v s))
     = MainPy._stop_event (MainPy.mgr s).
Proof.
  unfold MainPy._set_state. destruct (decide _); split_and!; reflexivity.
Qed.

(** The handler of the last [try] block of [connect] leaves the manager
    Disconnected: [disconnect] has set the state before it calls the
    method that the class does not have. *)
Lemma initialize_failed_outcomes (s : MainPy.system) :
  exists e s',
    MainPy.initialize_failed s = (Raise e, s')
    /\ MainPy.slept s' = MainPy.slept s
    /\ MainPy.net s' = MainPy.net s
    /\ MainPy.state (MainPy.mgr s') = MainPy.DISCONNECTED
    /\ (e = ConnectionError /\ s' = s
        \/ e = AttributeError
           /\ MainPy.state (MainPy.mgr s) <> MainPy.DISCONNECTED
           /\ MainPy._stop_event (MainPy.mgr s') = true).
Proof.
  unfold MainPy.initialize_failed, MainPy.disconnect.
  destruct (decide (MainPy.state (MainPy.mgr s) = MainPy.DISCONNECTED))
    as [Hd|Hnd].
  - eexists _, _. split_and!; try reflexivity; [exact Hd|].
    left. split; reflexivity.
  - destruct (_set_state_kept MainPy.DISCONNECTED s) as (Hsl & Hnet & _).
    pose proof (MainPyFacts._set_state_state MainPy.DISCONNECTED s) as Hst.
    eexists _, _. split_and!; try reflexivity; try assumption.
    right. split_and!; [reflexivity|assumption|reflexivity].
Qed.

Lemma sock_connect_settimeout (t : option Q) (sock : socket) (port : Z) :
  MainPy.sock_connect (settimeout t sock) port = MainPy.sock_connect sock port.
Proof. reflexivity. Qed.

(** The body of [connect] always raises.  It leaves the state as it was
    when a socket could not be connected, and Disconnected otherwise. *)
Lemma connect_try_outcomes (i : string) (p vp : Z) (s : MainPy.system) :
  exists e s',
    MainPy.connect_try i p vp s = (Raise e, s')
    /\ MainPy.slept s' = MainPy.slept s
    /\ (MainPy.state (MainPy.mgr s') = MainPy.state (MainPy.mgr s)
        \/ MainPy.state (MainPy.mgr s') = MainPy.DISCONNECTED
           /\ (MainPy.state (MainPy.mgr s) = MainPy.CONNECTING ->
               MainPy._stop_event (MainPy.mgr s') = true)).
Proof.
  unfold MainPy.connect_try, MainPy._create_socket,
    MainPy.drop_instruction_socket.
  cbn [MainPy.net MainPy.with_mgr].
  destruct (new_socket (MainPy.net s)) as [s1 n1].
  destruct (sock_closed s1).
  { eexists _, _. split_and!; try reflexivity. left. reflexivity. }
  cbn [MainPy.net MainPy.with_mgr MainPy.mgr MainPy.slept MainPy.log].
  destruct (MainPy.sock_connect _ p) as [[]|e1].
  2:{ destruct e1; eexists _, _; (split; [reflexivity|]);
        (split; [reflexivity|left; reflexivity]). }
  cbn [MainPy.net MainPy.with_mgr MainPy.mgr MainPy.slept MainPy.log
       MainPy.add_log].
  destruct (new_socket n1) as [s2 n2].
  destruct (sock_closed s2).
  { eexists _, _. split_and!; try reflexivity. left. reflexivity. }
  cbn [MainPy.net MainPy.with_mgr MainPy.mgr MainPy.slept MainPy.log].
  destruct (MainPy.sock_connect _ vp) as [[]|e2].
  2:{ destruct e2; eexists _, _; (split; [reflexivity|]);
        (split; [reflexivity|left; reflexivity]). }
  unfold MainPy.turn_on_client.
  cbn [MainPy.net MainPy.with_mgr MainPy.mgr MainPy.slept MainPy.log
       MainPy.add_log].
  destruct (new_socket n2) as [s3 n3]. destruct (new_socket n3) as [s4 n4].
  cbv zeta.
  destruct (sock_closed s3 || sock_closed s4).
  { match goal with
    | |- context [MainPy.initialize_failed ?ss] =>
        destruct (initialize_failed_outcomes ss)
          as (e & s' & -> & Hsl & _ & Hst & Hcases)
    end.
    exists e, s'. split; [reflexivity|].
    split; [rewrite Hsl; reflexivity|].
    right. split; [exact Hst|]. intros Hconn.
    destruct Hcases as [(_ & ->)|(_ & _ & Hstop)]; [|exact Hstop].
    exfalso. unfold MainPy.state in *. simpl in Hst. congruence. }
  cbn [MainPy.net MainPy.with_mgr MainPy.mgr MainPy.slept MainPy.log].
  match goal with
  | |- context [MainPy.start_threads ?mm] =>
      pose proof (eq_refl (MainPy.state mm)) as Hmm;
      destruct (MainPy.start_threads mm) as [[u|e0] m'] eqn:Hstart
  end.
  - match goal with
    | |- context [MainPy.initialize_failed
                    (MainPy._set_state MainPy.CONNECTED ?inner)] =>
        destruct (initialize_failed_outcomes
                    (MainPy._set_state MainPy.CONNECTED inner))
          as (e & s' & -> & Hsl & _ & Hst & Hcases);
        destruct (_set_state_kept MainPy.CONNECTED inner) as (Hsl2 & _);
        pose proof (MainPyFacts._set_state_state MainPy.CONNECTED inner)
          as Hst2
    end.
    exists e, s'. split; [reflexivity|].
    split; [rewrite Hsl, Hsl2; reflexivity|].
    right. split; [exact Hst|]. intros _.
    destruct Hcases as [(_ & ->)|(_ & _ & Hstop)]; [|exact Hstop].
    exfalso. congruence.
  - unfold MainPy.start_threads in Hstart.
    assert (Hm' : MainPy.state m' = MainPy.state (MainPy.mgr s)).
    { repeat case_match; simplify_eq; reflexivity. }
    match goal with
    | |- context [MainPy.initialize_failed ?ss] =>
        destruct (initialize_failed_outcomes ss)
          as (e & s' & -> & Hsl & _ & Hst & Hcases)
    end.
    exists e, s'. split; [reflexivity|].
    split; [rewrite Hsl; reflexivity|].
    right. split; [exact Hst|]. intros Hconn.
    destruct Hcases as [(_ & ->)|(_ & _ & Hstop)]; [|exact Hstop].
    exfalso. simpl in Hst. unfold MainPy.state in *. congruence.
Qed.

(** [connect] of Main.py never returns a value, never pauses and never
    tries twice.  Called in state Connected it raises InvalidStateError
    and changes nothing.  In every other state it makes one try, and what
    leaves it is the NameError of [_handle_connection_error]: the state is
    not set to Error, it stays at Connecting, or is Disconnected, with the
    stop event set, when both sockets had connected. *)
Theorem main_connect_never_returns (i : string) (p vp : Z)
    (s : MainPy.system) :
  exists (e : exn) (s' : MainPy.system),
    MainPy.connect i p vp s = (Raise e, s')
    /\ MainPy.slept s' = MainPy.slept s
    /\ (e = InvalidStateError
        /\ MainPy.state (MainPy.mgr s) = MainPy.CONNECTED /\ s' = s
        \/ e = NameError
           /\ MainPy.state (MainPy.mgr s) <> MainPy.CONNECTED
           /\ (MainPy.state (MainPy.mgr s') = MainPy.CONNECTING
               \/ MainPy.state (MainPy.mgr s') = MainPy.DISCONNECTED
                  /\ MainPy._stop_event (MainPy.mgr s') = true)).
Proof.
  destruct (decide (MainPy.state (MainPy.mgr s) = MainPy.CONNECTED))
    as [Hc|Hnc].
  { exists InvalidStateError, s.
    unfold MainPy.connect, Utils.retry. simpl. unfold MainPy.connect_once.
    destruct (decide (MainPy.state (MainPy.mgr s) = MainPy.CONNECTED))
      as [_|Hne]; [|contradiction].
    split_and!; try reflexivity. left. split_and!; reflexivity || assumption. }
  rewrite (MainPyFacts.connect_raises i p vp s Hnc).
  destruct (connect_try_outcomes i p vp
              (MainPy._set_state MainPy.CONNECTING s))
    as (e & s' & Htry & Hsl & Hcases).
  destruct (_set_state_kept MainPy.CONNECTING s) as (Hsl0 & _).
  pose proof (MainPyFacts._set_state_state MainPy.CONNECTING s) as Hst0.
  rewrite Htry. cbn [snd].
  exists NameError, s'. split_and!; [reflexivity|congruence|].
  right. split_and!; [reflexivity|exact Hnc|].
  destruct Hcases as [Hsame|[Hd Hstop]].
  - left. congruence.
  - right. split; [exact Hd|apply Hstop; exact Hst0].
Qed.

Lemma new_socket_nth (nt : Net) :
  new_socket nt = (nth 0 nt unreachable, drop 1 nt).
Proof. destruct nt; reflexivity. Qed.

(** When the first socket cannot be connected, because the command port
    does not answer or is no port at all, [connect] of Main.py makes one
    try with one socket, pauses for nothing and raises NameError: neither
    the ConnectionError that its docstring announces nor the RobotError of
    [retry].  The state stays at Connecting, and the socket stays in
    [instruction_socket]. *)
Theorem main_connect_stops_at_first_failure (i : string) (p vp : Z)
    (s : MainPy.system) :
  MainPy.state (MainPy.mgr s) <> MainPy.CONNECTED ->
  sock_closed (nth 0 (MainPy.net s) unreachable) = false ->
  MainPy.sock_connect (nth 0 (MainPy.net s) unreachable) p <> Return tt ->
  exists s',
    MainPy.connect i p vp s = (Raise NameError, s')
    /\ MainPy.slept s' = MainPy.slept s
    /\ MainPy.net s' = drop 1 (MainPy.net s)
    /\ MainPy.state (MainPy.mgr s') = MainPy.CONNECTING
    /\ MainPy.instruction_socket (MainPy.mgr s')
       = Some (settimeout (Some MainPy.SOCKET_TIMEOUT)
                 (nth 0 (MainPy.net s) unreachable)).
Proof.
  intros Hnc Hopen Hdead.
  rewrite (MainPyFacts.connect_raises i p vp s Hnc).
  destruct (_set_state_kept MainPy.CONNECTING s) as (Hsl0 & Hnet0 & _).
  pose proof (MainPyFacts._set_state_state MainPy.CONNECTING s) as Hst0.
  unfold MainPy.connect_try, MainPy._create_socket.
  cbn [MainPy.net MainPy.with_mgr]. rewrite Hnet0, new_socket_nth, Hopen.
  cbn [MainPy.net MainPy.with_mgr MainPy.mgr MainPy.slept MainPy.log].
  rewrite sock_connect_settimeout.
  destruct (MainPy.sock_connect (nth 0 (MainPy.net s) unreachable) p)
    as [[]|e]; [contradiction|].
  eexists. split; [reflexivity|].
  destruct e; cbn [snd MainPy.slept MainPy.net MainPy.mgr];
    (split_and!; [exact Hsl0|reflexivity|exact Hst0|reflexivity]).
Qed.

(** When both ports answer, [connect] of Main.py fails all the same, and at
    once.  [start_threads] is called while the state is still Connecting
    and raises; the handler calls [disconnect], which sets the state and
    the stop event and then calls a method the class does not have; the
    handler of the outer [try] then raises NameError.  There is one try and
    no pause, four sockets have been made, and the manager is left
    Disconnected with its stop event set. *)
Theorem main_connect_fails_when_reachable (i : string) (p vp : Z)
    (s : MainPy.system) (s1 s2 s3 s4 : socket) (rest : Net) :
  MainPy.state (MainPy.mgr s) <> MainPy.CONNECTED ->
  MainPy.net s = s1 :: s2 :: s3 :: s4 :: rest ->
  Forall (fun sock => sock_closed sock = false) [s1; s2; s3; s4] ->
  MainPy.sock_connect s1 p = Return tt ->
  MainPy.sock_connect s2 vp = Return tt ->
  exists s',
    MainPy.connect i p vp s = (Raise NameError, s')
    /\ MainPy.slept s' = MainPy.slept s
    /\ MainPy.net s' = rest
    /\ MainPy.state (MainPy.mgr s') = MainPy.DISCONNECTED
    /\ MainPy._stop_event (MainPy.mgr s') = true
    /\ MainPy.video_thread (MainPy.mgr s')
       = MainPy.video_thread (MainPy.mgr s).
Proof.
  intros Hnc Hnet Hopen Hs1 Hs2.
  inversion Hopen as [|? ? Ho1 Hopen2]; subst.
  inversion Hopen2 as [|? ? Ho2 Hopen3]; subst.
  inversion Hopen3 as [|? ? Ho3 Hopen4]; subst.
  inversion Hopen4 as [|? ? Ho4 _]; subst.
  rewrite (MainPyFacts.connect_raises i p vp s Hnc).
  destruct (_set_state_kept MainPy.CONNECTING s) as (Hsl0 & Hnet0 & _).
  pose proof (MainPyFacts._set_state_state MainPy.CONNECTING s) as Hst0.
  assert (Hvt0 : MainPy.video_thread
                   (MainPy.mgr (MainPy._set_state MainPy.CONNECTING s))
                 = MainPy.video_thread (MainPy.mgr s)).
  { unfold MainPy._set_state. destruct (decide _); reflexivity. }
  assert (Hrun0 : MainPy._video_thread_running
                    (MainPy.mgr (MainPy._set_state MainPy.CONNECTING s))
                  = MainPy._video_thread_running (MainPy.mgr s)).
  { unfold MainPy._set_state. destruct (decide _); reflexivity. }
  destruct (MainPy._set_state MainPy.CONNECTING s) as [m0 nt0 sl0 lg0].
  simpl in Hsl0, Hnet0, Hst0, Hvt0, Hrun0. subst nt0 sl0.
  unfold MainPy.connect_try, MainPy._create_socket.
  cbn [MainPy.net MainPy.with_mgr]. rewrite Hnet.
  change (new_socket (s1 :: s2 :: s3 :: s4 :: rest))
    with (s1, s2 :: s3 :: s4 :: rest).
  cbn [MainPy.net MainPy.with_mgr MainPy.mgr MainPy.slept
       MainPy.log MainPy.add_log].
  rewrite Ho1.
  cbn [MainPy.net MainPy.with_mgr MainPy.mgr MainPy.slept
       MainPy.log MainPy.add_log].
  rewrite sock_connect_settimeout, Hs1.
  cbn [MainPy.net MainPy.with_mgr MainPy.mgr MainPy.slept
       MainPy.log MainPy.add_log].
  change (new_socket (s2 :: s3 :: s4 :: rest)) with (s2, s3 :: s4 :: rest).
  cbn [MainPy.net MainPy.with_mgr MainPy.mgr MainPy.slept
       MainPy.log MainPy.add_log].
  rewrite Ho2.
  cbn [MainPy.net MainPy.with_mgr MainPy.mgr MainPy.slept
       MainPy.log MainPy.add_log].
  rewrite sock_connect_settimeout, Hs2.
  unfold MainPy.turn_on_client.
  cbn [MainPy.net MainPy.with_mgr MainPy.mgr MainPy.slept MainPy.log
       MainPy.add_log].
  change (new_socket (s3 :: s4 :: rest)) with (s3, s4 :: rest).
  cbn [MainPy.net MainPy.with_mgr MainPy.mgr MainPy.slept
       MainPy.log MainPy.add_log].
  change (new_socket (s4 :: rest)) with (s4, rest).
  cbn [MainPy.net MainPy.with_mgr MainPy.mgr MainPy.slept
       MainPy.log MainPy.add_log].
  cbv zeta. rewrite Ho3, Ho4. cbn [orb negb].
  cbn [MainPy.net MainPy.with_mgr MainPy.mgr MainPy.slept MainPy.log].
  unfold MainPy.start_threads.
  match goal with
  | |- context [decide (MainPy.state ?mm <> MainPy.CONNECTED)] =>
      destruct (decide (MainPy.state mm <> MainPy.CONNECTED)) as [_|Hcon]
  end.
  2:{ exfalso. apply Hcon. unfold MainPy.state in *. simpl. congruence. }
  unfold MainPy.initialize_failed, MainPy.disconnect.
  match goal with
  | |- context [decide (MainPy.state ?mm = MainPy.DISCONNECTED)] =>
      destruct (decide (MainPy.state mm = MainPy.DISCONNECTED)) as [Hd|_]
  end.
  { exfalso. unfold MainPy.state in *. simpl in Hd. congruence. }
  unfold MainPy._set_state.
  match goal with
  | |- context [decide (MainPy._state ?mm <> MainPy.DISCONNECTED)] =>
      destruct (decide (MainPy._state mm <> MainPy.DISCONNECTED)) as [_|Hd]
  end.
  2:{ exfalso. apply Hd. unfold MainPy.state in *. simpl. congruence. }
  eexists. split; [reflexivity|].
  cbn. split_and!; try reflexivity. exact Hvt0.
Qed.

(** The theorems at a manager that starts out Disconnected: with a robot
    that answers on both ports, with nobody answering, and with a command
    port that is no port. *)
Lemma main_connect_fails_when_reachable_witness :
  exists s',
    MainPy.connect Samples.robot 5002 8002
      (Samples.main_system MainPy.DISCONNECTED
         [Samples.socket_with []; Samples.socket_with [];
          Samples.socket_with []; Samples.socket_with []])
    = (Raise NameError, s')
    /\ MainPy.state (MainPy.mgr s') = MainPy.DISCONNECTED
    /\ MainPy._stop_event (MainPy.mgr s') = true.
Proof.
  destruct (main_connect_fails_when_reachable Samples.robot 5002 8002
              (Samples.main_system MainPy.DISCONNECTED
                 [Samples.socket_with []; Samples.socket_with [];
                  Samples.socket_with []; Samples.socket_with []])
              (Samples.socket_with []) (Samples.socket_with [])
              (Samples.socket_with []) (Samples.socket_with []) [])
    as (s' & Heq & _ & _ & Hst & Hstop & _).
  - discriminate.
  - reflexivity.
  - repeat constructor.
  - reflexivity.
  - reflexivity.
  - exists s'. split_and!; assumption.
Defined.

Lemma main_connect_stops_at_first_failure_witness :
  (exists s',
     MainPy.connect Samples.robot 5002 8002
       (Samples.main_system MainPy.ERROR Samples.dead_network)
     = (Raise NameError, s')
     /\ MainPy.slept s' = []
     /\ MainPy.state (MainPy.mgr s') = MainPy.CONNECTING)
  /\ (exists s',
        MainPy.connect Samples.robot 65536 8002
          (Samples.main_system MainPy.DISCONNECTED
             [Samples.socket_with []; Samples.socket_with []])
        = (Raise NameError, s')
        /\ MainPy.net s' = [Samples.socket_with []]
        /\ MainPy.state (MainPy.mgr s') = MainPy.CONNECTING).
Proof.
  split.
  - destruct (main_connect_stops_at_first_failure Samples.robot 5002 8002
                (Samples.main_system MainPy.ERROR Samples.dead_network))
      as (s' & Heq & Hsl & _ & Hst & _).
    + discriminate.
    + reflexivity.
    + discriminate.
    + exists s'. split_and!; assumption.
  - destruct (main_connect_stops_at_first_failure Samples.robot 65536 8002
                (Samples.main_system MainPy.DISCONNECTED
                   [Samples.socket_with []; Samples.socket_with []]))
      as (s' & Heq & _ & Hnet & Hst & _).
    + discriminate.
    + reflexivity.
    + discriminate.
    + exists s'. split_and!; assumption.
Defined.

End MainConnectFacts.

(** ** The [retry] decorator *)

Module RetryFacts.
Import Utils Schedule.

Section Facts.
Context {St A : Type}.
Variable slept : St -> list Q.
Variables (max_attempts : Z) (backoff : Q) (catches : exn -> bool).
Variables (warn : St -> St) (pause : Q -> St -> St).
Variable func : St -> outcome A * St.
Hypothesis warn_slept : forall s, slept (warn s) = slept s.
Hypothesis pause_slept : forall d s, slept (pause d s) = slept s ++ [d].
Hypothesis func_slept : forall s, slept (snd (func s)) = slept s.

(** The pauses taken before try number [k + 1]. *)
Lemma at_try_slept (k : nat) :
  forall (d : Q) (s : St),
    slept (at_try backoff warn pause func k d s)
    = slept s ++ delays d backoff k.
Proof.
  induction k as [|k IH]; intros d s; cbn [at_try delays].
  - rewrite app_nil_r. reflexivity.
  - rewrite IH, pause_slept, warn_slept, func_slept, <- app_assoc.
    reflexivity.
Qed.

(** The call ends with the first try that is not to be made again. *)
Lemma retry_from_ends (j : nat) :
  forall (todo : nat) (attempt : Z) (d : Q) (s : St),
    Z.of_nat todo = max_attempts - attempt + 1 ->
    (j < todo)%nat ->
    (0 <= d)%Q -> (0 <= backoff)%Q ->
    (forall k : nat,
       (k < j)%nat ->
       retried catches (fst (func (at_try backoff warn pause func k d s)))
       = true) ->
    retried catches (fst (func (at_try backoff warn pause func j d s)))
    = false ->
    retry_from todo max_attempts backoff catches warn pause func attempt d s
    = func (at_try backoff warn pause func j d s).
Proof.
  induction j as [|j IH]; intros todo attempt d s Hleft Hj Hd Hb Hbefore Hlast;
    (destruct todo as [|todo]; [lia|]); cbn [retry_from].
  - cbn [at_try] in *.
    destruct (func s) as [[a|e] s1]; [reflexivity|].
    simpl in Hlast. rewrite Hlast. reflexivity.
  - pose proof (Hbefore 0%nat ltac:(lia)) as Hfirst. cbn [at_try] in Hfirst.
    assert (Hnext : forall k : nat,
              (k < j)%nat ->
              retried catches
                (fst (func (at_try backoff warn pause func k (d * backoff)
                              (pause d (warn (snd (func s)))))))
              = true)
      by (intros k Hk; exact (Hbefore (S k) ltac:(lia))).
    clear Hbefore.
    cbn [at_try] in Hlast. cbn [at_try].
    destruct (func s) as [[a|e] s1]; simpl in Hfirst; [discriminate|].
    cbn [snd] in *. rewrite Hfirst.
    replace (attempt =? max_attempts) with false
      by (symmetry; apply Z.eqb_neq; lia).
    replace (Qle_bool 0 d) with true
      by (symmetry; apply Qle_bool_iff; exact Hd).
    apply IH; try lia; try assumption.
    apply Qmult_le_0_compat; assumption.
Qed.

(** When every try allowed is to be made again, the call ends with
    RobotError after the last of them. *)
Lemma retry_from_exhausted (todo : nat) :
  forall (attempt : Z) (d : Q) (s : St),
    Z.of_nat (S todo) = max_attempts - attempt + 1 ->
    (0 <= d)%Q -> (0 <= backoff)%Q ->
    (forall k : nat,
       (k <= todo)%nat ->
       retried catches (fst (func (at_try backoff warn pause func k d s)))
       = true) ->
    retry_from (S todo) max_attempts backoff catches warn pause func
      attempt d s
    = (Raise RobotError,
       snd (func (at_try backoff warn pause func todo d s))).
Proof.
  induction todo as [|todo IH]; intros attempt d s Hleft Hd Hb Hall;
    cbn [retry_from].
  - pose proof (Hall 0%nat ltac:(lia)) as Hfirst. cbn [at_try] in *.
    destruct (func s) as [[a|e] s1]; simpl in Hfirst; [discriminate|].
    rewrite Hfirst.
    replace (attempt =? max_attempts) with true
      by (symmetry; apply Z.eqb_eq; lia).
    reflexivity.
  - pose proof (Hall 0%nat ltac:(lia)) as Hfirst. cbn [at_try] in Hfirst.
    assert (Hnext : forall k : nat,
              (k <= todo)%nat ->
              retried catches
                (fst (func (at_try backoff warn pause func k (d * backoff)
                              (pause d (warn (snd (func s)))))))
              = true)
      by (intros k Hk; exact (Hall (S k) ltac:(lia))).
    clear Hall.
    cbn [at_try].
    destruct (func s) as [[a|e] s1]; simpl in Hfirst; [discriminate|].
    cbn [snd] in *. rewrite Hfirst.
    replace (attempt =? max_attempts) with false
      by (symmetry; apply Z.eqb_neq; lia).
    replace (Qle_bool 0 d) with true
      by (symmetry; apply Qle_bool_iff; exact Hd).
    apply IH; try lia; try assumption.
    apply Qmult_le_0_compat; assumption.
Qed.

Lemma whole_nonneg (delay : Q) (k : nat) :
  whole delay backoff k -> (0 <= delay)%Q /\ (0 <= backoff)%Q.
Proof.
  intros (d & b & -> & -> & Hd & Hb & _).
  split; unfold Qle; simpl; lia.
Qed.

(** What [retry] does around any function, for a delay and a multiplier
    that are whole numbers.  With [max_attempts] of zero or less the
    function is not called at all and RobotError is raised at once.
    Otherwise the function is called again, after a pause, as long as it
    raises one of the exceptions to retry on and fewer than [max_attempts]
    calls have been made.  The first call that returns, or that raises
    another exception, ends the whole call with what it returned or
    raised; [max_attempts] calls that all raise exceptions to retry on end
    it with RobotError.  The pauses taken are then exactly the first ones
    of the schedule [delay], [delay * backoff], [delay * backoff *
    backoff], ...: one before each call but the first, none after the
    last.  With a negative delay the first pause is refused and the call
    ends with ValueError. *)
Theorem retry_schedule (delay : Q) (s : St) :
  let try_at (k : nat) :=
    func (at_try backoff warn pause func k delay s) in
  (max_attempts <= 0 ->
   retry max_attempts delay backoff catches warn pause func s
   = (Raise RobotError, s))
  /\ (whole delay backoff (Z.to_nat (max_attempts - 1)) ->
      forall j : nat,
        Z.of_nat j < max_attempts ->
        (forall k : nat,
           (k < j)%nat -> retried catches (fst (try_at k)) = true) ->
        (retried catches (fst (try_at j)) = false ->
         retry max_attempts delay backoff catches warn pause func s
         = try_at j
         /\ slept (snd (try_at j)) = slept s ++ delays delay backoff j)
        /\ (retried catches (fst (try_at j)) = true ->
            Z.of_nat j = max_attempts - 1 ->
            retry max_attempts delay backoff catches warn pause func s
            = (Raise RobotError, snd (try_at j))
            /\ slept (snd (try_at j))
               = slept s ++ delays delay backoff j))
  /\ (2 <= max_attempts -> (delay < 0)%Q ->
      retried catches (fst (func s)) = true ->
      retry max_attempts delay backoff catches warn pause func s
      = (Raise ValueError, warn (snd (func s)))).
Proof.
  cbv zeta. split_and!.
  - intros Hzero. unfold retry.
    replace (Z.to_nat max_attempts) with 0%nat by lia. reflexivity.
  - intros Hwhole j Hj Hbefore.
    destruct (whole_nonneg delay _ Hwhole) as [Hd Hb].
    split.
    + intros Hlast. split.
      * unfold retry. apply retry_from_ends; try assumption; lia.
      * rewrite func_slept. apply at_try_slept.
    + intros Hlast Hmax. split.
      * unfold retry.
        replace (Z.to_nat max_attempts) with (S j) by lia.
        apply retry_from_exhausted; try assumption; try lia.
        intros k Hk. destruct (decide (k = j)) as [->|Hne];
          [exact Hlast|apply Hbefore; lia].
      * rewrite func_slept. apply at_try_slept.
  - intros Hmax Hneg Hfirst. unfold retry.
    destruct (Z.to_nat max_attempts) as [|todo] eqn:Htodo; [lia|].
    cbn [retry_from].
    destruct (func s) as [[a|e] s1]; simpl in Hfirst; [discriminate|].
    rewrite Hfirst.
    replace (1 =? max_attempts) with false
      by (symmetry; apply Z.eqb_neq; lia).
    replace (Qle_bool 0 delay) with false; [reflexivity|].
    symmetry. apply not_true_is_false. intros Hle.
    apply Qle_bool_iff in Hle. exact (Qlt_not_le _ _ Hneg Hle).
Qed.

End Facts.

(** The theorem at a function that fails with ConnectionError every time,
    tried four times from a delay of one second: pauses of one, two and
    four seconds, then RobotError. *)
Lemma retry_schedule_witness :
  retry (A := unit) 4 1 2 (fun _ => true) (fun s => s) (fun d s => s ++ [d])
    (fun s => (Raise ConnectionError, s)) []
  = (Raise RobotError, [1%Q; (1 * 2)%Q; (1 * 2 * 2)%Q]).
Proof.
  destruct (retry_schedule (A := unit) (fun s : list Q => s) 4 2
              (fun _ => true) (fun s => s) (fun d s => s ++ [d])
              (fun s => (Raise ConnectionError, s))
              (fun s => eq_refl) (fun d s => eq_refl) (fun s => eq_refl)
              1 [])
    as (_ & Hsched & _).
  destruct (Hsched ltac:(exists 1, 2; split_and!; try reflexivity; lia)
              3%nat ltac:(lia) ltac:(intros; reflexivity))
    as [_ Hlast].
  destruct (Hlast eq_refl eq_refl) as [Hrun _].
  rewrite Hrun. reflexivity.
Defined.

End RetryFacts.

(** ** Bounds *)

Module BoundsFacts.
Import Bounds.

(** [restriction] of Main.py and [clamp] of utils.py agree whenever the
    lower bound is not above the upper one: the result lies within the
    bounds, it is the value itself exactly when the value lies within
    them (which is when [validate_range] returns, and then returns the
    value), and clamping twice is clamping once.  With the bounds crossed
    the two part: a value above both bounds is taken to the upper bound by
    [restriction] and to the lower one by [clamp]. *)
Theorem restriction_is_clamp (var v_min v_max : Z) :
  (v_min <= v_max ->
   restriction var v_min v_max = clamp var v_min v_max
   /\ v_min <= restriction var v_min v_max <= v_max
   /\ (restriction var v_min v_max = var <-> v_min <= var <= v_max)
   /\ (validate_range var v_min v_max = Return var
       <-> v_min <= var <= v_max)
   /\ restriction (restriction var v_min v_max) v_min v_max
      = restriction var v_min v_max)
  /\ (v_max < v_min -> v_min <= var ->
      restriction var v_min v_max = v_max
      /\ clamp var v_min v_max = v_min
      /\ validate_range var v_min v_max = Raise ValueError).
Proof.
  unfold restriction, clamp, py_max, py_min, validate_range.
  split.
  - intros Hle.
    destruct (var <? v_min) eqn:H1; destruct (v_max <? var) eqn:H2;
      destruct (v_min <=? var) eqn:H3; destruct (var <=? v_max) eqn:H4;
      try apply Z.ltb_lt in H1; try apply Z.ltb_ge in H1;
      try apply Z.ltb_lt in H2; try apply Z.ltb_ge in H2;
      try apply Z.leb_le in H3; try apply Z.leb_gt in H3;
      try apply Z.leb_le in H4; try apply Z.leb_gt in H4;
      try lia; simpl;
      repeat match goal with
             | |- context [?a <? ?b] =>
                 let Hc := fresh in
                 destruct (a <? b) eqn:Hc;
                 [apply Z.ltb_lt in Hc|apply Z.ltb_ge in Hc]
             end;
      try lia; split_and!; try lia; try reflexivity;
      (split; [intros; lia || discriminate || reflexivity
              |intros; lia || discriminate || reflexivity]).
  - intros Hcross Hvar.
    destruct (var <? v_min) eqn:H1; destruct (v_max <? var) eqn:H2;
      destruct (v_min <=? var) eqn:H3; destruct (var <=? v_max) eqn:H4;
      try apply Z.ltb_lt in H1; try apply Z.ltb_ge in H1;
      try apply Z.ltb_lt in H2; try apply Z.ltb_ge in H2;
      try apply Z.leb_le in H3; try apply Z.leb_gt in H3;
      try apply Z.leb_le in H4; try apply Z.leb_gt in H4;
      try lia; simpl;
      repeat match goal with
             | |- context [?a <? ?b] =>
                 let Hc := fresh in
                 destruct (a <? b) eqn:Hc;
                 [apply Z.ltb_lt in Hc|apply Z.ltb_ge in Hc]
             end;
      try lia; split_and!; try lia; reflexivity.
Qed.

(** The theorem at a battery reading of 120 per cent, within 0 and 100
    and within crossed bounds. *)
Lemma restriction_is_clamp_witness :
  restriction 120 0 100 = clamp 120 0 100
  /\ restriction 120 100 0 = 0 /\ clamp 120 100 0 = 100.
Proof.
  destruct (restriction_is_clamp 120 0 100) as [Hin _].
  destruct (restriction_is_clamp 120 100 0) as [_ Hout].
  destruct Hin as (Hagree & _); [lia|].
  destruct Hout as (Hr & Hc & _); [lia|lia|].
  split_and!; assumption.
Defined.

End BoundsFacts.

(** ** The client and the command reader of Main.py: failures *)

Module ClientFacts.
Import Connections MainWindow ClientPy.

Lemma receive_data_off (c : MainPy.Client) :
  MainPy.tcp_flag c = false -> receive_data c = (Return "", c).
Proof. intros Hoff. unfold receive_data. rewrite Hoff. reflexivity. Qed.

Lemma send_data_off (data : string) (c : MainPy.Client) :
  MainPy.tcp_flag c = false -> send_data data c = c.
Proof. intros Hoff. unfold send_data. rewrite Hoff. reflexivity. Qed.

(** [tcp_flag] is the switch of the client.  When a [recv] times out or
    fails, [receive_data] returns the empty string and clears the flag; so
    does [send_data] when its [sendall] times out or fails.  While the
    flag is clear [receive_data] returns the empty string and [send_data]
    sends nothing, without touching the socket, whatever the peer has sent
    in the meantime, and the loop of the command reader ends at its first
    turn.  The failure is not for good: [receive_instruction] sets the
    flag again when its [connect] goes through, and then dispatches what
    the peer has sent after the receive that timed out. *)
Theorem client_failure_clears_flag (c : MainPy.Client) (s : socket)
    (data : string) :
  MainPy.tcp_flag c = true ->
  MainPy._command_socket c = Some s ->
  let off (c' : MainPy.Client) : Prop :=
    MainPy.tcp_flag c' = false
    /\ receive_data c' = (Return "", c')
    /\ (forall text, send_data text c' = c')
    /\ (forall (CMD_SONIC CMD_POWER : string) (fuel : nat) (u : window),
          client u = c' ->
          receive_loop CMD_SONIC CMD_POWER (S fuel) u = Some (Return tt, u)) in
  ((forall d, fst (sock_recv 1024 s) <> RecvBytes d) ->
   fst (receive_data c) = Return "" /\ off (snd (receive_data c)))
  /\ ((forall d, fst (sock_sendall (list_byte_of_string data) s)
                 <> RecvBytes d) ->
      off (send_data data c))
  /\ (forall (CMD_SONIC CMD_POWER : string) (chunks : list string)
             (u : window),
        client u = c ->
        sock_closed s = false ->
        sock_inbox s
        = SockTimeout
          :: map (fun chunk => SockData (list_byte_of_string chunk)) chunks ->
        forallb (handled CMD_SONIC) chunks = true ->
        let c1 := snd (receive_data c) in
        off c1
        /\ exists u',
             receive_instruction CMD_SONIC CMD_POWER (S (List.length chunks))
               true (with_client c1 u) = Some (Return tt, u')
             /\ printed u' = printed u ++ flat_map records chunks).
Proof.
  intros Hon Hsock off.
  assert (Hoff : forall c', MainPy.tcp_flag c' = false -> off c').
  { intros c' Hflag. unfold off. split_and!.
    - exact Hflag.
    - apply receive_data_off. exact Hflag.
    - intros text. apply send_data_off. exact Hflag.
    - intros CMD_SONIC CMD_POWER fuel u Hu. cbn [receive_loop].
      rewrite Hu, (receive_data_off c' Hflag). simpl.
      destruct u as [cl ls pv pr]. simpl in Hu. subst cl. reflexivity. }
  split_and!.
  - intros Hfail. unfold receive_data. rewrite Hon, Hsock. simpl.
    destruct (sock_recv 1024 s) as [[d| |] s'] eqn:Hrecv.
    + exfalso. apply (Hfail d). reflexivity.
    + split; [reflexivity|]. apply Hoff. reflexivity.
    + split; [reflexivity|]. apply Hoff. reflexivity.
  - intros Hfail. unfold send_data. rewrite Hon, Hsock. simpl.
    destruct (sock_sendall (list_byte_of_string data) s) as [[d| |] s']
      eqn:Hsend.
    + exfalso. apply (Hfail d). reflexivity.
    + apply Hoff. reflexivity.
    + apply Hoff. reflexivity.
  - intros CMD_SONIC CMD_POWER chunks u Hu Hopen Hinbox Hok c1.
    assert (Hc1 : c1 = set_tcp_flag false
                         (set_command_socket
                            (set_inbox s
                               (map (fun chunk =>
                                       SockData (list_byte_of_string chunk))
                                  chunks)) c)).
    { subst c1. unfold receive_data, sock_recv.
      rewrite Hon, Hsock, Hopen, Hinbox. reflexivity. }
    split; [apply Hoff; rewrite Hc1; reflexivity|].
    unfold receive_instruction.
    destruct (MainWindowFacts.receive_loop_spec CMD_SONIC CMD_POWER chunks
                (with_client (set_tcp_flag true
                                (client (with_client c1 u)))
                   (with_client c1 u))
                (set_inbox s
                   (map (fun chunk => SockData (list_byte_of_string chunk))
                      chunks)))
      as (u' & Hrun & Hp); try assumption; try reflexivity.
    + rewrite Hc1. reflexivity.
    + exists u'. split; [exact Hrun|exact Hp].
Qed.

Section Reader.
Variables CMD_SONIC CMD_POWER : string.

Lemma for_each_app (before after : list string) (u : window) :
  for_each CMD_SONIC CMD_POWER (before ++ after) u
  = match for_each CMD_SONIC CMD_POWER before u with
    | (Return _, u') => for_each CMD_SONIC CMD_POWER after u'
    | (Raise e, u') => (Raise e, u')
    end.
Proof.
  revert u. induction before as [|oneCmd rest IH]; intros u; simpl;
    [reflexivity|].
  destruct (handle CMD_SONIC CMD_POWER oneCmd u) as [[[]|e] u1];
    [apply IH|reflexivity].
Qed.

(** A record that is the code [CMD_SONIC] and nothing else, in a receive
    that is well-formed UTF-8, ends the command reader with an exception
    that nothing catches ([data[1]] on a list of one element).  The
    records before it in the same receive have been dispatched, the ones
    after it are not, and whatever the peer sends afterwards is not
    read. *)
Theorem bare_sonic_ends_reader (fuel : nat) (u : window) (s : socket)
    (chunk : string) (rest : list sock_event) (before after : list string) :
  MainPy.tcp_flag (client u) = true ->
  MainPy._command_socket (client u) = Some s ->
  sock_closed s = false ->
  sock_inbox s = SockData (list_byte_of_string chunk) :: rest ->
  chunk <> "" ->
  (List.length (list_byte_of_string chunk) <= 1024)%nat ->
  utf8_valid (list_byte_of_string chunk) = true ->
  split newline chunk = before ++ CMD_SONIC :: after ->
  forallb (calm CMD_SONIC) before = true ->
  occurs hash CMD_SONIC = false ->
  exists u',
    receive_loop CMD_SONIC CMD_POWER (S fuel) u
    = Some (Raise OtherException, u')
    /\ printed u' = printed u ++ map (split hash) before ++ [[CMD_SONIC]]
    /\ client u' = set_command_socket (set_inbox s rest) (client u).
Proof.
  intros Hflag Hsock Hopen Hinbox Hne Hlen Hutf Hsplit Hcalm Hfree.
  cbn [receive_loop]. unfold receive_data, sock_recv.
  rewrite Hflag, Hsock, Hopen, Hinbox.
  cbv beta iota delta [negb].
  rewrite (take_ge _ _ Hlen), (drop_ge _ _ Hlen).
  cbv beta iota. rewrite Hutf.
  rewrite string_of_list_byte_of_string.
  replace (String.eqb chunk "") with false
    by (symmetry; apply String.eqb_neq; exact Hne).
  rewrite Hsplit, for_each_app.
  set (u0 := with_client _ u).
  destruct (MainWindowFacts.for_each_calm CMD_SONIC CMD_POWER before u0 Hcalm)
    as (u1 & -> & Hc1 & Hp1).
  cbn [for_each]. unfold handle.
  rewrite (MainWindowFacts.split_free hash CMD_SONIC Hfree).
  rewrite String.eqb_refl.
  eexists. split; [reflexivity|]. simpl.
  split; [rewrite Hp1, <- app_assoc; reflexivity|].
  rewrite Hc1. reflexivity.
Qed.

End Reader.

(** The theorems at a client whose peer stays silent and then sends a
    record, and at a reader that meets a bare [CMD_SONIC] between two
    records. *)
Lemma client_failure_clears_flag_witness :
  let u := Samples.window_on [] in
  let c := Samples.silent_then_record (client u) in
  let c1 := snd (receive_data c) in
  fst (receive_data c) = Return ""
  /\ receive_data c1 = (Return "", c1)
  /\ exists u',
       receive_instruction "CMD_SONIC" "CMD_POWER" 2 true (with_client c1 u)
       = Some (Return tt, u')
       /\ printed u' = [["CMD_POWER"; "7"; "8"]].
Proof.
  intros u c c1.
  destruct (client_failure_clears_flag c
              (Samples.socket_with
                 [SockTimeout; SockData (list_byte_of_string "CMD_POWER#7#8")])
              "") as (Hrecv & _ & Hagain); try reflexivity.
  destruct Hrecv as (Hempty & _ & Hstay & _); [discriminate|].
  destruct (Hagain "CMD_SONIC" "CMD_POWER" ["CMD_POWER#7#8"]
              (with_client c u))
    as (_ & u' & Hrun & Hp); try reflexivity.
  split_and!; try assumption.
  exists u'. split; [exact Hrun|exact Hp].
Defined.

Lemma bare_sonic_ends_reader_witness :
  exists u',
    receive_loop "CMD_SONIC" "CMD_POWER" 2
      (with_client (set_tcp_flag true (client (Samples.window_on
                                                 [Samples.sonic_between])))
         (Samples.window_on [Samples.sonic_between]))
    = Some (Raise OtherException, u')
    /\ printed u' = [["CMD_POWER"; "7"; "8"]; ["CMD_SONIC"]].
Proof.
  destruct (bare_sonic_ends_reader "CMD_SONIC" "CMD_POWER" 1
              (with_client
                 (set_tcp_flag true
                    (client (Samples.window_on [Samples.sonic_between])))
                 (Samples.window_on [Samples.sonic_between]))
              (Samples.socket_with
                 [SockData (list_byte_of_string Samples.sonic_between)])
              Samples.sonic_between []
              ["CMD_POWER#7#8"] ["CMD_POWER#6#6"; ""])
    as (u' & Hrun & Hprinted & _); try reflexivity.
  - discriminate.
  - simpl. lia.
  - exists u'. split; assumption.
Defined.

End ClientFacts.

(** ** The video thread of Main.py *)

Module MainThreadFacts.
Import Connections MainThreads.

Lemma split_once_shorter (b f r : bytes) :
  split_once b = Some (f, r) -> (List.length r < List.length b)%nat.
Proof.
  revert f r. induction b as [|x b IH]; intros f r; simpl; [discriminate|].
  destruct (Byte.eqb x x0a).
  - intros Heq. inversion Heq; subst. lia.
  - destruct (split_once b) as [[f' r']|]; [|discriminate].
    intros Heq. inversion Heq; subst. specialize (IH _ _ eq_refl). lia.
Qed.

Lemma split_once_app_some (a c f r : bytes) :
  split_once a = Some (f, r) -> split_once (a ++ c) = Some (f, r ++ c).
Proof.
  revert f r. induction a as [|x a IH]; intros f r; simpl; [discriminate|].
  destruct (Byte.eqb x x0a).
  - intros Heq. inversion Heq; subst. reflexivity.
  - destruct (split_once a) as [[f' r']|]; [|discriminate].
    intros Heq. inversion Heq; subst. rewrite (IH _ _ eq_refl). reflexivity.
Qed.

Lemma frames_loop_fuel (n1 : nat) :
  forall (n2 : nat) (b : bytes),
    (List.length b <= n1)%nat -> (List.length b <= n2)%nat ->
    frames_loop n1 b = frames_loop n2 b.
Proof.
  induction n1 as [|n1 IH]; intros n2 b H1 H2.
  - destruct b; [|simpl in H1; lia]. destruct n2; reflexivity.
  - destruct n2 as [|n2].
    + destruct b; [reflexivity|simpl in H2; lia].
    + simpl. destruct (split_once b) as [[f r]|] eqn:Hsplit; [|reflexivity].
      apply split_once_shorter in Hsplit.
      rewrite (IH n2 r) by lia. reflexivity.
Qed.

Lemma drain_unfold (b : bytes) :
  drain b
  = match split_once b with
    | None => ([], b)
    | Some (f, r) => let '(fs, remainder) := drain r in (f :: fs, remainder)
    end.
Proof.
  unfold drain. destruct b as [|x b]; [reflexivity|].
  cbn [List.length frames_loop].
  destruct (split_once (x :: b)) as [[f r]|] eqn:Hsplit; [|reflexivity].
  apply split_once_shorter in Hsplit. simpl in Hsplit.
  rewrite (frames_loop_fuel (List.length b) (List.length r) r) by lia.
  reflexivity.
Qed.

(** What stays in the buffer holds no newline. *)
Lemma drain_remainder (b : bytes) : split_once (snd (drain b)) = None.
Proof.
  remember (List.length b) as n eqn:Hn. revert b Hn.
  induction n as [n IH] using lt_wf_ind. intros b Hn.
  rewrite drain_unfold.
  destruct (split_once b) as [[f r]|] eqn:Hsplit; [|exact Hsplit].
  pose proof (split_once_shorter _ _ _ Hsplit) as Hlt.
  specialize (IH (List.length r) ltac:(lia) r eq_refl).
  destruct (drain r) as [fs remainder]. exact IH.
Qed.

(** Draining after each piece is draining once. *)
Lemma drain_app (a c : bytes) :
  drain (a ++ c)
  = (fst (drain a) ++ fst (drain (snd (drain a) ++ c)),
     snd (drain (snd (drain a) ++ c))).
Proof.
  remember (List.length a) as n eqn:Hn. revert a Hn.
  induction n as [n IH] using lt_wf_ind. intros a Hn.
  rewrite (drain_unfold a).
  destruct (split_once a) as [[f r]|] eqn:Hsplit.
  - rewrite (drain_unfold (a ++ c)), (split_once_app_some _ c _ _ Hsplit).
    pose proof (split_once_shorter _ _ _ Hsplit) as Hlt.
    rewrite (IH (List.length r) ltac:(lia) r eq_refl).
    destruct (drain r) as [fs remainder]. reflexivity.
  - simpl. destruct (drain (a ++ c)); reflexivity.
Qed.

Lemma received_after_recv (n : nat) (b : byte) (data : bytes)
    (rest : list sock_event) :
  (1 <= n)%nat ->
  exists b' chunk,
    take n (b :: data) = b' :: chunk
    /\ received (SockData (b :: data) :: rest)
       = (b' :: chunk)
         ++ received (match drop n (b :: data) with
                      | [] => rest
                      | more => SockData more :: rest
                      end)
    /\ (Stream.weight (match drop n (b :: data) with
                       | [] => rest
                       | more => SockData more :: rest
                       end)
        < Stream.weight (SockData (b :: data) :: rest))%nat.
Proof.
  intros Hn. destruct n as [|n]; [lia|].
  exists b, (take n data). split; [reflexivity|].
  cbn [received]. change (drop (S n) (b :: data)) with (drop n data).
  pose proof (length_drop data n) as Hlen.
  destruct (drop n data) as [|x more] eqn:Hdrop.
  - split.
    + rewrite <- (take_drop n data) at 1. rewrite Hdrop, app_nil_r.
      reflexivity.
    + simpl. lia.
  - split.
    + cbn [received]. rewrite <- Hdrop. rewrite app_assoc.
      change ((b :: take n data) ++ drop n data)
        with (b :: (take n data ++ drop n data)).
      rewrite take_drop. reflexivity.
    + simpl in *. lia.
Qed.

(** What a read takes from the script of the peer: the bytes it returns
    are the next of the bytes of the script, and what is left of the
    script is less, unless nothing was left. *)
Lemma sock_recv_received (sock : socket) :
  sock_closed sock = false ->
  sock_closed (snd (sock_recv 4096 sock)) = false
  /\ received (sock_inbox sock)
     = match fst (sock_recv 4096 sock) with
       | RecvBytes data => data
       | _ => []
       end ++ received (sock_inbox (snd (sock_recv 4096 sock)))
  /\ (Stream.weight (sock_inbox (snd (sock_recv 4096 sock)))
      <= Stream.weight (sock_inbox sock) - 1)%nat.
Proof.
  intros Hopen. unfold sock_recv. rewrite Hopen.
  destruct (sock_inbox sock) as [|[[|b data]| |] rest] eqn:Hinbox;
    cbn [fst snd sock_closed sock_inbox set_inbox].
  - rewrite Hinbox. split_and!; [exact Hopen|reflexivity|simpl; lia].
  - split_and!; [exact Hopen|reflexivity|simpl; lia].
  - destruct (received_after_recv 4096 b data rest) as
      (b' & chunk & Htake & Hrecv & Hweight); [lia|].
    rewrite Htake. split_and!; [exact Hopen|exact Hrecv|lia].
  - split_and!; [exact Hopen|reflexivity|simpl; lia].
  - split_and!; [exact Hopen|reflexivity|simpl; lia].
Qed.

(** A turn of the loop on a manager that is Connected and has its video
    socket: whatever the read gives, the turn is followed by another. *)
Lemma video_turn_spec (r : video_run) (sock : socket) :
  MainPy.state (MainPy.mgr (sys r)) = MainPy.CONNECTED ->
  MainPy.video_socket (MainPy.mgr (sys r)) = Some sock ->
  exists r1,
    video_turn r = (Video.Continue, r1)
    /\ video_goes_on r1 = video_goes_on r
    /\ MainPy.state (MainPy.mgr (sys r1)) = MainPy.CONNECTED
    /\ MainPy.video_socket (MainPy.mgr (sys r1))
       = Some (snd (sock_recv 4096 sock))
    /\ (processed r1, buffer r1)
       = match fst (sock_recv 4096 sock) with
         | RecvBytes (b :: data) =>
             (processed r ++ fst (drain (buffer r ++ b :: data)),
              snd (drain (buffer r ++ b :: data)))
         | _ => (processed r, buffer r)
         end
    /\ MainPy.slept (sys r1)
       = MainPy.slept (sys r)
         ++ match fst (sock_recv 4096 sock) with
            | RecvBytes (_ :: _) | RecvTimeout => []
            | _ => [1 # 10]
            end.
Proof.
  intros Hst Hsock. unfold video_turn.
  destruct (decide (MainPy.state (MainPy.mgr (sys r)) <> MainPy.CONNECTED))
    as [Hne|_]; [contradiction|].
  rewrite Hsock.
  destruct (sock_recv 4096 sock) as [[[|b data]| |] sock']; cbn [fst snd].
  - eexists. split; [reflexivity|].
    split_and!; try reflexivity; exact Hst.
  - destruct (drain (buffer r ++ b :: data)) as [frames remainder].
    eexists. split; [reflexivity|]. cbn [fst snd].
    split_and!; try reflexivity; [exact Hst|].
    cbn. rewrite app_nil_r. reflexivity.
  - eexists. split; [reflexivity|].
    split_and!; try reflexivity; [exact Hst|].
    cbn. rewrite app_nil_r. reflexivity.
  - eexists. split; [reflexivity|].
    split_and!; try reflexivity; exact Hst.
Qed.

(** The loop of the video thread does not end by itself. *)
Lemma video_while_goes_on (fuel : nat) :
  forall (r : video_run) (sock : socket),
    video_goes_on r = true ->
    MainPy.state (MainPy.mgr (sys r)) = MainPy.CONNECTED ->
    MainPy.video_socket (MainPy.mgr (sys r)) = Some sock ->
    video_while fuel r = None.
Proof.
  induction fuel as [|fuel IH]; intros r sock Hgo Hst Hsock;
    cbn [video_while]; rewrite Hgo; [reflexivity|].
  destruct (video_turn_spec r sock Hst Hsock)
    as (r1 & -> & Hgo1 & Hst1 & Hsock1 & _).
  apply (IH r1 (snd (sock_recv 4096 sock)));
    [congruence|exact Hst1|exact Hsock1].
Qed.

(** The frames that the video thread hands on are the pieces, each ended
    by a newline, of the bytes it has received, in order: how the
    transport cut the bytes into reads, and which reads timed out, failed
    or came back empty in between, makes no difference.  The bytes after
    the last newline stay in the buffer.  An empty read or a socket error
    does not end the thread: [_handle_connection_error] raises, the
    [break] after it is not reached, and the loop goes on reading with the
    manager still Connected; it does not end by itself. *)
Theorem video_frames_follow_the_bytes (n : nat) :
  forall (r : video_run) (sock : socket),
    MainPy._video_thread_running (MainPy.mgr (sys r)) = true ->
    MainPy._stop_event (MainPy.mgr (sys r)) = false ->
    MainPy.state (MainPy.mgr (sys r)) = MainPy.CONNECTED ->
    MainPy.video_socket (MainPy.mgr (sys r)) = Some sock ->
    sock_closed sock = false ->
    split_once (buffer r) = None ->
    (Stream.weight (sock_inbox sock) <= n)%nat ->
    let r' := video_turns n r in
    processed r'
    = processed r ++ fst (drain (buffer r ++ received (sock_inbox sock)))
    /\ buffer r' = snd (drain (buffer r ++ received (sock_inbox sock)))
    /\ MainPy.state (MainPy.mgr (sys r')) = MainPy.CONNECTED
    /\ video_goes_on r' = true
    /\ (forall fuel : nat, video_while fuel r = None).
Proof.
  induction n as [|n IH];
    intros r sock Hrun Hstop Hst Hsock Hopen Hbuf Hweight r'.
  - assert (Hgo : video_goes_on r = true)
      by (unfold video_goes_on; rewrite Hrun, Hstop; reflexivity).
    assert (Hinbox : sock_inbox sock = []).
    { destruct (sock_inbox sock) as [|[d| |] rest]; [reflexivity|..];
        simpl in Hweight; lia. }
    subst r'. cbn [video_turns]. rewrite Hinbox. cbn [received].
    rewrite app_nil_r, drain_unfold, Hbuf. cbn [fst snd].
    rewrite app_nil_r. split_and!; try reflexivity; try assumption.
    intros fuel. exact (video_while_goes_on fuel r sock Hgo Hst Hsock).
  - assert (Hgo : video_goes_on r = true)
      by (unfold video_goes_on; rewrite Hrun, Hstop; reflexivity).
    subst r'. cbn [video_turns]. rewrite Hgo.
    destruct (video_turn_spec r sock Hst Hsock)
      as (r1 & -> & Hgo1 & Hst1 & Hsock1 & Hdata & _).
    destruct (sock_recv_received sock Hopen) as (Hopen1 & Hrecv & Hless).
    rewrite Hgo in Hgo1. unfold video_goes_on in Hgo1.
    apply andb_true_iff in Hgo1 as [Hrun1 Hstop1].
    apply negb_true_iff in Hstop1.
    assert (Hbuf1 : split_once (buffer r1) = None).
    { destruct (fst (sock_recv 4096 sock)) as [[|b data]| |];
        injection Hdata as Hp Hb; rewrite Hb; try exact Hbuf.
      apply drain_remainder. }
    destruct (IH r1 (snd (sock_recv 4096 sock)) Hrun1 Hstop1 Hst1 Hsock1
                Hopen1 Hbuf1 ltac:(lia))
      as (Hproc & Hbuffer & Hstate & Hgo' & _).
    assert (Hjoin :
      processed r1
      ++ fst (drain (buffer r1
                     ++ received (sock_inbox (snd (sock_recv 4096 sock)))))
      = processed r ++ fst (drain (buffer r ++ received (sock_inbox sock)))
      /\ snd (drain (buffer r1
                     ++ received (sock_inbox (snd (sock_recv 4096 sock)))))
         = snd (drain (buffer r ++ received (sock_inbox sock)))).
    { rewrite Hrecv.
      destruct (fst (sock_recv 4096 sock)) as [[|b data]| |];
        injection Hdata as Hp Hb; rewrite Hp, Hb;
        try (split; reflexivity).
      rewrite (app_assoc (buffer r)), (drain_app (buffer r ++ b :: data)).
      cbn [fst snd]. rewrite app_assoc. split; reflexivity. }
    destruct Hjoin as [Hjoin1 Hjoin2].
    split_and!; try assumption.
    + rewrite Hproc. exact Hjoin1.
    + rewrite Hbuffer. exact Hjoin2.
    + intros fuel. exact (video_while_goes_on fuel r sock Hgo Hst Hsock).
Qed.

(** The theorem at two frames that come in two reads, after which the peer
    closes: twelve turns later the two frames have been handed on and the
    thread is still at work. *)
Lemma video_frames_follow_the_bytes_witness :
  let r' :=
    video_turns 12
      {| sys := Samples.streaming_system Samples.frames_in_two;
         buffer := []; processed := [] |} in
  processed r' = [list_byte_of_string "ab"; list_byte_of_string "cde"]
  /\ buffer r' = list_byte_of_string "f"
  /\ MainPy.state (MainPy.mgr (sys r')) = MainPy.CONNECTED
  /\ _video_thread_func 12 (Samples.streaming_system Samples.frames_in_two)
     = None.
Proof.
  destruct (video_frames_follow_the_bytes 12
              {| sys := Samples.streaming_system Samples.frames_in_two;
                 buffer := []; processed := [] |}
              (Samples.socket_with Samples.frames_in_two))
    as (Hproc & Hbuf & Hst & _ & Hloop).
  - reflexivity.
  - reflexivity.
  - reflexivity.
  - reflexivity.
  - reflexivity.
  - reflexivity.
  - simpl. lia.
  - cbv zeta. rewrite Hproc, Hbuf.
    split_and!; [reflexivity|reflexivity|exact Hst|].
    unfold _video_thread_func. exact (Hloop 12%nat).
Defined.

End MainThreadFacts.

(** ** ThreadSafeValue: registering callbacks *)

Module CallbackFacts.
Import ThreadSafe.

Section Facts.
Context {T : Type} `{EqDecision T} {W : Type}.
Implicit Types (t : ThreadSafeValue T W) (cb : callback T W)
  (cbs : list (callback T W)).

Lemma existsb_id_In (id : nat) cbs :
  existsb (fun cb => Nat.eqb (cb_id cb) id) cbs = true
  <-> In id (map cb_id cbs).
Proof.
  induction cbs as [|cb rest IH]; simpl; [split; [discriminate|tauto]|].
  rewrite orb_true_iff, IH, Nat.eqb_eq. tauto.
Qed.

Lemma remove_first_ids (id : nat) cbs :
  NoDup (map cb_id cbs) ->
  NoDup (map cb_id (remove_first id cbs))
  /\ ~ In id (map cb_id (remove_first id cbs))
  /\ (forall j, In j (map cb_id (remove_first id cbs)) ->
                In j (map cb_id cbs)).
Proof.
  induction cbs as [|cb rest IH]; simpl; intros Hnd.
  - split_and!; [constructor|tauto|tauto].
  - apply NoDup_cons in Hnd as [Hhead Hrest].
    rewrite list_elem_of_In in Hhead.
    destruct (Nat.eqb (cb_id cb) id) eqn:Heq.
    + apply Nat.eqb_eq in Heq. subst id.
      split_and!; [assumption|assumption|tauto].
    + apply Nat.eqb_neq in Heq.
      destruct (IH Hrest) as (Hnd' & Hnot & Hsub).
      simpl. split_and!.
      * apply NoDup_cons. split; [|assumption].
        rewrite list_elem_of_In. intros Hin. apply Hhead, Hsub, Hin.
      * intros [Hid|Hin]; [congruence|contradiction].
      * intros j [Hj|Hj]; [left; assumption|right; apply Hsub, Hj].
Qed.

Lemma remove_first_snoc cb cbs :
  ~ In (cb_id cb) (map cb_id cbs) ->
  remove_first (cb_id cb) (cbs ++ [cb]) = cbs.
Proof.
  induction cbs as [|c rest IH]; simpl; intros Hnot.
  - rewrite Nat.eqb_refl. reflexivity.
  - destruct (Nat.eqb (cb_id c) (cb_id cb)) eqn:Heq.
    + apply Nat.eqb_eq in Heq. exfalso. apply Hnot. left. exact Heq.
    + rewrite IH by tauto. reflexivity.
Qed.

(** A callback is registered at most once, however often it is added: the
    list of callbacks of a new container has no callback twice, and
    neither [add_callback] nor [remove_callback] changes that.  Adding a
    callback that is registered changes nothing; after [remove_callback]
    the callback is not registered; and removing a callback that has just
    been added to a container that did not have it gives the container
    back as it was. *)
Theorem callbacks_are_registered_once t cb :
  NoDup (map cb_id (_callbacks (init (T := T) (W := W) (_value t) (_name t))))
  /\ has_callback (cb_id cb) (add_callback cb t) = true
  /\ add_callback cb (add_callback cb t) = add_callback cb t
  /\ (has_callback (cb_id cb) t = false ->
      remove_callback cb (add_callback cb t) = t)
  /\ (NoDup (map cb_id (_callbacks t)) ->
      NoDup (map cb_id (_callbacks (add_callback cb t)))
      /\ NoDup (map cb_id (_callbacks (remove_callback cb t)))
      /\ has_callback (cb_id cb) (remove_callback cb t) = false).
Proof.
  assert (Hadded : has_callback (cb_id cb) (add_callback cb t) = true).
  { unfold add_callback.
    destruct (has_callback (cb_id cb) t) eqn:Hhas; [exact Hhas|].
    unfold has_callback. simpl. rewrite existsb_app. simpl.
    rewrite Nat.eqb_refl, orb_true_r. reflexivity. }
  split_and!.
  - constructor.
  - exact Hadded.
  - unfold add_callback at 1. rewrite Hadded. reflexivity.
  - intros Hnew. unfold remove_callback. rewrite Hadded.
    unfold add_callback. rewrite Hnew. simpl.
    rewrite remove_first_snoc.
    + destruct t; reflexivity.
    + intros Hin. apply existsb_id_In in Hin.
      unfold has_callback in Hnew. congruence.
  - intros Hnd. split_and!.
    + unfold add_callback.
      destruct (has_callback (cb_id cb) t) eqn:Hhas; [exact Hnd|].
      simpl. rewrite map_app. simpl. apply NoDup_app. split_and!.
      * exact Hnd.
      * intros id Hin Hid. apply list_elem_of_In in Hin.
        apply list_elem_of_In in Hid. destruct Hid as [<-|[]].
        apply existsb_id_In in Hin. unfold has_callback in Hhas. congruence.
      * apply NoDup_singleton.
    + unfold remove_callback.
      destruct (has_callback (cb_id cb) t); [|exact Hnd].
      simpl. apply remove_first_ids. exact Hnd.
    + unfold remove_callback.
      destruct (has_callback (cb_id cb) t) eqn:Hhas; [|exact Hhas].
      unfold has_callback. simpl.
      destruct (remove_first_ids (cb_id cb) (_callbacks t) Hnd)
        as (_ & Hnot & _).
      destruct (existsb _ (remove_first (cb_id cb) (_callbacks t))) eqn:Hex;
        [|reflexivity].
      exfalso. apply Hnot. apply existsb_id_In. exact Hex.
Qed.

End Facts.

(** The theorem at the flag with its two observers. *)
Lemma callbacks_are_registered_once_witness :
  let cb := {| cb_id := 2;
               cb_run := fun (_ _ : bool) (n : nat) => (CbReturn, n) |} in
  add_callback cb Samples.observed_flag = Samples.observed_flag
  /\ map cb_id (_callbacks (remove_callback cb Samples.observed_flag)) = [1%nat].
Proof.
  intros cb.
  destruct (callbacks_are_registered_once Samples.observed_flag cb)
    as (_ & _ & Hagain & _ & Hinv).
  destruct Hinv as (_ & Hnd & Hgone).
  - apply NoDup_cons. split; [|apply NoDup_singleton].
    intros Hin. apply list_elem_of_In in Hin. simpl in Hin.
    destruct Hin as [Hin|[]]. discriminate Hin.
  - split; [exact Hagain|reflexivity].
Defined.

End CallbackFacts.
